(** * Virtuals-ACP-Agent: the orchestration core, embedded and verified

    A shallow embedding of the pipeline of [dist/core/orchestrator.js] and of
    the modules it drives ([utils/retry], [modules/confidenceScorer],
    [modules/utilityClassifier], [modules/toneProfile],
    [modules/creativeBrief], [modules/tokenResolver], [modules/logoManager],
    [modules/postGenerator], [modules/bannerGenerator],
    [modules/websiteScraper], [modules/assetUploader]), with the video
    generator of the TypeScript sources ([src/modules/videoGenerator.ts])
    and the orchestrator of the TypeScript sources that calls it
    ([src/core/orchestrator.ts], module [Ts]).

    Conventions.
    - A JavaScript number that holds a count, a timestamp or a delay is a [Z].
    - A JavaScript string is a [string] that holds the UTF-8 bytes of the
      text.  [length] counts UTF-16 code units, as JavaScript does;
      [trim] removes the white space of JavaScript, ASCII or not;
      [toLowerCase] and [toUpperCase] act on the ASCII letters and leave the
      bytes of every other character as they are.
    - An optional field ([x?: T], [T | null]) is an [option]; the truthiness
      tests of the source ([if (x)], [x || d]) are written out.
    - An [async] function is a computation in the monad [M]: it threads the
      state of the outside world and either returns a value or throws.
      [await] is sequencing.  Logging has no influence on control flow and is
      left out. *)

From Stdlib Require Import ZArith Bool List Lia Ascii String DecimalString HexadecimalString.
From stdpp Require Import gmap strings.

Open Scope string_scope.
Open Scope list_scope.
Open Scope Z_scope.

(* ================================================================== *)
(** * Part I: definitions                                              *)
(* ================================================================== *)

(** ** JavaScript strings *)

Module Js.

(** [if (s)] on a string: the empty string is the only falsy one. *)
Definition truthy (s : string) : bool :=
  match s with EmptyString => false | String _ _ => true end.

(** [o || d] where [o] is an optional string. *)
Definition orElse (o : option string) (d : string) : string :=
  match o with
  | Some s => if truthy s then s else d
  | None => d
  end.

(** [!!o] on an optional string. *)
Definition present (o : option string) : bool :=
  match o with Some s => truthy s | None => false end.

Definition isUpper (c : ascii) : bool :=
  let n := nat_of_ascii c in (65 <=? n)%nat && (n <=? 90)%nat.

Definition isLower (c : ascii) : bool :=
  let n := nat_of_ascii c in (97 <=? n)%nat && (n <=? 122)%nat.

Definition lowerChar (c : ascii) : ascii :=
  if isUpper c then ascii_of_nat (nat_of_ascii c + 32) else c.

Definition upperChar (c : ascii) : ascii :=
  if isLower c then ascii_of_nat (nat_of_ascii c - 32) else c.

Fixpoint mapChars (f : ascii -> ascii) (s : string) : string :=
  match s with
  | EmptyString => EmptyString
  | String c r => String (f c) (mapChars f r)
  end.

Definition toLowerCase : string -> string := mapChars lowerChar.
Definition toUpperCase : string -> string := mapChars upperChar.

(** [s.startsWith(p)] *)
Fixpoint startsWith (s p : string) {struct p} : bool :=
  match p, s with
  | EmptyString, _ => true
  | String _ _, EmptyString => false
  | String a p', String b s' => Ascii.eqb a b && startsWith s' p'
  end.

(** [s.includes(p)]: [p] occurs somewhere in [s]. *)
Fixpoint includes (s p : string) : bool :=
  startsWith s p ||
  match s with
  | EmptyString => false
  | String _ r => includes r p
  end.

(** [s.charAt(0).toUpperCase() + s.slice(1)] *)
Definition capitalizeFirst (s : string) : string :=
  match s with
  | EmptyString => EmptyString
  | String c r => String (upperChar c) r
  end.

(** The white space [trim] removes: within ASCII, TAB, LF, VT, FF, CR and
    the space. *)
Definition isSpace (c : ascii) : bool :=
  let n := nat_of_ascii c in ((9 <=? n)%nat && (n <=? 13)%nat) || (n =? 32)%nat.

(** Beyond ASCII, in two bytes of UTF-8: the no-break space U+00A0. *)
Definition isSpace2 (c d : ascii) : bool :=
  (nat_of_ascii c =? 194)%nat && (nat_of_ascii d =? 160)%nat.

(** In three bytes: U+1680, U+2000 to U+200A, the line and paragraph
    separators U+2028 and U+2029, U+202F, U+205F, the ideographic space
    U+3000 and the byte order mark U+FEFF. *)
Definition isSpace3 (c d e : ascii) : bool :=
  let a := nat_of_ascii c in
  let b := nat_of_ascii d in
  let n := nat_of_ascii e in
  ((a =? 225) && (b =? 154) && (n =? 128))%nat
  || ((a =? 226) && (b =? 128)
      && (((128 <=? n) && (n <=? 138)) || (n =? 168) || (n =? 169) || (n =? 175)))%nat
  || ((a =? 226) && (b =? 129) && (n =? 159))%nat
  || ((a =? 227) && (b =? 128) && (n =? 128))%nat
  || ((a =? 239) && (b =? 187) && (n =? 191))%nat.

(** What follows the white space character [s] starts with, if it starts
    with one. *)
Definition afterSpace (s : string) : option string :=
  match s with
  | EmptyString => None
  | String c r1 =>
      if isSpace c then Some r1
      else match r1 with
           | EmptyString => None
           | String d r2 =>
               if isSpace2 c d then Some r2
               else match r2 with
                    | EmptyString => None
                    | String e r3 => if isSpace3 c d e then Some r3 else None
                    end
           end
  end.

(** [s.trimStart()]: white space characters are dropped as long as [s]
    starts with one, [trimStart s = match afterSpace s with Some r =>
    trimStart r | None => s end]. *)
Fixpoint trimStart (s : string) : string :=
  match s with
  | EmptyString => EmptyString
  | String c r1 =>
      if isSpace c then trimStart r1
      else match r1 with
           | EmptyString => s
           | String d r2 =>
               if isSpace2 c d then trimStart r2
               else match r2 with
                    | EmptyString => s
                    | String e r3 => if isSpace3 c d e then trimStart r3 else s
                    end
           end
  end.

(** [s.trimEnd()]: the text is cut where nothing but white space follows. *)
Fixpoint trimEnd (s : string) : string :=
  match s with
  | EmptyString => EmptyString
  | String c r =>
      match trimStart s with
      | EmptyString => EmptyString
      | String _ _ => String c (trimEnd r)
      end
  end.

Definition trim (s : string) : string := trimEnd (trimStart s).

(** [s.split(/[.!?]/)[0]]: the text before the first sentence mark. *)
Definition isSentenceEnd (c : ascii) : bool :=
  Ascii.eqb c "." || Ascii.eqb c "!" || Ascii.eqb c "?".

Fixpoint splitHead (stop : ascii -> bool) (s : string) : string :=
  match s with
  | EmptyString => EmptyString
  | String c r => if stop c then EmptyString else String c (splitHead stop r)
  end.

(** [s.length].  A text is held as its UTF-8 bytes, and [length] counts
    UTF-16 code units: a byte that continues a character (0x80 to 0xBF)
    counts nothing, the first byte of a character outside the basic plane
    (0xF0 and above, four bytes, a surrogate pair) counts two, and every
    other first byte counts one. *)
Definition codeUnits (c : ascii) : Z :=
  let n := nat_of_ascii c in
  if (128 <=? n)%nat && (n <=? 191)%nat then 0
  else if (240 <=? n)%nat then 2
  else 1.

Fixpoint len (s : string) : Z :=
  match s with
  | EmptyString => 0
  | String c r => codeUnits c + len r
  end.

(** [s.repeat(n)] *)
Fixpoint repeat (s : string) (n : nat) : string :=
  match n with
  | O => EmptyString
  | S n' => s +:+ repeat s n'
  end.

(** [o || undefined] on an optional string. *)
Definition orUndefined (o : option string) : option string :=
  match o with
  | Some s => if truthy s then Some s else None
  | None => None
  end.

(** [`${n}`] for a whole number [n]. *)
Definition numberToString (n : Z) : string :=
  DecimalString.NilZero.string_of_int (Z.to_int n).

(** [n.toString(16).padStart(2, "0")] *)
Definition hexByte (n : Z) : string :=
  let digits := HexadecimalString.NilZero.string_of_int (Z.to_hex_int n) in
  if (String.length digits <? 2)%nat then "0" +:+ digits else digits.

End Js.

(** ** Types of [types/job.types] *)

Inductive UtilityClass := Protocol | Culture | Hybrid.

(** The string a [UtilityClass] is, as it appears in template literals. *)
Definition utilityClassName (u : UtilityClass) : string :=
  match u with
  | Protocol => "protocol"
  | Culture => "culture"
  | Hybrid => "hybrid"
  end.

Inductive ResolutionSource := Coingecko | Dexscreener | User | Fallback.

Definition resolutionSourceName (r : ResolutionSource) : string :=
  match r with
  | Coingecko => "coingecko"
  | Dexscreener => "dexscreener"
  | User => "user"
  | Fallback => "fallback"
  end.

Inductive DataSource := Website | ThematicOnly | Mixed.

Definition dataSourceName (d : DataSource) : string :=
  match d with
  | Website => "website"
  | ThematicOnly => "thematic_only"
  | Mixed => "mixed"
  end.

Record GenerateJobInput := {
  input_ticker : option string;
  input_contractAddress : option string;
  input_intent : option string;
  input_theme : option string
}.

Record SocialLinks := {
  social_twitter : option string;
  social_telegram : option string;
  social_discord : option string;
  social_website : option string
}.

(** The object literal [{}] as a [SocialLinks]. *)
Definition noSocialLinks : SocialLinks :=
  {| social_twitter := None; social_telegram := None;
     social_discord := None; social_website := None |}.

Record TokenResolution := {
  token_projectName : option string;
  token_description : option string;
  token_logoUrl : option string;
  token_contractAddress : option string;
  token_websiteUrl : option string;
  token_socialLinks : option SocialLinks;
  token_pairCreatedAt : option Z;
  resolutionSource : ResolutionSource
}.

Record WebsiteScrapeResult := {
  extractedText : option string;
  found : bool
}.

Record BrandColors := { primary : string; secondary : string }.

Record LogoResult := { finalLogoUrl : string; brandColors : BrandColors }.

Record CreativeBrief := {
  brief_projectName : string;
  brief_ticker : string;
  brief_utilityClass : UtilityClass;
  oneLiner : string;
  brief_logoUrl : string;
  brief_brandColors : BrandColors;
  tokenAgeSec : option Z;
  brief_socialLinks : SocialLinks
}.

Record ToneProfile := {
  tone_utilityClass : UtilityClass;
  tone_intent : string;
  tone_theme : string;
  profileName : string
}.

Record ConfidenceFactors := {
  websiteFound : bool;
  officialLogo : bool;
  allClipsSucceeded : bool;
  noFallbacksUsed : bool
}.

Record VisualThemes := {
  mood : string;
  color_cues : string;
  lighting_style : string;
  motion_style : string;
  texture_keywords : list string;
  clip1_prompt : string;
  clip2_prompt : string;
  clip3_prompt : string;
  image_prompt : string
}.

(** [posts] is the tuple [[string, string, string]]. *)
Record PostGenerationResult := {
  posts : string * string * string;
  visualThemes : VisualThemes
}.

Definition post1 (p : PostGenerationResult) : string := fst (fst (posts p)).
Definition post2 (p : PostGenerationResult) : string := snd (fst (posts p)).
Definition post3 (p : PostGenerationResult) : string := snd (posts p).

Record BannerResult := { heroBannerUrl : string }.

Record VideoResult := { launchVideoUrl : string; clipsSucceeded : Z }.

(** [generation_time_ms] is the time the timer of the job shows at the end,
    in milliseconds; the source reports it in seconds, rounded to two
    decimals in floating point. *)
Record GenerateJobOutput := {
  hero_banner_url : string;
  launch_video_url : string;
  x_post_1 : string;
  x_post_2 : string;
  x_post_3 : string;
  brand_colors : BrandColors;
  tone_profile : string;
  confidence_level : Z;
  generation_time_ms : Z;
  data_source : DataSource
}.

Record JobContext := {
  ctx_input : GenerateJobInput;
  ctx_token : TokenResolution;
  ctx_website : WebsiteScrapeResult;
  ctx_brief : CreativeBrief;
  ctx_tone : ToneProfile;
  ctx_posts : PostGenerationResult;
  ctx_logo : LogoResult;
  ctx_banner : BannerResult;
  ctx_video : VideoResult;
  ctx_confidence : ConfidenceFactors;
  ctx_fallbacksUsed : bool
}.

(** ** [modules/confidenceScorer]: [computeConfidence] *)

Definition computeConfidence (factors : ConfidenceFactors) : Z :=
  let score := 0 in
  let score := if websiteFound factors then score + 1 else score in
  let score := if officialLogo factors then score + 1 else score in
  let score := if allClipsSucceeded factors then score + 1 else score in
  let score := if noFallbacksUsed factors then score + 1 else score in
  Z.max 1 score.

(** The wording of the specification, to compare with: the number of true
    factors, clamped to the interval from [lo] to [hi]. *)
Definition countTrueFactors (factors : ConfidenceFactors) : Z :=
  Z.b2z (websiteFound factors) + Z.b2z (officialLogo factors)
  + Z.b2z (allClipsSucceeded factors) + Z.b2z (noFallbacksUsed factors).

Definition clamp (x lo hi : Z) : Z := Z.max lo (Z.min hi x).

(** [factors] with one more factor possibly true and none turned false. *)
Definition factorsLe (f g : ConfidenceFactors) : Prop :=
  (websiteFound f = true -> websiteFound g = true) /\
  (officialLogo f = true -> officialLogo g = true) /\
  (allClipsSucceeded f = true -> allClipsSucceeded g = true) /\
  (noFallbacksUsed f = true -> noFallbacksUsed g = true).

(** ** [core/orchestrator]: [determineDataSource] *)

Definition isOfficialSource (r : ResolutionSource) : bool :=
  match r with
  | Coingecko | Dexscreener => true
  | User | Fallback => false
  end.

Definition determineDataSource (websiteFound : bool) (src : ResolutionSource)
  : DataSource :=
  if websiteFound &&
     (match src with Coingecko => true | _ => false end
      || match src with Dexscreener => true | _ => false end)
  then Website
  else if negb websiteFound && match src with Fallback => true | _ => false end
  then ThematicOnly
  else Mixed.

(** ** [modules/toneProfile] *)

Definition TWENTY_FOUR_HOURS_SEC : Z := 86400.

Definition PROFILE_NAMES : gmap string string :=
  list_to_map [
    ("protocol:launch:minimalist", "The Institutional Reveal");
    ("protocol:launch:cyberpunk", "The Genesis Protocol");
    ("protocol:hype:cyberpunk", "The Builder's Signal");
    ("protocol:hype:minimalist", "The Quiet Powerhouse");
    ("protocol:stealth:cyberpunk", "The Shadow Architect");
    ("protocol:stealth:minimalist", "The Silent Deploy");
    ("protocol:engage:space", "The Frontier Builder");
    ("protocol:engage:minimalist", "The Open Standard");
    ("culture:launch:retro-arcade", "The Pixel Drop");
    ("culture:launch:space", "The Cosmic Debut");
    ("culture:hype:retro-arcade", "The Hype Machine");
    ("culture:hype:space", "The Galactic Wave");
    ("culture:stealth:retro-arcade", "The Underground Legend");
    ("culture:stealth:space", "The Dark Horse");
    ("culture:engage:space", "The Community Arc");
    ("culture:engage:retro-arcade", "The Player One Alliance");
    ("hybrid:launch:cyberpunk", "The Dual Signal");
    ("hybrid:launch:minimalist", "The Crossover Event");
    ("hybrid:hype:cyberpunk", "The Momentum Stack");
    ("hybrid:hype:space", "The Orbital Push");
    ("hybrid:stealth:retro-arcade", "The Hidden Gem");
    ("hybrid:engage:space", "The Coalition Build")
  ].

Definition resolveIntent (userIntent : option string) (tokenAgeSec : option Z)
  : string :=
  if Js.present userIntent then Js.toLowerCase (default "" userIntent)
  else
    match tokenAgeSec with
    | Some age => if age <? TWENTY_FOUR_HOURS_SEC then "launch" else "hype"
    | None => "hype"
    end.

Definition resolveTheme (userTheme : option string) (utilityClass : UtilityClass)
  : string :=
  if Js.present userTheme then Js.toLowerCase (default "" userTheme)
  else
    match utilityClass with
    | Protocol => "minimalist"
    | Culture => "retro-arcade"
    | Hybrid => "cyberpunk"
    end.

(** The key [`${utilityClass}:${intent}:${theme}`]. *)
Definition profileKey (utilityClass : UtilityClass) (intent theme : string)
  : string :=
  utilityClassName utilityClass +:+ ":" +:+ intent +:+ ":" +:+ theme.

(** The name made up for a combination the table does not list. *)
Definition dynamicProfileName (utilityClass : UtilityClass) (intent : string)
  : string :=
  let classLabel := Js.capitalizeFirst (utilityClassName utilityClass) in
  let intentLabel := Js.capitalizeFirst intent in
  "The " +:+ classLabel +:+ " " +:+ intentLabel.

(** [if (PROFILE_NAMES[key]) return PROFILE_NAMES[key]]: the entry is
    returned when it is there and truthy.  A key has two colons, so it is
    never the name of a property an object inherits. *)
Definition resolveProfileName (utilityClass : UtilityClass) (intent theme : string)
  : string :=
  let key := profileKey utilityClass intent theme in
  match PROFILE_NAMES !! key with
  | Some name =>
      if Js.truthy name then name else dynamicProfileName utilityClass intent
  | None => dynamicProfileName utilityClass intent
  end.

Definition resolveToneProfile (utilityClass : UtilityClass)
  (userIntent userTheme : option string) (tokenAgeSec : option Z) : ToneProfile :=
  let intent := resolveIntent userIntent tokenAgeSec in
  let theme := resolveTheme userTheme utilityClass in
  let profileName := resolveProfileName utilityClass intent theme in
  {| tone_utilityClass := utilityClass;
     tone_intent := intent;
     tone_theme := theme;
     profileName := profileName |}.

(** ** [modules/utilityClassifier] *)

Definition PROTOCOL_SIGNALS : list string := [
  "ai"; "neural"; "infrastructure"; "protocol"; "agent";
  "chain"; "defi"; "oracle"; "layer"; "rollup"; "zk";
  "bridge"; "swap"; "dao"; "governance"; "staking";
  "validator"; "node"; "sdk"; "api"; "smart contract"
].

Definition CULTURE_SIGNALS : list string := [
  "meme"; "community"; "moon"; "dog"; "vibes";
  "pepe"; "degen"; "ape"; "frog"; "cat";
  "nft"; "pfp"; "wagmi"; "gm"; "fren";
  "shib"; "wojak"; "chad"
].

(** [for (const s of signals) if (text.includes(s)) hits++] *)
Definition countHits (text : string) (signals : list string) : Z :=
  fold_left (fun hits s => if Js.includes text s then hits + 1 else hits)
            signals 0.

Definition classifyUtility (description projectName : string) : UtilityClass :=
  let text := Js.toLowerCase (projectName +:+ " " +:+ description) in
  let protocolHits := countHits text PROTOCOL_SIGNALS in
  let cultureHits := countHits text CULTURE_SIGNALS in
  if (0 <? protocolHits) && (0 <? cultureHits) then
    (if cultureHits <=? protocolHits then Hybrid else Hybrid)
  else if 0 <? protocolHits then Protocol
  else if 0 <? cultureHits then Culture
  else Hybrid.

(** What the claims call a keyword hit: the keyword occurs in the text. *)
Definition Occurs (p text : string) : Prop :=
  exists before after, text = before +:+ p +:+ after.






(** ** [modules/creativeBrief]: [buildCreativeBrief] *)

(** [text.split(/[.!?]/)[0]?.trim()] *)
Definition firstSentenceOf (text : string) : string :=
  Js.trim (Js.splitHead Js.isSentenceEnd text).

(** The fallback one-liner [`${projectName} — a ${utilityClass} token on Base`]. *)
Definition templatedOneLiner (projectName : string) (utilityClass : UtilityClass)
  : string :=
  projectName +:+ " — a " +:+ utilityClassName utilityClass +:+ " token on Base".

(** [now] is the value [Date.now()] has when the brief is built. *)
Definition buildCreativeBrief (now : Z) (ticker : string) (token : TokenResolution)
  (logo : LogoResult) (utilityClass : UtilityClass) (website : WebsiteScrapeResult)
  : CreativeBrief :=
  let projectName := Js.orElse (token_projectName token) (Js.toUpperCase ticker) in
  let oneLiner := templatedOneLiner projectName utilityClass in
  let oneLiner :=
    if found website && Js.present (extractedText website) then
      let firstSentence := firstSentenceOf (default "" (extractedText website)) in
      if Js.truthy firstSentence && (10 <? Js.len firstSentence)
         && (Js.len firstSentence <=? 120)
      then firstSentence else oneLiner
    else oneLiner in
  let tokenAgeSec :=
    match token_pairCreatedAt token with
    | Some created =>
        if created =? 0 then None else Some ((now - created) / 1000)
    | None => None
    end in
  {| brief_projectName := projectName;
     brief_ticker := Js.toUpperCase ticker;
     brief_utilityClass := utilityClass;
     oneLiner := oneLiner;
     brief_logoUrl := finalLogoUrl logo;
     brief_brandColors := brandColors logo;
     tokenAgeSec := tokenAgeSec;
     brief_socialLinks := default noSocialLinks (token_socialLinks token) |}.

(** ** [core/orchestrator]: [extractTagline], [extractCta] *)

Definition extractTagline (firstPost ticker : string) : string :=
  let sentence := firstSentenceOf firstPost in
  if Js.truthy sentence && (10 <? Js.len sentence) && (Js.len sentence <=? 80)
  then sentence
  else "$" +:+ Js.toUpperCase ticker +:+ " — The Next Chapter".

(** [s.split(re)] for a one-character class [re]: every piece, in order. *)
Fixpoint splitAll (stop : ascii -> bool) (s : string) : list string :=
  match s with
  | EmptyString => [EmptyString]
  | String c r =>
      if stop c then EmptyString :: splitAll stop r
      else match splitAll stop r with
           | piece :: pieces => String c piece :: pieces
           | [] => [String c EmptyString]
           end
  end.

Definition isLineEnd (c : ascii) : bool :=
  Js.isSentenceEnd c || Ascii.eqb c "010".

Definition extractCta (firstPost ticker : string) : string :=
  let lines := List.filter Js.truthy
                           (map Js.trim (splitAll isLineEnd firstPost)) in
  match List.find (fun l => (5 <? Js.len l) && (Js.len l <=? 50)) lines with
  | Some short => short
  | None => "$" +:+ Js.toUpperCase ticker
  end.

(** ** Asynchronous computations

    What a JavaScript function throws is an [Error], known by its message,
    or, in [withRetry] when the loop never ran, the value [undefined]. *)

Inductive Thrown := Undefined | Error (message : string).

Inductive Completion (A : Type) := Returns (a : A) | Throws (e : Thrown).
Arguments Returns {A} a.
Arguments Throws {A} e.

(** An [async] function body: from a state of the world to a completion
    and the state it leaves. *)
Definition M (World A : Type) : Type := World -> Completion A * World.

(** What the runtime offers: [setTimeout] waits, [Date.now()] reads the
    clock. *)
Class System (World : Type) := {
  sleep : Z -> World -> World;
  clock : World -> Z
}.

Section Async.
Context {World : Type} `{System World}.

Definition ret {A} (a : A) : M World A := fun w => (Returns a, w).

Definition throw {A} (e : Thrown) : M World A := fun w => (Throws e, w).

Definition bind {A B} (c : M World A) (k : A -> M World B) : M World B :=
  fun w =>
    match c w with
    | (Returns a, w') => k a w'
    | (Throws e, w') => (Throws e, w')
    end.

(** [try { c } catch (err) { handler err }] *)
Definition tryCatch {A} (c : M World A) (handler : Thrown -> M World A)
  : M World A :=
  fun w =>
    match c w with
    | (Returns a, w') => (Returns a, w')
    | (Throws e, w') => handler e w'
    end.

(** [await new Promise((r) => setTimeout(r, ms))] *)
Definition wait (ms : Z) : M World unit := fun w => (Returns tt, sleep ms w).

(** [Date.now()] *)
Definition dateNow : M World Z := fun w => (Returns (clock w), w).

(** [Promise.all([a, b])]: both run to their end, one after the other in
    this model; the result is rejected when one of them is. *)
Definition promiseAll2 {A B} (a : M World A) (b : M World B) : M World (A * B) :=
  fun w =>
    let (ra, w1) := a w in
    let (rb, w2) := b w1 in
    match ra, rb with
    | Returns x, Returns y => (Returns (x, y), w2)
    | Throws e, _ => (Throws e, w2)
    | Returns _, Throws e => (Throws e, w2)
    end.

(** [Promise.allSettled(cs)]: every outcome is collected, none is thrown. *)
Fixpoint allSettled {A} (cs : list (M World A)) : M World (list (Completion A)) :=
  match cs with
  | [] => ret []
  | c :: rest =>
      fun w =>
        let (r, w1) := c w in
        match allSettled rest w1 with
        | (Returns rs, w2) => (Returns (r :: rs), w2)
        | (Throws e, w2) => (Throws e, w2)
        end
  end.

End Async.

Declare Scope async_scope.
Delimit Scope async_scope with async.
Notation "x <- c ;; k" := (bind c (fun x => k))
  (at level 100, c at next level, right associativity) : async_scope.
Open Scope async_scope.

(** ** [utils/retry]: [withRetry] *)

Record RetryOptions := {
  maxRetries : option Z;
  baseDelayMs : option Z;
  label : option string
}.

(** The default argument [opts = {}]. *)
Definition noRetryOptions : RetryOptions :=
  {| maxRetries := None; baseDelayMs := None; label := None |}.

Section Retry.
Context {World : Type} `{System World} {A : Type}.

(** The [for] loop, from the value [attempt] on.  [fuel] bounds the number
    of iterations left; the loop test [attempt <= maxRetries] is the one of
    the source, and [withRetry] gives as much fuel as the test lets
    through. *)
Fixpoint retryLoop (fn : M World A) (maxRetries baseDelayMs : Z)
  (fuel : nat) (attempt : Z) (lastError : Thrown) : M World A :=
  match fuel with
  | O => throw lastError
  | S fuel' =>
      if attempt <=? maxRetries then
        tryCatch fn (fun err =>
          _ <- (if attempt <? maxRetries
                then wait (baseDelayMs * 2 ^ attempt)
                else ret tt) ;;
          retryLoop fn maxRetries baseDelayMs fuel' (attempt + 1) err)
      else throw lastError
  end.

Definition withRetry (fn : M World A) (opts : RetryOptions) : M World A :=
  let maxRetries := default 2 (maxRetries opts) in
  let baseDelayMs := default 1000 (baseDelayMs opts) in
  retryLoop fn maxRetries baseDelayMs (Z.to_nat (maxRetries + 1)) 0 Undefined.

End Retry.

(** ** Observing a run of [withRetry]

    To count invocations and waits, the operation is run in a world that
    keeps a journal next to the state of the real one. *)

Inductive Event (A : Type) :=
  | Invoked (outcome : Completion A)
  | Waited (ms : Z).
Arguments Invoked {A} outcome.
Arguments Waited {A} ms.

Record Probe (World A : Type) := {
  inner : World;
  journal : list (Event A)
}.
Arguments inner {World A} p.
Arguments journal {World A} p.

Definition probeStart {World A} (w : World) : Probe World A :=
  {| inner := w; journal := [] |}.

#[export] Instance Probe_System {World A} `{System World} : System (Probe World A) := {
  sleep ms p := {| inner := sleep ms (inner p);
                   journal := journal p ++ [Waited ms] |};
  clock p := clock (inner p)
}.

(** The operation [fn], noting each of its invocations in the journal. *)
Definition probed {World A} (fn : M World A) : M (Probe World A) A :=
  fun p =>
    let (r, w') := fn (inner p) in
    (r, {| inner := w'; journal := journal p ++ [Invoked r] |}).

(** The journal of the failed attempts numbered [attempt], [attempt + 1],
    ..., which threw [errs] in this order, each followed by the wait before
    the next attempt. *)
Fixpoint failedAttempts {A} (baseDelayMs : Z) (attempt : Z) (errs : list Thrown)
  : list (Event A) :=
  match errs with
  | [] => []
  | e :: rest =>
      Invoked (Throws e) :: Waited (baseDelayMs * 2 ^ attempt)
      :: failedAttempts baseDelayMs (attempt + 1) rest
  end.

Definition invocations {A} (j : list (Event A)) : Z :=
  Z.of_nat (List.length (List.filter
    (fun ev => match ev with Invoked _ => true | Waited _ => false end) j)).

(** ** What the modules call outside the repository

    [process.env], the remote services and the image libraries.  A call can
    end in an exception; what a call does to the world is not fixed. *)

Record Env := {
  S3_BUCKET : option string;
  S3_PUBLIC_URL : option string;
  SHOTSTACK_API_KEY : option string;
  RUNWAY_API_KEY : option string;
  OPENAI_API_KEY : option string;
  OPENAI_MODEL : option string
}.

Definition Buffer := string.

Record BaseToken := { bt_address : string; bt_name : string; bt_symbol : string }.

Record SocialEntry := { social_type : option string; social_url : option string }.

Record PairInfo := {
  imageUrl : option string;
  websites : option (list string);
  socials : option (list SocialEntry)
}.

Record DexScreenerPair := {
  chainId : string;
  baseToken : BaseToken;
  info : option PairInfo;
  pairCreatedAt : option Z
}.

Definition Rgb : Type := Z * Z * Z.

Record Remote (World : Type) := {
  (** [axios.get(`${DEXSCREENER_BASE}/latest/dex/search`, ...)], then [res.data.pairs] *)
  dexSearch : string -> M World (option (list DexScreenerPair));
  (** [axios.get(`${DEXSCREENER_BASE}/tokens/v1/${TARGET_CHAIN}/${address}`)], then [res.data.pairs] *)
  dexTokens : string -> M World (option (list DexScreenerPair));
  (** [axios.get(url, { responseType: "text" })], then [res.data] *)
  httpGetText : string -> M World string;
  (** [axios.get(url, { responseType: "arraybuffer" })], then [res.data] *)
  httpGetBuffer : string -> M World Buffer;
  (** [client.send(new PutObjectCommand({ Bucket, Key, Body, ContentType }))] *)
  s3Send : string -> string -> Buffer -> string -> M World unit;
  (** [client.chat.completions.create(...)], then [choices[0]?.message?.content] *)
  chatCompletion : string -> string -> string -> M World (option string);
  (** [client.images.generate(...)], then [response.data?.[0]?.url] *)
  imagesGenerate : string -> M World (option string);
  (** [axios.post(`${getShotstackBase()}/render`, ...)], then [data?.response?.id] *)
  shotstackRender : string -> string -> M World (option string);
  (** [pollShotstackRender(renderId, apiKey)]: the URL of the render, or an
      exception when the render fails or takes too long *)
  shotstackPoll : string -> string -> M World string;
  (** [client.textToVideo.create(...).waitForTaskOutput()], then [task.output?.[0]] *)
  runwayTextToVideo : string -> string -> M World (option string);
  (** [sharp(buffer).png().toBuffer()] *)
  sharpPng : Buffer -> M World Buffer;
  (** [sharp(buffer).jpeg({ quality: 90 }).toBuffer()] *)
  sharpJpeg : Buffer -> M World Buffer;
  (** [sharp(buffer).resize(1200, 628, { fit: "cover" }).jpeg(...).toBuffer()] *)
  sharpResizeJpeg : Buffer -> M World Buffer;
  (** the file written, then [ColorThief.getColor] and [ColorThief.getPalette] *)
  colorThief : Buffer -> M World (Rgb * option (list Rgb))
}.
Arguments dexSearch {World} _ _.
Arguments dexTokens {World} _ _.
Arguments httpGetText {World} _ _.
Arguments httpGetBuffer {World} _ _.
Arguments s3Send {World} _ _ _ _ _.
Arguments chatCompletion {World} _ _ _ _.
Arguments imagesGenerate {World} _ _.
Arguments shotstackRender {World} _ _ _.
Arguments shotstackPoll {World} _ _ _.
Arguments runwayTextToVideo {World} _ _ _.
Arguments sharpPng {World} _ _.
Arguments sharpJpeg {World} _ _.
Arguments sharpResizeJpeg {World} _ _.
Arguments colorThief {World} _ _.

(** The texts the modules build and read: prompts, markup, the JSON of a
    reply, the content of a page.  They are functions of their arguments;
    which ones does not matter to the flow of control. *)
Record Texts := {
  placeholderLogoSvg : string -> string;
  fallbackBackgroundSvg : string -> BrandColors -> string;
  bannerTimeline : string -> string -> string -> string;
  buildSystemPrompt : CreativeBrief -> ToneProfile -> string;
  buildUserPrompt : CreativeBrief -> ToneProfile -> WebsiteScrapeResult -> string;
  (** [parseResponse]: the posts and themes of a reply, or the templated
      ones when the reply cannot be read *)
  parseResponse : string -> string -> ToneProfile -> PostGenerationResult;
  buildDallePrompt : VisualThemes -> CreativeBrief -> ToneProfile -> string;
  videoTimeline : list string -> string -> BrandColors -> string -> string;
  fallbackVideoTimeline : string -> string -> string -> string;
  (** [extractContent]: the text of a page, at most 1500 characters *)
  extractContent : string -> string
}.

(** ** [modules/assetUploader], [modules/tokenResolver],
       [modules/websiteScraper], [modules/logoManager],
       [modules/postGenerator], [modules/bannerGenerator] *)

Definition TARGET_CHAIN : string := "base".

Definition addSocial (links : SocialLinks) (social : SocialEntry) : SocialLinks :=
  match social_type social with
  | None => links
  | Some ty =>
      let t := Js.toLowerCase ty in
      if String.eqb t "twitter" || String.eqb t "x" then
        {| social_twitter := social_url social;
           social_telegram := social_telegram links;
           social_discord := social_discord links;
           social_website := social_website links |}
      else if String.eqb t "telegram" then
        {| social_twitter := social_twitter links;
           social_telegram := social_url social;
           social_discord := social_discord links;
           social_website := social_website links |}
      else if String.eqb t "discord" then
        {| social_twitter := social_twitter links;
           social_telegram := social_telegram links;
           social_discord := social_url social;
           social_website := social_website links |}
      else links
  end.

Definition extractFromPair (pair : DexScreenerPair) : TokenResolution :=
  let logoUrl :=
    Js.orUndefined (match info pair with Some i => imageUrl i | None => None end) in
  let websiteUrl :=
    Js.orUndefined (match info pair with
                    | Some i => match websites i with
                                | Some (url :: _) => Some url
                                | _ => None
                                end
                    | None => None
                    end) in
  let contractAddress := Js.orUndefined (Some (bt_address (baseToken pair))) in
  let projectName := Js.orUndefined (Some (bt_name (baseToken pair))) in
  let pairCreatedAt :=
    match pairCreatedAt pair with
    | Some t => if t =? 0 then None else Some t
    | None => None
    end in
  let socialLinks :=
    {| social_twitter := None; social_telegram := None; social_discord := None;
       social_website := websiteUrl |} in
  let socialLinks :=
    match info pair with
    | Some i => match socials i with
                | Some entries => fold_left addSocial entries socialLinks
                | None => socialLinks
                end
    | None => socialLinks
    end in
  {| token_projectName := projectName;
     token_description := None;
     token_logoUrl := logoUrl;
     token_contractAddress := contractAddress;
     token_websiteUrl := websiteUrl;
     token_socialLinks := Some socialLinks;
     token_pairCreatedAt := pairCreatedAt;
     resolutionSource := Dexscreener |}.

Definition namedRetry (name : string) (retries : Z) : RetryOptions :=
  {| maxRetries := Some retries; baseDelayMs := None; label := Some name |}.

Section Modules.
Context {World : Type} `{System World}.
Variable remote : Remote World.
Variable env : Env.
Variable texts : Texts.

(** [new OpenAI({ apiKey: process.env.OPENAI_API_KEY })]: the constructor of
    the client throws when it is given no key, that is when the variable is
    not set. *)
Definition newOpenAI : M World unit :=
  match OPENAI_API_KEY env with
  | Some _ => ret tt
  | None =>
      throw (Error "The OPENAI_API_KEY environment variable is missing or empty; either provide it, or instantiate the OpenAI client with an apiKey option, like new OpenAI({ apiKey: 'My API Key' }).")
  end.

(** *** [modules/assetUploader] *)

Definition uploadBuffer (key : string) (buffer : Buffer) (contentType : string)
  : M World string :=
  if negb (Js.present (S3_BUCKET env)) then
    ret ("https://placeholder.s3.amazonaws.com/" +:+ key)
  else
    let bucket := default "" (S3_BUCKET env) in
    _ <- s3Send remote bucket key buffer contentType ;;
    ret (if Js.present (S3_PUBLIC_URL env)
         then default "" (S3_PUBLIC_URL env) +:+ "/" +:+ key
         else "https://" +:+ bucket +:+ ".s3.amazonaws.com/" +:+ key).

(** *** [modules/tokenResolver] *)

Definition searchDexScreener (ticker : string) : M World (option TokenResolution) :=
  pairs <- dexSearch remote ticker ;;
  match pairs with
  | None | Some [] => ret None
  | Some pairs =>
      match List.find (fun p => String.eqb (chainId p) TARGET_CHAIN
                                && String.eqb (Js.toLowerCase (bt_symbol (baseToken p)))
                                              (Js.toLowerCase ticker)) pairs with
      | Some matching => ret (Some (extractFromPair matching))
      | None =>
          match List.find (fun p => String.eqb (chainId p) TARGET_CHAIN) pairs with
          | Some basePair => ret (Some (extractFromPair basePair))
          | None => ret None
          end
      end
  end.

Definition lookupByAddress (contractAddress : string)
  : M World (option TokenResolution) :=
  pairs <- dexTokens remote contractAddress ;;
  match pairs with
  | None | Some [] => ret None
  | Some (first :: _) => ret (Some (extractFromPair first))
  end.

Definition userToken (contractAddress : string) : TokenResolution :=
  {| token_projectName := None; token_description := None; token_logoUrl := None;
     token_contractAddress := Some contractAddress; token_websiteUrl := None;
     token_socialLinks := None; token_pairCreatedAt := None;
     resolutionSource := User |}.

Definition fallbackToken : TokenResolution :=
  {| token_projectName := None; token_description := None; token_logoUrl := None;
     token_contractAddress := None; token_websiteUrl := None;
     token_socialLinks := None; token_pairCreatedAt := None;
     resolutionSource := Fallback |}.

(** Each strategy gives [Some] resolution when it [return]s one, and
    [None] when the function goes on to the next strategy. *)
Definition resolveToken (ticker contractAddress : option string)
  : M World TokenResolution :=
  byTicker <-
    (if Js.present ticker then
       tryCatch
         (withRetry (searchDexScreener (default "" ticker))
                    (namedRetry "dexscreener-search" 2))
         (fun err => ret None)
     else ret None) ;;
  match byTicker with
  | Some resolution => ret resolution
  | None =>
      if Js.present contractAddress then
        byAddress <-
          tryCatch
            (withRetry (lookupByAddress (default "" contractAddress))
                       (namedRetry "dexscreener-address" 2))
            (fun err => ret None) ;;
        match byAddress with
        | Some resolution => ret resolution
        | None => ret (userToken (default "" contractAddress))
        end
      else ret fallbackToken
  end.

(** *** [modules/websiteScraper] *)

Definition notFound : WebsiteScrapeResult :=
  {| extractedText := None; found := false |}.

Definition fetchPage (url : string) : M World string := httpGetText remote url.

Definition scrapeWebsite (websiteUrl : option string) : M World WebsiteScrapeResult :=
  if negb (Js.present websiteUrl) then ret notFound
  else
    tryCatch
      (html <- withRetry (fetchPage (default "" websiteUrl))
                         (namedRetry "website-scrape" 2) ;;
       let extractedText := extractContent texts html in
       if negb (Js.truthy extractedText) || (Js.len extractedText <? 20)
       then ret notFound
       else ret {| extractedText := Some extractedText; found := true |})
      (fun err => ret notFound).

(** *** [modules/logoManager] *)

Definition downloadImage (url : string) : M World Buffer := httpGetBuffer remote url.

Definition createPlaceholderLogo (ticker : string) : M World Buffer :=
  sharpPng remote (placeholderLogoSvg texts ticker).

Definition rgbToHex (c : Rgb) : string :=
  let '(r, g, b) := c in "#" +:+ Js.hexByte r +:+ Js.hexByte g +:+ Js.hexByte b.

Definition extractColors (pngBuffer : Buffer) : M World BrandColors :=
  tryCatch
    (colors <- colorThief remote pngBuffer ;;
     let '(dominant, palette) := colors in
     let primary := rgbToHex dominant in
     let secondary :=
       match palette with
       | Some (_ :: second :: _) => rgbToHex second
       | _ => "#8b5cf6"
       end in
     ret {| primary := primary; secondary := secondary |})
    (fun err => ret {| primary := "#6366f1"; secondary := "#8b5cf6" |}).

Definition manageLogo (ticker : string) (logoUrl : option string) : M World LogoResult :=
  logoBuffer <-
    (if Js.present logoUrl then
       tryCatch
         (withRetry (downloadImage (default "" logoUrl)) (namedRetry "logo-download" 2))
         (fun err => createPlaceholderLogo ticker)
     else createPlaceholderLogo ticker) ;;
  pngBuffer <- sharpPng remote logoBuffer ;;
  brandColors <- extractColors pngBuffer ;;
  now <- dateNow ;;
  let key := "logos/" +:+ Js.toLowerCase ticker +:+ "-" +:+ Js.numberToString now
             +:+ ".png" in
  finalLogoUrl <- uploadBuffer key pngBuffer "image/png" ;;
  ret {| finalLogoUrl := finalLogoUrl; brandColors := brandColors |}.

(** *** [modules/postGenerator] *)

Definition generatePosts (brief : CreativeBrief) (tone : ToneProfile)
  (website : WebsiteScrapeResult) : M World PostGenerationResult :=
  _ <- newOpenAI ;;
  let model := Js.orElse (OPENAI_MODEL env) "gpt-4o" in
  let systemPrompt := buildSystemPrompt texts brief tone in
  let userPrompt := buildUserPrompt texts brief tone website in
  result <-
    withRetry
      (content <- chatCompletion remote model systemPrompt userPrompt ;;
       let text := Js.orElse content "" in
       ret (parseResponse texts text (brief_ticker brief) tone))
      (namedRetry "openai-post-gen" 2) ;;
  ret result.

(** *** [modules/bannerGenerator] *)

Definition generateBackground (prompt : string) : M World string :=
  _ <- newOpenAI ;;
  imageUrl <- imagesGenerate remote prompt ;;
  if negb (Js.present imageUrl) then throw (Error "No image URL in DALL-E response")
  else ret (default "" imageUrl).

Definition generateFallbackBackground (ticker : string) (colors : BrandColors)
  : M World string :=
  buffer <- sharpJpeg remote (fallbackBackgroundSvg texts ticker colors) ;;
  now <- dateNow ;;
  let key := "banners/fallback-" +:+ Js.toLowerCase ticker +:+ "-"
             +:+ Js.numberToString now +:+ ".jpg" in
  uploadBuffer key buffer "image/jpeg".

Definition compositeViaShotstack (bgUrl logoUrl tagline : string) (colors : BrandColors)
  : M World string :=
  if negb (Js.present (SHOTSTACK_API_KEY env)) then
    throw (Error "SHOTSTACK_API_KEY not set")
  else
    let apiKey := default "" (SHOTSTACK_API_KEY env) in
    renderId <- shotstackRender remote (bannerTimeline texts bgUrl logoUrl tagline) apiKey ;;
    if negb (Js.present renderId) then throw (Error "No render ID from Shotstack")
    else shotstackPoll remote (default "" renderId) apiKey.

Definition finalizeAndUpload (imageUrl ticker : string) : M World string :=
  data <- httpGetBuffer remote imageUrl ;;
  buffer <- sharpResizeJpeg remote data ;;
  now <- dateNow ;;
  let key := "banners/" +:+ Js.toLowerCase ticker +:+ "-" +:+ Js.numberToString now
             +:+ ".jpg" in
  uploadBuffer key buffer "image/jpeg".

Definition generateBanner (ticker : string) (visualThemes : VisualThemes)
  (logo : LogoResult) (tagline : string) (brief : CreativeBrief) (tone : ToneProfile)
  : M World BannerResult :=
  bgUrl <-
    tryCatch
      (let dallePrompt := buildDallePrompt texts visualThemes brief tone in
       withRetry (generateBackground dallePrompt) (namedRetry "dalle-bg-gen" 2))
      (fun err => generateFallbackBackground ticker (brandColors logo)) ;;
  compositeUrl <-
    tryCatch
      (withRetry (compositeViaShotstack bgUrl (finalLogoUrl logo) tagline
                                        (brandColors logo))
                 (namedRetry "shotstack-banner" 2))
      (fun err => ret bgUrl) ;;
  finalUrl <- finalizeAndUpload compositeUrl ticker ;;
  ret {| heroBannerUrl := finalUrl |}.

End Modules.

(** ** [src/modules/videoGenerator.ts]

    The video generator of the TypeScript sources: three clips are asked
    for.  (Of the generator the compiled orchestrator calls, with a brief, a
    tone and a call to action, only the declaration is at hand; the
    orchestrator below takes it as one of its stages.) *)

Section VideoGenerator.
Context {World : Type} `{System World}.
Variable remote : Remote World.
Variable env : Env.
Variable texts : Texts.

Definition generateRunwayClip (prompt : string) : M World string :=
  if negb (Js.present (RUNWAY_API_KEY env)) then throw (Error "RUNWAY_API_KEY not set")
  else
    outputUrl <- runwayTextToVideo remote prompt (default "" (RUNWAY_API_KEY env)) ;;
    if negb (Js.present outputUrl) then throw (Error "No output URL from Runway task")
    else ret (default "" outputUrl).

Definition stitchViaShotstack (clipUrls : list string) (ticker : string)
  (colors : BrandColors) (style : string) : M World string :=
  if negb (Js.present (SHOTSTACK_API_KEY env)) then
    throw (Error "SHOTSTACK_API_KEY not set")
  else
    let apiKey := default "" (SHOTSTACK_API_KEY env) in
    renderId <- shotstackRender remote (videoTimeline texts clipUrls ticker colors style)
                                apiKey ;;
    if negb (Js.present renderId) then throw (Error "No render ID from Shotstack")
    else shotstackPoll remote (default "" renderId) apiKey.

Definition generateFallbackVideo (ticker bannerUrl : string) (logo : LogoResult)
  (style : string) : M World string :=
  if negb (Js.present (SHOTSTACK_API_KEY env)) then ret bannerUrl
  else
    let apiKey := default "" (SHOTSTACK_API_KEY env) in
    tryCatch
      (renderId <- shotstackRender remote
                     (fallbackVideoTimeline texts ticker bannerUrl style) apiKey ;;
       if negb (Js.present renderId) then throw (Error "No render ID")
       else shotstackPoll remote (default "" renderId) apiKey)
      (fun err => ret bannerUrl).

Definition finalizeAndUploadVideo (videoUrl ticker : string) : M World string :=
  tryCatch
    (data <- httpGetBuffer remote videoUrl ;;
     now <- dateNow ;;
     let key := "videos/" +:+ Js.toLowerCase ticker +:+ "-" +:+ Js.numberToString now
                +:+ ".mp4" in
     uploadBuffer remote env key data "video/mp4")
    (fun err => ret videoUrl).

(** [clipResults.map(...)] and [clips.filter((c) => c !== null)]: the URLs of
    the clips that were generated. *)
Fixpoint fulfilledValues (results : list (Completion string)) : list string :=
  match results with
  | [] => []
  | Returns url :: rest => url :: fulfilledValues rest
  | Throws _ :: rest => fulfilledValues rest
  end.

Definition clipPromptsOf (visualThemes : VisualThemes) : list string :=
  [clip1_prompt visualThemes; clip2_prompt visualThemes; clip3_prompt visualThemes].

Definition generateVideo (ticker : string) (visualThemes : VisualThemes)
  (logo : LogoResult) (bannerUrl style : string) : M World VideoResult :=
  let clipPrompts := clipPromptsOf visualThemes in
  clipResults <-
    allSettled
      (imap (fun i prompt =>
               withRetry (generateRunwayClip prompt)
                         (namedRetry ("runway-clip-" +:+ Js.numberToString (Z.of_nat i + 1)) 1))
            clipPrompts) ;;
  let successfulClips := fulfilledValues clipResults in
  let clipsSucceeded := Z.of_nat (List.length successfulClips) in
  match successfulClips with
  | [] =>
      fallbackUrl <- generateFallbackVideo ticker bannerUrl logo style ;;
      ret {| launchVideoUrl := fallbackUrl; clipsSucceeded := 0 |}
  | firstClip :: _ =>
      videoUrl <-
        tryCatch
          (withRetry (stitchViaShotstack successfulClips ticker (brandColors logo) style)
                     (namedRetry "shotstack-video-stitch" 2))
          (fun err => ret firstClip) ;;
      finalUrl <- finalizeAndUploadVideo videoUrl ticker ;;
      ret {| launchVideoUrl := finalUrl; clipsSucceeded := clipsSucceeded |}
  end.

End VideoGenerator.

(** ** [core/orchestrator]: [runPipeline] *)

(** The stages the orchestrator awaits. *)
Record Stages (World : Type) := {
  stage_resolveToken : option string -> option string -> M World TokenResolution;
  stage_scrapeWebsite : option string -> M World WebsiteScrapeResult;
  stage_manageLogo : string -> option string -> M World LogoResult;
  stage_generatePosts :
    CreativeBrief -> ToneProfile -> WebsiteScrapeResult -> M World PostGenerationResult;
  stage_generateBanner :
    string -> VisualThemes -> LogoResult -> string -> CreativeBrief -> ToneProfile ->
    M World BannerResult;
  stage_generateVideo :
    string -> VisualThemes -> LogoResult -> string -> CreativeBrief -> ToneProfile ->
    option string -> M World VideoResult
}.
Arguments stage_resolveToken {World} _ _ _.
Arguments stage_scrapeWebsite {World} _ _.
Arguments stage_manageLogo {World} _ _ _.
Arguments stage_generatePosts {World} _ _ _ _.
Arguments stage_generateBanner {World} _ _ _ _ _ _ _.
Arguments stage_generateVideo {World} _ _ _ _ _ _ _ _.

Section Orchestrator.
Context {World : Type} `{System World}.
Variable stages : Stages World.

(** The body of [runPipeline] up to the confidence factors: everything the
    job has gathered when its output is put together. *)
Definition runJob (input : GenerateJobInput) : M World JobContext :=
  let fallbacksUsed := false in
  token <- stage_resolveToken stages (input_ticker input)
                              (input_contractAddress input) ;;
  let fallbacksUsed :=
    match resolutionSource token with Fallback => true | _ => fallbacksUsed end in
  website <- stage_scrapeWebsite stages (token_websiteUrl token) ;;
  let ticker := Js.orElse (input_ticker input) "TOKEN" in
  logo <- stage_manageLogo stages ticker (token_logoUrl token) ;;
  let officialLogo :=
    Js.present (token_logoUrl token)
    && (match resolutionSource token with Coingecko => true | _ => false end
        || match resolutionSource token with Dexscreener => true | _ => false end) in
  let description :=
    Js.orElse (extractedText website) (Js.orElse (token_description token) "") in
  let projectName := Js.orElse (token_projectName token) ticker in
  let utilityClass := classifyUtility description projectName in
  now <- dateNow ;;
  let brief := buildCreativeBrief now ticker token logo utilityClass website in
  let tone := resolveToneProfile utilityClass (input_intent input) (input_theme input)
                                 (tokenAgeSec brief) in
  posts <- stage_generatePosts stages brief tone website ;;
  let tagline := extractTagline (post1 posts) ticker in
  let ctaText := extractCta (post1 posts) ticker in
  results <-
    promiseAll2
      (stage_generateBanner stages ticker (visualThemes posts) logo tagline brief tone)
      (stage_generateVideo stages ticker (visualThemes posts) logo (finalLogoUrl logo)
                           brief tone (Some ctaText)) ;;
  let bannerResult := fst results in
  let videoResult := snd results in
  let fallbacksUsed :=
    if clipsSucceeded videoResult <? 2 then true else fallbacksUsed in
  let factors :=
    {| websiteFound := found website;
       officialLogo := officialLogo;
       allClipsSucceeded := clipsSucceeded videoResult =? 2;
       noFallbacksUsed := negb fallbacksUsed |} in
  ret {| ctx_input := input; ctx_token := token; ctx_website := website;
         ctx_brief := brief; ctx_tone := tone; ctx_posts := posts;
         ctx_logo := logo; ctx_banner := bannerResult; ctx_video := videoResult;
         ctx_confidence := factors; ctx_fallbacksUsed := fallbacksUsed |}.

Definition jobOutput (ctx : JobContext) (generationTimeMs : Z) : GenerateJobOutput :=
  let confidenceLevel := computeConfidence (ctx_confidence ctx) in
  let dataSource :=
    determineDataSource (found (ctx_website ctx)) (resolutionSource (ctx_token ctx)) in
  {| hero_banner_url := heroBannerUrl (ctx_banner ctx);
     launch_video_url := launchVideoUrl (ctx_video ctx);
     x_post_1 := post1 (ctx_posts ctx);
     x_post_2 := post2 (ctx_posts ctx);
     x_post_3 := post3 (ctx_posts ctx);
     brand_colors := brandColors (ctx_logo ctx);
     tone_profile := profileName (ctx_tone ctx);
     confidence_level := confidenceLevel;
     generation_time_ms := generationTimeMs;
     data_source := dataSource |}.

Definition runPipeline (input : GenerateJobInput) : M World GenerateJobOutput :=
  start <- dateNow ;;
  ctx <- runJob input ;;
  finish <- dateNow ;;
  ret (jobOutput ctx (finish - start)).

End Orchestrator.

(** [stages] with another banner generator. *)
Definition withBanner {World : Type} (stages : Stages World)
  (banner : string -> VisualThemes -> LogoResult -> string -> CreativeBrief ->
            ToneProfile -> M World BannerResult) : Stages World :=
  {| stage_resolveToken := stage_resolveToken stages;
     stage_scrapeWebsite := stage_scrapeWebsite stages;
     stage_manageLogo := stage_manageLogo stages;
     stage_generatePosts := stage_generatePosts stages;
     stage_generateBanner := banner;
     stage_generateVideo := stage_generateVideo stages |}.

(** Two runs that end alike and leave the same world, whatever value they
    return. *)
Definition sameButValue {World A : Type} (r1 r2 : Completion A * World) : Prop :=
  match r1, r2 with
  | (Returns _, w1), (Returns _, w2) => w1 = w2
  | (Throws e1, w1), (Throws e2, w2) => e1 = e2 /\ w1 = w2
  | _, _ => False
  end.

(** The stages as the modules of the repository implement them, over the
    services [remote]; the video stage is given. *)
Definition sourceStages {World : Type} `{System World} (remote : Remote World)
  (env : Env) (texts : Texts)
  (video : string -> VisualThemes -> LogoResult -> string -> CreativeBrief ->
           ToneProfile -> option string -> M World VideoResult)
  : Stages World :=
  {| stage_resolveToken := resolveToken remote;
     stage_scrapeWebsite := scrapeWebsite remote texts;
     stage_manageLogo := manageLogo remote env texts;
     stage_generatePosts := generatePosts remote env texts;
     stage_generateBanner := generateBanner remote env texts;
     stage_generateVideo := video |}.

(** ** A simulated world, to run the definitions on

    Time in milliseconds and the number of requests sent so far.  Waiting
    moves the time on. *)

Record Sim := { sim_time : Z; sim_requests : Z }.

#[export] Instance Sim_System : System Sim := {
  sleep ms w := {| sim_time := sim_time w + ms; sim_requests := sim_requests w |};
  clock w := sim_time w
}.

Definition simStart : Sim := {| sim_time := 0; sim_requests := 0 |}.

(** A request in the simulated world: it is counted, takes a millisecond,
    and ends as [outcome] says from the state it is sent in. *)
Definition simRequest {A} (outcome : Sim -> Completion A) : M Sim A :=
  fun w => (outcome w, {| sim_time := sim_time w + 1;
                          sim_requests := sim_requests w + 1 |}).

(** A service that is down. *)
Definition simDown {A} : M Sim A :=
  simRequest (fun _ => Throws (Error "connect ECONNREFUSED")).

(** A service that is down during the first [until] milliseconds. *)
Definition simFlaky (until : Z) : M Sim string :=
  simRequest (fun w => if sim_time w <? until
                       then Throws (Error "connect ETIMEDOUT")
                       else Returns "ok").

(** *** Services, settings and texts to simulate *)

(** Services made of the given token lookup, page fetch, download, text
    model and clip generator.  The image model, the renderer and the storage
    are down; the image libraries, which run in the process, work. *)
Definition simLibraries (dex : string -> M Sim (option (list DexScreenerPair)))
  (page : string -> M Sim string) (download : string -> M Sim Buffer)
  (chat : string -> string -> string -> M Sim (option string))
  (runway : string -> string -> M Sim (option string)) : Remote Sim :=
  {| dexSearch := dex;
     dexTokens := dex;
     httpGetText := page;
     httpGetBuffer := download;
     s3Send := fun _ _ _ _ => simDown;
     chatCompletion := chat;
     imagesGenerate := fun _ => simDown;
     shotstackRender := fun _ _ => simDown;
     shotstackPoll := fun _ _ => simDown;
     runwayTextToVideo := runway;
     sharpPng := fun buffer => ret buffer;
     sharpJpeg := fun buffer => ret buffer;
     sharpResizeJpeg := fun buffer => ret buffer;
     colorThief := fun _ => ret ((99, 102, 241), Some [(99, 102, 241); (139, 92, 246)]) |}.

(** Every remote service is down. *)
Definition simNetworkDown : Remote Sim :=
  simLibraries (fun _ => simDown) (fun _ => simDown) (fun _ => simDown)
               (fun _ _ _ => simDown) (fun _ _ => simDown).

(** Only the text model answers. *)
Definition simOnlyChat : Remote Sim :=
  simLibraries (fun _ => simDown) (fun _ => simDown) (fun _ => simDown)
               (fun _ _ _ => simRequest (fun _ => Returns (Some "not JSON")))
               (fun _ _ => simDown).

(** A pair on the target chain, with a logo and a website. *)
Definition simListedPair : DexScreenerPair :=
  {| chainId := "base";
     baseToken := {| bt_address := "0xabc"; bt_name := "Doge Chain"; bt_symbol := "DOGE" |};
     info := Some {| imageUrl := Some "https://cdn.example/doge.png";
                     websites := Some ["https://doge.example"];
                     socials := None |};
     pairCreatedAt := None |}.

(** The token is listed, pages and files can be fetched, the text model
    answers and every clip is generated. *)
Definition simClipsUp : Remote Sim :=
  simLibraries
    (fun _ => simRequest (fun _ => Returns (Some [simListedPair])))
    (fun _ => simRequest (fun _ => Returns "Much chain. Very community of dogs and builders."))
    (fun url => simRequest (fun _ => Returns ("bytes of " +:+ url)))
    (fun _ _ _ => simRequest (fun _ => Returns (Some "not JSON")))
    (fun prompt _ => simRequest (fun _ => Returns (Some ("https://runway.example/" +:+ prompt)))).

(** The token cannot be looked up and no clip can be generated; pages and
    files can be fetched and the text model answers. *)
Definition simLookupDown : Remote Sim :=
  simLibraries
    (fun _ => simDown)
    (fun _ => simRequest (fun _ => Returns "Much chain. Very community of dogs and builders."))
    (fun url => simRequest (fun _ => Returns ("bytes of " +:+ url)))
    (fun _ _ _ => simRequest (fun _ => Returns (Some "not JSON")))
    (fun _ _ => simDown).

(** The same, but the third clip cannot be generated. *)
Definition simTwoClipsUp : Remote Sim :=
  simLibraries
    (fun _ => simRequest (fun _ => Returns (Some [simListedPair])))
    (fun _ => simRequest (fun _ => Returns "Much chain. Very community of dogs and builders."))
    (fun url => simRequest (fun _ => Returns ("bytes of " +:+ url)))
    (fun _ _ _ => simRequest (fun _ => Returns (Some "not JSON")))
    (fun prompt _ => simRequest (fun _ =>
       if String.eqb prompt "clip3" then Throws (Error "task failed")
       else Returns (Some ("https://runway.example/" +:+ prompt)))).


(** Two banner generators that differ by the URL they return only. *)
Definition simBannerA (ticker : string) (themes : VisualThemes) (logo : LogoResult)
  (tagline : string) (brief : CreativeBrief) (tone : ToneProfile) : M Sim BannerResult :=
  simRequest (fun _ => Returns {| heroBannerUrl := "https://cdn.example/banner-a.jpg" |}).

Definition simBannerB (ticker : string) (themes : VisualThemes) (logo : LogoResult)
  (tagline : string) (brief : CreativeBrief) (tone : ToneProfile) : M Sim BannerResult :=
  simRequest (fun _ => Returns {| heroBannerUrl := "https://cdn.example/banner-b.jpg" |}).

(** No variable is set at all. *)
Definition simEnvEmpty : Env :=
  {| S3_BUCKET := None; S3_PUBLIC_URL := None; SHOTSTACK_API_KEY := None;
     RUNWAY_API_KEY := None; OPENAI_API_KEY := None; OPENAI_MODEL := None |}.

(** Nothing is configured but the key of the text and image model, without
    which no client of it can be built: no bucket, no key of the renderer,
    no key of the clip generator. *)
Definition simEnvUnset : Env :=
  {| S3_BUCKET := None; S3_PUBLIC_URL := None; SHOTSTACK_API_KEY := None;
     RUNWAY_API_KEY := None; OPENAI_API_KEY := Some "sk-test"; OPENAI_MODEL := None |}.

(** The keys of the model and of the clip generator are set, nothing else. *)
Definition simEnvRunway : Env :=
  {| S3_BUCKET := None; S3_PUBLIC_URL := None; SHOTSTACK_API_KEY := None;
     RUNWAY_API_KEY := Some "key"; OPENAI_API_KEY := Some "sk-test";
     OPENAI_MODEL := None |}.

(** Every service has its key and the bucket is set. *)
Definition simEnvConfigured : Env :=
  {| S3_BUCKET := Some "hypepack"; S3_PUBLIC_URL := None;
     SHOTSTACK_API_KEY := Some "key"; RUNWAY_API_KEY := Some "key";
     OPENAI_API_KEY := Some "sk-test"; OPENAI_MODEL := None |}.

Definition simThemes (ticker : string) : VisualThemes :=
  {| mood := "Intense " +:+ ticker +:+ " launch energy";
     color_cues := "Electric blue, deep purple, neon accents";
     lighting_style := "Cinematic volumetric lighting with lens flares";
     motion_style := "Smooth zoom transitions with particle dispersal";
     texture_keywords := ["metallic"; "holographic"; "circuit-board"];
     clip1_prompt := "clip1";
     clip2_prompt := "clip2";
     clip3_prompt := "clip3";
     image_prompt := "Futuristic crypto launch banner for " +:+ ticker |}.

(** Texts to simulate with: every reply is taken as unreadable, so the posts
    are templated ones; the content of a page is the page. *)
Definition simTexts : Texts :=
  {| placeholderLogoSvg := fun ticker => "<svg>" +:+ ticker +:+ "</svg>";
     fallbackBackgroundSvg := fun ticker _ => "<svg>$" +:+ ticker +:+ "</svg>";
     bannerTimeline := fun bgUrl logoUrl tagline => bgUrl +:+ logoUrl +:+ tagline;
     buildSystemPrompt := fun _ tone => profileName tone;
     buildUserPrompt := fun brief _ _ => oneLiner brief;
     parseResponse := fun _ ticker _ =>
       {| posts := ("$" +:+ ticker +:+ " just entered the chat and the energy is unmatched. Are you positioned?",
                    "We've seen a hundred launches. $" +:+ ticker +:+ " hits different.",
                    "Why $" +:+ ticker +:+ " is the play right now");
          visualThemes := simThemes ticker |};
     buildDallePrompt := fun themes _ _ => image_prompt themes;
     videoTimeline := fun clips ticker _ style => ticker +:+ style;
     fallbackVideoTimeline := fun ticker bannerUrl style => ticker +:+ bannerUrl +:+ style;
     extractContent := fun html => html |}.

(** The logo made for a token with none. *)
Definition placeholderLogo : LogoResult :=
  {| finalLogoUrl := "https://placeholder.s3.amazonaws.com/logos/doge-0.png";
     brandColors := {| primary := "#6366f1"; secondary := "#8b5cf6" |} |}.

(** The input [{ ticker: "DOGE" }]. *)
Definition simDoge : GenerateJobInput :=
  {| input_ticker := Some "DOGE"; input_contractAddress := None;
     input_intent := None; input_theme := None |}.

(** The input [{ contractAddress: "0xabc" }]. *)
Definition simByAddress : GenerateJobInput :=
  {| input_ticker := None; input_contractAddress := Some "0xabc";
     input_intent := None; input_theme := None |}.

(** A video stage in the manner of the TypeScript generator when no clip
    comes out and the renderer has no key: the URL it was given, no clip. *)
Definition simNoClips (ticker : string) (themes : VisualThemes) (logo : LogoResult)
  (bannerUrl : string) (brief : CreativeBrief) (tone : ToneProfile)
  (cta : option string) : M Sim VideoResult :=
  ret {| launchVideoUrl := bannerUrl; clipsSucceeded := 0 |}.

(** The video generator of the TypeScript sources as the video stage; its
    style is the theme of the tone. *)
Definition simThreeClipVideo (remote : Remote Sim) (env : Env)
  (ticker : string) (themes : VisualThemes) (logo : LogoResult)
  (bannerUrl : string) (brief : CreativeBrief) (tone : ToneProfile)
  (cta : option string) : M Sim VideoResult :=
  generateVideo remote env simTexts ticker themes logo bannerUrl (tone_theme tone).

(** ** [modules/input]: [validateInput]

    The body of a request as [JSON.parse] gives it.  Of a value only its
    type and its truthiness are looked at; [VObject] stands for every
    object, array included. *)

Inductive JsValue :=
  | VUndefined
  | VNull
  | VBool (b : bool)
  | VNumber (n : Z)
  | VString (s : string)
  | VObject.

(** [raw]: an object with its properties, or anything else ([null], a
    number, a string, ...). *)
Inductive RawBody :=
  | NotAnObject
  | AnObject (fields : gmap string JsValue).

(** [if (v)] *)
Definition truthyValue (v : JsValue) : bool :=
  match v with
  | VUndefined | VNull => false
  | VBool b => b
  | VNumber n => negb (n =? 0)
  | VString s => Js.truthy s
  | VObject => true
  end.

(** [typeof v === "string"] *)
Definition isStringValue (v : JsValue) : bool :=
  match v with VString _ => true | _ => false end.

(** [body.key]: a property that is not there reads as [undefined]. *)
Definition property (body : gmap string JsValue) (key : string) : JsValue :=
  default VUndefined (body !! key).

(** A field of the input as the pipeline reads it: the pipeline only tests
    [ticker] and [contractAddress] for truthiness before it uses them as
    strings, so a value that is falsy and no string is carried as none. *)
Definition asOptionalString (v : JsValue) : option string :=
  match v with VString s => Some s | _ => None end.

(** [value.toLowerCase().trim()] *)
Definition normalizeLabel (s : string) : string := Js.trim (Js.toLowerCase s).

(** [validateInput]: the input, or the message of the
    [InputValidationError] it throws. *)
Definition validateInput (raw : RawBody) : string + GenerateJobInput :=
  match raw with
  | NotAnObject => inl "Request body must be a JSON object"
  | AnObject body =>
      let bodyTicker := property body "ticker" in
      let bodyAddress := property body "contractAddress" in
      if negb (truthyValue bodyTicker) && negb (truthyValue bodyAddress) then
        inl "At least one of 'ticker' or 'contractAddress' is required"
      else if truthyValue bodyTicker && negb (isStringValue bodyTicker) then
        inl "'ticker' must be a string"
      else if truthyValue bodyAddress && negb (isStringValue bodyAddress) then
        inl "'contractAddress' must be a string"
      else if truthyValue (property body "intent")
              && negb (isStringValue (property body "intent")) then
        inl "'intent' must be a string"
      else
        let intent :=
          match property body "intent" with
          | VString s => if Js.truthy s then Some (normalizeLabel s) else None
          | _ => None
          end in
        if truthyValue (property body "theme")
           && negb (isStringValue (property body "theme")) then
          inl "'theme' must be a string"
        else
          let theme :=
            match property body "theme" with
            | VString s => if Js.truthy s then Some (normalizeLabel s) else None
            | _ => None
            end in
          let theme :=
            if negb (Js.present theme) && truthyValue (property body "style") then
              match property body "style" with
              | VString s => Some (normalizeLabel s)
              | _ => theme
              end
            else theme in
          inr {| input_ticker := asOptionalString bodyTicker;
                 input_contractAddress := asOptionalString bodyAddress;
                 input_intent := intent;
                 input_theme := theme |}
  end.

(** The body [{ ticker, contractAddress, intent, theme }] of an input. *)
Definition bodyOfInput (input : GenerateJobInput) : RawBody :=
  let field (o : option string) : JsValue :=
    match o with Some s => VString s | None => VUndefined end in
  AnObject (<["ticker" := field (input_ticker input)]>
            (<["contractAddress" := field (input_contractAddress input)]>
             (<["intent" := field (input_intent input)]>
              (<["theme" := field (input_theme input)]> ∅)))).

(** [input] with an empty intent or theme written as an absent one. *)
Definition canonicalInput (input : GenerateJobInput) : GenerateJobInput :=
  {| input_ticker := input_ticker input;
     input_contractAddress := input_contractAddress input;
     input_intent := Js.orUndefined (input_intent input);
     input_theme := Js.orUndefined (input_theme input) |}.

(** ** [api/generate]: the handler of [POST /generate] *)

Record Reply (Output : Type) := {
  status : Z;
  reply_error : option string;
  reply_message : option string;
  reply_output : option Output
}.
Arguments status {Output} r.
Arguments reply_error {Output} r.
Arguments reply_message {Output} r.
Arguments reply_output {Output} r.

(** [errObj?.message || "An unexpected error occurred."] *)
Definition messageOf (err : Thrown) : string :=
  match err with
  | Error message => Js.orElse (Some message) "An unexpected error occurred."
  | Undefined => "An unexpected error occurred."
  end.

(** The handler, over the validation and the pipeline it imports: an
    [InputValidationError] is answered 400, every other exception 500. *)
Definition generateRoute {World : Type} `{System World} {Input Output : Type}
  (validate : RawBody -> string + Input) (pipeline : Input -> M World Output)
  (body : RawBody) : M World (Reply Output) :=
  match validate body with
  | inl message =>
      ret {| status := 400; reply_error := Some "validation_error";
             reply_message := Some message; reply_output := None |}
  | inr input =>
      tryCatch
        (output <- pipeline input ;;
         ret {| status := 200; reply_error := None; reply_message := None;
                reply_output := Some output |})
        (fun err =>
           ret {| status := 500; reply_error := Some "internal_error";
                  reply_message := Some (messageOf err); reply_output := None |})
  end.

(** *** Predicates to state properties with *)

(** No character of [s] satisfies [p]. *)
Fixpoint noChar (p : ascii -> bool) (s : string) : Prop :=
  match s with
  | EmptyString => True
  | String c r => p c = false /\ noChar p r
  end.

(** [s] neither starts nor ends with white space. *)
Definition Trimmed (s : string) : Prop := Js.trim s = s.

(** An optional string that is either absent or not empty. *)
Definition absentOrNonEmpty (o : option string) : Prop :=
  match o with Some s => Js.truthy s = true | None => True end.

(** [s] does not start with white space. *)
Definition headNotSpace (s : string) : Prop := Js.afterSpace s = None.

(** A label as [validateInput] leaves it: in lower case, with no white
    space around it. *)
Definition NormalizedLabel (o : option string) : Prop :=
  match o with
  | Some s => Js.toLowerCase s = s /\ Trimmed s
  | None => True
  end.

(** [social.type?.toLowerCase()] is "twitter" or "x". *)
Definition isTwitterEntry (social : SocialEntry) : bool :=
  match social_type social with
  | Some ty => String.eqb (Js.toLowerCase ty) "twitter" || String.eqb (Js.toLowerCase ty) "x"
  | None => false
  end.

(** The pair is on the target chain. *)
Definition onTargetChain (p : DexScreenerPair) : bool := String.eqb (chainId p) TARGET_CHAIN.

(** The pair is on the target chain and its symbol is the ticker, up to case. *)
Definition matchesTicker (ticker : string) (p : DexScreenerPair) : bool :=
  onTargetChain p
  && String.eqb (Js.toLowerCase (bt_symbol (baseToken p))) (Js.toLowerCase ticker).

(** A digit of a number written in base 16, in lower case. *)
Definition isHexDigit (c : ascii) : bool :=
  let n := nat_of_ascii c in
  ((48 <=? n)%nat && (n <=? 57)%nat) || ((97 <=? n)%nat && (n <=? 102)%nat).

(** Every character of [s] satisfies [p]. *)
Fixpoint everyChar (p : ascii -> bool) (s : string) : bool :=
  match s with
  | EmptyString => true
  | String c r => p c && everyChar p r
  end.

(** ** The TypeScript sources: [src/core/orchestrator.ts]

    The orchestrator of the TypeScript sources, with the types of
    [src/types/job.types.ts].  It awaits its stages one after the other:
    posts from the input, the website and the brand colours, then the
    banner, then the video, which is handed the URL of the banner and the
    style of the input.  Its video stage is [generateVideo] of
    [src/modules/videoGenerator.ts], the generator of three clips above. *)

Module Ts.

Record GenerateJobInput := {
  input_ticker : option string;
  input_contractAddress : option string;
  input_intent : string;
  input_style : string
}.

Record TokenResolution := {
  token_logoUrl : option string;
  token_contractAddress : option string;
  token_websiteUrl : option string;
  resolutionSource : ResolutionSource
}.

Record GenerateJobOutput := {
  hero_banner_url : string;
  launch_video_url : string;
  x_post_1 : string;
  x_post_2 : string;
  x_post_3 : string;
  brand_colors : BrandColors;
  confidence_level : Z;
  generation_time_ms : Z;
  data_source : DataSource
}.

Record JobContext := {
  ctx_input : GenerateJobInput;
  ctx_token : TokenResolution;
  ctx_website : WebsiteScrapeResult;
  ctx_posts : PostGenerationResult;
  ctx_logo : LogoResult;
  ctx_banner : BannerResult;
  ctx_video : VideoResult;
  ctx_confidence : ConfidenceFactors;
  ctx_fallbacksUsed : bool
}.

(** The modules the orchestrator imports. *)
Record Stages (World : Type) := {
  stage_resolveToken : option string -> option string -> M World TokenResolution;
  stage_scrapeWebsite : option string -> M World WebsiteScrapeResult;
  stage_manageLogo : string -> option string -> M World LogoResult;
  stage_generatePosts :
    GenerateJobInput -> WebsiteScrapeResult -> BrandColors -> M World PostGenerationResult;
  stage_generateBanner :
    string -> VisualThemes -> LogoResult -> string -> M World BannerResult;
  stage_generateVideo :
    string -> VisualThemes -> LogoResult -> string -> string -> M World VideoResult
}.
Arguments stage_resolveToken {World} _ _ _.
Arguments stage_scrapeWebsite {World} _ _.
Arguments stage_manageLogo {World} _ _ _.
Arguments stage_generatePosts {World} _ _ _ _.
Arguments stage_generateBanner {World} _ _ _ _ _.
Arguments stage_generateVideo {World} _ _ _ _ _ _.

Section Orchestrator.
Context {World : Type} `{System World}.
Variable stages : Stages World.

(** The body of [runPipeline] up to the confidence factors. *)
Definition runJob (input : GenerateJobInput) : M World JobContext :=
  let fallbacksUsed := false in
  token <- stage_resolveToken stages (input_ticker input) (input_contractAddress input) ;;
  let fallbacksUsed :=
    match resolutionSource token with Fallback => true | _ => fallbacksUsed end in
  website <- stage_scrapeWebsite stages (token_websiteUrl token) ;;
  let ticker := Js.orElse (input_ticker input) "TOKEN" in
  logo <- stage_manageLogo stages ticker (token_logoUrl token) ;;
  let officialLogo :=
    Js.present (token_logoUrl token)
    && (match resolutionSource token with Coingecko => true | _ => false end
        || match resolutionSource token with Dexscreener => true | _ => false end) in
  posts <- stage_generatePosts stages input website (brandColors logo) ;;
  let tagline := extractTagline (post1 posts) ticker in
  banner <- stage_generateBanner stages ticker (visualThemes posts) logo tagline ;;
  video <- stage_generateVideo stages ticker (visualThemes posts) logo
                               (heroBannerUrl banner) (input_style input) ;;
  let fallbacksUsed := if clipsSucceeded video <? 2 then true else fallbacksUsed in
  let factors :=
    {| websiteFound := found website;
       officialLogo := officialLogo;
       allClipsSucceeded := clipsSucceeded video =? 2;
       noFallbacksUsed := negb fallbacksUsed |} in
  ret {| ctx_input := input; ctx_token := token; ctx_website := website;
         ctx_posts := posts; ctx_logo := logo; ctx_banner := banner;
         ctx_video := video; ctx_confidence := factors;
         ctx_fallbacksUsed := fallbacksUsed |}.

Definition jobOutput (ctx : JobContext) (generationTimeMs : Z) : GenerateJobOutput :=
  let confidenceLevel := computeConfidence (ctx_confidence ctx) in
  let dataSource :=
    determineDataSource (found (ctx_website ctx)) (resolutionSource (ctx_token ctx)) in
  {| hero_banner_url := heroBannerUrl (ctx_banner ctx);
     launch_video_url := launchVideoUrl (ctx_video ctx);
     x_post_1 := post1 (ctx_posts ctx);
     x_post_2 := post2 (ctx_posts ctx);
     x_post_3 := post3 (ctx_posts ctx);
     brand_colors := brandColors (ctx_logo ctx);
     confidence_level := confidenceLevel;
     generation_time_ms := generationTimeMs;
     data_source := dataSource |}.

Definition runPipeline (input : GenerateJobInput) : M World GenerateJobOutput :=
  start <- dateNow ;;
  ctx <- runJob input ;;
  finish <- dateNow ;;
  ret (jobOutput ctx (finish - start)).

End Orchestrator.

End Ts.

(** The input [{ ticker: "DOGE", intent: "launch", style: "cyberpunk" }]. *)
Definition simTsDoge : Ts.GenerateJobInput :=
  {| Ts.input_ticker := Some "DOGE"; Ts.input_contractAddress := None;
     Ts.input_intent := "launch"; Ts.input_style := "cyberpunk" |}.

(** The stages of the TypeScript orchestrator to simulate with.  The video
    stage is [generateVideo] of [src/modules/videoGenerator.ts] and the
    website stage [scrapeWebsite] of [src/modules/websiteScraper.ts], over
    the services [remote]; the other stages answer as they do for a listed
    token: a logo and a website from DexScreener, a logo, three posts with
    their themes, a banner. *)
Definition simTsStages (remote : Remote Sim) (env : Env) : Ts.Stages Sim :=
  {| Ts.stage_resolveToken := fun _ _ =>
       simRequest (fun _ => Returns
         {| Ts.token_logoUrl := Some "https://cdn.example/doge.png";
            Ts.token_contractAddress := Some "0xabc";
            Ts.token_websiteUrl := Some "https://doge.example";
            Ts.resolutionSource := Dexscreener |});
     Ts.stage_scrapeWebsite := scrapeWebsite remote simTexts;
     Ts.stage_manageLogo := fun _ _ => simRequest (fun _ => Returns placeholderLogo);
     Ts.stage_generatePosts := fun input _ _ =>
       simRequest (fun _ => Returns
         (parseResponse simTexts "" (Js.orElse (Ts.input_ticker input) "TOKEN")
                        (resolveToneProfile Hybrid None None None)));
     Ts.stage_generateBanner := fun _ _ _ _ =>
       simRequest (fun _ => Returns {| heroBannerUrl := "https://cdn.example/banner.jpg" |});
     Ts.stage_generateVideo := generateVideo remote env simTexts |}.

(** ** [pollShotstackRender]

    The loop that waits for a render, in [modules/bannerGenerator] (at most
    120 s, a poll every 5 s, errors about the "Shotstack render") and in
    [modules/videoGenerator] (180 s, 10 s, errors about the "Shotstack video
    render").  [getRender] is the request
    [axios.get(`${getShotstackBase()}/render/${renderId}`)]; of its reply
    the loop reads [res.data?.response?.status] and [res.data.response.url]. *)

Record RenderReply := { render_status : option string; render_url : string }.

Section Poll.
Context {World : Type} `{System World}.
Variable getRender : string -> string -> M World RenderReply.
Variable subject : string.
Variables maxWait interval : Z.

(** [`${subject} failed: ${renderId}`] and [`${subject} timed out: ${renderId}`] *)
Definition renderFailed (renderId : string) : Thrown :=
  Error (subject +:+ " failed: " +:+ renderId).

Definition renderTimedOut (renderId : string) : Thrown :=
  Error (subject +:+ " timed out: " +:+ renderId).

(** The [while] loop from the state [w] on.  [fuel] bounds the number of
    loop tests left; [None] is a loop that has not ended within them. *)
Fixpoint pollLoop (fuel : nat) (renderId apiKey : string) (start : Z) (w : World)
  : option (Completion string * World) :=
  match fuel with
  | O => None
  | S fuel' =>
      if clock w - start <? maxWait then
        match getRender renderId apiKey w with
        | (Returns res, w1) =>
            match render_status res with
            | Some status =>
                if String.eqb status "done" then Some (Returns (render_url res), w1)
                else if String.eqb status "failed" then
                  Some (Throws (renderFailed renderId), w1)
                else pollLoop fuel' renderId apiKey start (sleep interval w1)
            | None => pollLoop fuel' renderId apiKey start (sleep interval w1)
            end
        | (Throws e, w1) => Some (Throws e, w1)
        end
      else Some (Throws (renderTimedOut renderId), w)
  end.

Definition pollRender (fuel : nat) (renderId apiKey : string) (w : World)
  : option (Completion string * World) :=
  pollLoop fuel renderId apiKey (clock w) w.

(** How a poll that started in [w] can end in [w'] with [r]. *)
Definition PollOutcome (renderId apiKey : string) (w : World)
  (r : Completion string) (w' : World) : Prop :=
  (exists res w0,
      getRender renderId apiKey w0 = (Returns res, w') /\
      render_status res = Some "done" /\ r = Returns (render_url res)) \/
  (exists res w0,
      getRender renderId apiKey w0 = (Returns res, w') /\
      render_status res = Some "failed" /\ r = Throws (renderFailed renderId)) \/
  (exists e w0, getRender renderId apiKey w0 = (Throws e, w') /\ r = Throws e) \/
  (r = Throws (renderTimedOut renderId) /\ maxWait <= clock w' - clock w).

End Poll.

(** [pollShotstackRender] of [modules/bannerGenerator]. *)
Definition pollShotstackRender {World : Type} `{System World}
  (getRender : string -> string -> M World RenderReply) :=
  pollRender getRender "Shotstack render" 120000 5000.

(** [pollShotstackRender] of [modules/videoGenerator]. *)
Definition pollShotstackVideoRender {World : Type} `{System World}
  (getRender : string -> string -> M World RenderReply) :=
  pollRender getRender "Shotstack video render" 180000 10000.

(** A renderer that is done after [until] milliseconds. *)
Definition simRender (until : Z) (renderId apiKey : string) : M Sim RenderReply :=
  simRequest (fun w =>
    Returns (if sim_time w <? until
             then {| render_status := Some "rendering"; render_url := "" |}
             else {| render_status := Some "done";
                     render_url := "https://shotstack.example/" +:+ renderId +:+ ".jpg" |})).

(** The time waited according to a journal. *)
Fixpoint totalWait {A} (j : list (Event A)) : Z :=
  match j with
  | [] => 0
  | Waited ms :: rest => ms + totalWait rest
  | Invoked _ :: rest => totalWait rest
  end.

(** A body to simulate with. *)
Definition simBody : RawBody :=
  AnObject (<["ticker" := VString "DOGE"]>
            (<["intent" := VString "  Stealth "]>
             (<["style" := VString "SPACE"]> ∅))).

(** A body whose intent is white space only. *)
Definition simBlankBody : RawBody :=
  AnObject (<["contractAddress" := VString "0xabc"]>
            (<["intent" := VString "   "]> ∅)).

(** White space beyond ASCII, in UTF-8: the no-break space U+00A0 and the
    ideographic space U+3000. *)
Definition simNoBreakSpace : string := String "194" (String "160" "").
Definition simIdeographicSpace : string :=
  String "227" (String "128" (String "128" "")).

(* ================================================================== *)
(** * Part II: properties                                              *)
(* ================================================================== *)

Example computeConfidence_all_false :
  computeConfidence {| websiteFound := false; officialLogo := false;
                       allClipsSucceeded := false; noFallbacksUsed := false |} = 1.
Proof. reflexivity. Qed.

Example resolveProfileName_table :
  resolveProfileName Hybrid "hype" "space" = "The Orbital Push".
Proof. vm_compute. reflexivity. Qed.

Example resolveProfileName_dynamic :
  resolveProfileName Culture "airdrop" "space" = "The Culture Airdrop".
Proof. vm_compute. reflexivity. Qed.

Example classify_protocol : classifyUtility "A DeFi lending protocol" "Aave" = Protocol.
Proof. vm_compute. reflexivity. Qed.
Example classify_culture : classifyUtility "the best doggo MEME" "Bonk" = Culture.
Proof. vm_compute. reflexivity. Qed.
Example classify_both : classifyUtility "an AI meme" "X" = Hybrid.
Proof. vm_compute. reflexivity. Qed.
Example classify_none : classifyUtility "hello" "X" = Hybrid.
Proof. vm_compute. reflexivity. Qed.
Example tagline1 : extractTagline "  Hello big world today. Next" "doge" = "Hello big world today".
Proof. vm_compute. reflexivity. Qed.
Example tagline2 : extractTagline "Hi. Next" "doge" = "$DOGE — The Next Chapter".
Proof. vm_compute. reflexivity. Qed.
Example cta1 : extractCta "Hi. Buy it now!
second" "doge" = "Buy it now".
Proof. vm_compute. reflexivity. Qed.
Example trim1 : Js.trim "  a b  " = "a b".
Proof. vm_compute. reflexivity. Qed.

(** ** Strings: [trim] *)

Lemma append_cons (c : ascii) (a b : string) : String c a +:+ b = String c (a +:+ b).
Proof. reflexivity. Qed.

Lemma append_assoc (a b c : string) : (a +:+ b) +:+ c = a +:+ (b +:+ c).
Proof.
  induction a as [|x a IH]; [reflexivity|].
  change (String x ((a +:+ b) +:+ c) = String x (a +:+ (b +:+ c))).
  rewrite IH. reflexivity.
Qed.

Lemma append_empty_r (a : string) : a +:+ "" = a.
Proof.
  induction a as [|x a IH]; [reflexivity|].
  change (String x (a +:+ "") = String x a). rewrite IH. reflexivity.
Qed.

(** Induction on the length of a string. *)
Lemma string_length_ind (P : string -> Prop) :
  (forall s, (forall t, (String.length t < String.length s)%nat -> P t) -> P s) ->
  forall s, P s.
Proof.
  intros Hstep s.
  assert (Hall : forall n t, (String.length t < n)%nat -> P t).
  { induction n as [|n IH]; intros t Ht; [lia|].
    apply Hstep. intros u Hu. apply IH. lia. }
  apply (Hall (S (String.length s))). lia.
Qed.

Lemma trimStart_step (s : string) :
  Js.trimStart s = match Js.afterSpace s with Some r => Js.trimStart r | None => s end.
Proof.
  destruct s as [|c [|d [|e r]]]; cbn [Js.trimStart Js.afterSpace]; try reflexivity.
  - destruct (Js.isSpace c); reflexivity.
  - destruct (Js.isSpace c); [reflexivity|]. destruct (Js.isSpace2 c d); reflexivity.
  - destruct (Js.isSpace c); [reflexivity|]. destruct (Js.isSpace2 c d); [reflexivity|].
    destruct (Js.isSpace3 c d e); reflexivity.
Qed.

Lemma afterSpace_cut (s r : string) :
  Js.afterSpace s = Some r ->
  exists ws, s = ws +:+ r /\ ws <> "" /\
             forall x, Js.afterSpace (s +:+ x) = Some (r +:+ x).
Proof.
  destruct s as [|c [|d [|e t]]]; cbn [Js.afterSpace].
  - discriminate.
  - destruct (Js.isSpace c) eqn:Hc; [|discriminate]. intros Hx. injection Hx as <-.
    exists (String c ""). split; [reflexivity|]. split; [discriminate|].
    intros x. rewrite append_cons. cbn [Js.afterSpace]. rewrite Hc. reflexivity.
  - destruct (Js.isSpace c) eqn:Hc.
    + intros Hx. injection Hx as <-. exists (String c ""). split; [reflexivity|].
      split; [discriminate|]. intros x. rewrite append_cons. cbn [Js.afterSpace].
      rewrite Hc. reflexivity.
    + destruct (Js.isSpace2 c d) eqn:Hd; [|discriminate]. intros Hx. injection Hx as <-.
      exists (String c (String d "")). split; [reflexivity|]. split; [discriminate|].
      intros x. rewrite !append_cons. cbn [Js.afterSpace]. rewrite Hc, Hd. reflexivity.
  - destruct (Js.isSpace c) eqn:Hc.
    + intros Hx. injection Hx as <-. exists (String c ""). split; [reflexivity|].
      split; [discriminate|]. intros x. rewrite append_cons. cbn [Js.afterSpace].
      rewrite Hc. reflexivity.
    + destruct (Js.isSpace2 c d) eqn:Hd.
      * intros Hx. injection Hx as <-. exists (String c (String d "")).
        split; [reflexivity|]. split; [discriminate|].
        intros x. rewrite !append_cons. cbn [Js.afterSpace]. rewrite Hc, Hd. reflexivity.
      * destruct (Js.isSpace3 c d e) eqn:He; [|discriminate].
        intros Hx. injection Hx as <-. exists (String c (String d (String e ""))).
        split; [reflexivity|]. split; [discriminate|].
        intros x. rewrite !append_cons. cbn [Js.afterSpace]. rewrite Hc, Hd, He.
        reflexivity.
Qed.

Lemma length_append (a b : string) :
  String.length (a +:+ b) = (String.length a + String.length b)%nat.
Proof.
  induction a as [|c a IH]; [reflexivity|].
  rewrite append_cons. cbn [String.length]. rewrite IH. reflexivity.
Qed.

Lemma afterSpace_shorter (s r : string) :
  Js.afterSpace s = Some r -> (String.length r < String.length s)%nat.
Proof.
  intros Hs. destruct (afterSpace_cut s r Hs) as (ws & -> & Hws & _).
  rewrite length_append. destruct ws; [destruct (Hws eq_refl)|]. cbn. lia.
Qed.

Lemma afterSpace_prefix (p x : string) :
  Js.afterSpace (p +:+ x) = None -> p = "" \/ Js.afterSpace p = None.
Proof.
  intros Hx. destruct (Js.afterSpace p) as [r|] eqn:Hp; [|right; reflexivity].
  destruct (afterSpace_cut p r Hp) as (_ & _ & _ & Happ). rewrite Happ in Hx.
  discriminate Hx.
Qed.

Lemma trimStart_head (s : string) : headNotSpace (Js.trimStart s).
Proof.
  induction s as [s IH] using string_length_ind. unfold headNotSpace in *.
  rewrite trimStart_step. destruct (Js.afterSpace s) as [r|] eqn:Hs; [|exact Hs].
  apply IH, afterSpace_shorter, Hs.
Qed.

Lemma trimStart_fixed (s : string) : headNotSpace s -> Js.trimStart s = s.
Proof. unfold headNotSpace. intros Hs. rewrite trimStart_step, Hs. reflexivity. Qed.

Lemma trimStart_idem (s : string) : Js.trimStart (Js.trimStart s) = Js.trimStart s.
Proof. apply trimStart_fixed, trimStart_head. Qed.

Lemma trimStart_suffix (s : string) : exists ws, s = ws +:+ Js.trimStart s.
Proof.
  induction s as [s IH] using string_length_ind.
  rewrite trimStart_step. destruct (Js.afterSpace s) as [r|] eqn:Hs; [|exists ""; reflexivity].
  destruct (afterSpace_cut s r Hs) as (ws & Hcut & _).
  destruct (IH r (afterSpace_shorter s r Hs)) as (ws' & Hr).
  exists (ws +:+ ws'). rewrite append_assoc, <- Hr. exact Hcut.
Qed.

(** White space in front of a text is trimmed away with it. *)
Lemma trimStart_app_space (a b : string) :
  Js.trimStart a = "" -> Js.trimStart (a +:+ b) = Js.trimStart b.
Proof.
  induction a as [a IH] using string_length_ind. intros Ha.
  rewrite trimStart_step in Ha. destruct (Js.afterSpace a) as [r|] eqn:Hr.
  - destruct (afterSpace_cut a r Hr) as (_ & _ & _ & Happ).
    rewrite (trimStart_step (a +:+ b)), Happ.
    apply IH; [apply afterSpace_shorter, Hr|exact Ha].
  - subst a. reflexivity.
Qed.

Lemma trimEnd_cons (c : ascii) (r : string) :
  Js.trimEnd (String c r) =
  match Js.trimStart (String c r) with
  | EmptyString => EmptyString
  | String _ _ => String c (Js.trimEnd r)
  end.
Proof. reflexivity. Qed.

Lemma trimEnd_split (s : string) :
  exists ws, s = Js.trimEnd s +:+ ws /\ Js.trimStart ws = "".
Proof.
  induction s as [|c s (ws & Hs & Hws)]; [exists ""; split; reflexivity|].
  rewrite trimEnd_cons. destruct (Js.trimStart (String c s)) as [|d t] eqn:Hall.
  - exists (String c s). split; [reflexivity|exact Hall].
  - exists ws. split; [|exact Hws]. rewrite append_cons, <- Hs. reflexivity.
Qed.

Lemma trimEnd_prefix (s : string) : exists ws, s = Js.trimEnd s +:+ ws.
Proof. destruct (trimEnd_split s) as (ws & Hs & _). exists ws. exact Hs. Qed.

Lemma trimEnd_idem (s : string) : Js.trimEnd (Js.trimEnd s) = Js.trimEnd s.
Proof.
  induction s as [|c s IH]; [reflexivity|].
  rewrite trimEnd_cons. destruct (Js.trimStart (String c s)) as [|d t] eqn:Hall;
    [reflexivity|].
  rewrite trimEnd_cons, IH.
  destruct (Js.trimStart (String c (Js.trimEnd s))) as [|d' t'] eqn:Hcut; [|reflexivity].
  destruct (trimEnd_split s) as (ws & Hs & Hws).
  assert (Hx : Js.trimStart (String c s) = "").
  { rewrite Hs at 1. rewrite <- append_cons.
    rewrite (trimStart_app_space _ _ Hcut). exact Hws. }
  rewrite Hx in Hall. discriminate Hall.
Qed.

Lemma trimEnd_head (s : string) : headNotSpace s -> headNotSpace (Js.trimEnd s).
Proof.
  unfold headNotSpace. intros Hs. destruct (trimEnd_split s) as (ws & Hsplit & _).
  rewrite Hsplit in Hs. destruct (afterSpace_prefix _ _ Hs) as [-> | Hnone];
    [reflexivity|exact Hnone].
Qed.

Lemma trim_idem (s : string) : Js.trim (Js.trim s) = Js.trim s.
Proof.
  unfold Js.trim.
  rewrite (trimStart_fixed (Js.trimEnd (Js.trimStart s))).
  - apply trimEnd_idem.
  - apply trimEnd_head, trimStart_head.
Qed.

(** ** [withRetry] *)

Lemma retryLoop_step {World : Type} `{System World} {A : Type}
  (fn : M World A) (maxR baseD : Z) (fuel : nat) (attempt : Z) (lastError : Thrown) :
  retryLoop fn maxR baseD (S fuel) attempt lastError =
  if attempt <=? maxR then
    tryCatch fn (fun err =>
      _ <- (if attempt <? maxR then wait (baseD * 2 ^ attempt) else ret tt) ;;
      retryLoop fn maxR baseD fuel (attempt + 1) err)
  else throw lastError.
Proof. reflexivity. Qed.

Section RetryFacts.
Context {World : Type} `{System World} {A : Type}.
Variable fn : M World A.
Variables maxR baseD : Z.

Lemma invocations_app (j1 j2 : list (Event A)) :
  invocations (j1 ++ j2) = invocations j1 + invocations j2.
Proof.
  unfold invocations. rewrite List.filter_app, List.length_app. lia.
Qed.

Lemma invocations_failedAttempts (attempt : Z) (errs : list Thrown) :
  invocations (failedAttempts (A := A) baseD attempt errs)
  = Z.of_nat (List.length errs).
Proof.
  revert attempt. induction errs as [|e errs IH]; intros attempt.
  - reflexivity.
  - specialize (IH (attempt + 1)). unfold invocations in *. simpl in *. lia.
Qed.

(** One run of the loop with enough fuel for the attempts that remain. *)
Lemma retryLoop_journal (fuel : nat) :
  forall (attempt : Z) (lastError : Thrown) (p : Probe World A),
    Z.of_nat fuel = maxR - attempt ->
    exists errs,
      attempt + Z.of_nat (List.length errs) <= maxR /\
      let (r, p') := retryLoop (probed fn) maxR baseD (S fuel) attempt lastError p in
      (exists v, r = Returns v /\
         journal p' = journal p ++ failedAttempts baseD attempt errs
                                ++ [Invoked (Returns v)]) \/
      (exists e, r = Throws e /\
         attempt + Z.of_nat (List.length errs) = maxR /\
         journal p' = journal p ++ failedAttempts baseD attempt errs
                                ++ [Invoked (Throws e)]).
Proof.
  induction fuel as [|fuel IH]; intros attempt lastError p Hfuel.
  - exists []. split; [simpl; lia|].
    rewrite retryLoop_step. replace (attempt <=? maxR) with true by lia.
    unfold tryCatch, probed, bind.
    destruct (fn (inner p)) as [[v|e] w'] eqn:Hfn.
    + left. exists v. split; reflexivity.
    + replace (attempt <? maxR) with false by lia.
      right. exists e. simpl. split; [reflexivity|]. split; [lia|reflexivity].
  - rewrite retryLoop_step. replace (attempt <=? maxR) with true by lia.
    unfold tryCatch at 1. unfold probed at 1.
    destruct (fn (inner p)) as [[v|e] w'] eqn:Hfn.
    + exists []. split; [simpl; lia|]. left. exists v. split; reflexivity.
    + replace (attempt <? maxR) with true by lia.
      unfold bind at 1. unfold wait at 1.
      set (p1 := sleep (baseD * 2 ^ attempt) _).
      destruct (IH (attempt + 1) e p1 ltac:(lia)) as (errs & Hlen & Hrun).
      exists (e :: errs). split; [simpl List.length; lia|].
      destruct (retryLoop (probed fn) maxR baseD (S fuel) (attempt + 1) e p1)
        as [r p'] eqn:Hloop.
      assert (Hj : journal p1 = journal p ++ [Invoked (Throws e); Waited (baseD * 2 ^ attempt)]).
      { subst p1. simpl. rewrite <- List.app_assoc. reflexivity. }
      destruct Hrun as [(v & -> & Hjr)|(e' & -> & Hn & Hjr)].
      * left. exists v. split; [reflexivity|].
        rewrite Hjr, Hj, <- List.app_assoc. reflexivity.
      * right. exists e'. split; [reflexivity|]. split; [simpl List.length; lia|].
        rewrite Hjr, Hj, <- List.app_assoc. reflexivity.
Qed.

(** The fuel [withRetry] gives is enough: with more of it the loop does the
    same, because the loop test stops it first. *)
Lemma retryLoop_fuel (fuel : nat) :
  forall (extra : nat) (attempt : Z) (lastError : Thrown) (w : World),
    (Z.to_nat (maxR + 1 - attempt) <= fuel)%nat ->
    retryLoop fn maxR baseD (fuel + extra) attempt lastError w
    = retryLoop fn maxR baseD fuel attempt lastError w.
Proof.
  induction fuel as [|fuel IH]; intros extra attempt lastError w Hfuel.
  - destruct extra as [|extra]; [reflexivity|].
    cbn [Nat.add]. rewrite retryLoop_step.
    replace (attempt <=? maxR) with false by lia. reflexivity.
  - cbn [Nat.add]. rewrite !retryLoop_step.
    destruct (attempt <=? maxR) eqn:Hle; [|reflexivity].
    unfold tryCatch, bind. destruct (fn w) as [[v|e] w1]; [reflexivity|].
    destruct (attempt <? maxR); cbn; apply IH; lia.
Qed.

(** Watching the operation does not change what it does. *)
Lemma retryLoop_probed (fuel : nat) :
  forall (attempt : Z) (lastError : Thrown) (p : Probe World A),
    let (r, p') := retryLoop (probed fn) maxR baseD fuel attempt lastError p in
    retryLoop fn maxR baseD fuel attempt lastError (inner p) = (r, inner p').
Proof.
  induction fuel as [|fuel IH]; intros attempt lastError p.
  - reflexivity.
  - rewrite !retryLoop_step. destruct (attempt <=? maxR); [|reflexivity].
    unfold tryCatch, probed, bind.
    destruct (fn (inner p)) as [[v|e] w'] eqn:Hfn; [reflexivity|].
    destruct (attempt <? maxR).
    + unfold wait. apply IH.
    + unfold ret. apply IH.
Qed.

End RetryFacts.

(** C8: with the policy [maxRetries] (default 2) and [baseDelayMs] (default
    1000) and a number of retries that is not negative, [withRetry] invokes
    the operation at most [maxRetries + 1] times.  Its journal is a run of
    failed invocations, the one numbered [attempt] followed by a wait of
    [baseDelayMs * 2 ^ attempt], and then one last invocation: either the
    first that succeeds, whose result is returned with nothing invoked after
    it, or, when [maxRetries + 1] invocations have all failed, the last
    failure, whose error is thrown on.  The journal is only an observer: the
    run without it gives the same completion and the same world. *)
Theorem withRetry_policy {World : Type} `{System World} {A : Type}
  (fn : M World A) (opts : RetryOptions) (w : World) :
  let maxR := default 2 (maxRetries opts) in
  let baseD := default 1000 (baseDelayMs opts) in
  0 <= maxR ->
  let (r, p) := withRetry (probed fn) opts (probeStart w) in
  withRetry fn opts w = (r, inner p) /\
  invocations (journal p) <= maxR + 1 /\
  exists errs : list Thrown,
    (exists v, r = Returns v /\ Z.of_nat (List.length errs) <= maxR /\
       journal p = failedAttempts baseD 0 errs ++ [Invoked (Returns v)]) \/
    (exists e, r = Throws e /\ Z.of_nat (List.length errs) = maxR /\
       journal p = failedAttempts baseD 0 errs ++ [Invoked (Throws e)]).
Proof.
  intros maxR baseD HmaxR. unfold withRetry. fold maxR baseD.
  pose proof (retryLoop_probed fn maxR baseD (Z.to_nat (maxR + 1)) 0 Undefined
                (probeStart w)) as Hplain.
  replace (Z.to_nat (maxR + 1)) with (S (Z.to_nat maxR)) in * by lia.
  destruct (retryLoop_journal fn maxR baseD (Z.to_nat maxR) 0 Undefined
              (probeStart w) ltac:(lia)) as (errs & Hlen & Hrun).
  destruct (retryLoop (probed fn) maxR baseD (S (Z.to_nat maxR)) 0 Undefined
              (probeStart w)) as [r p].
  split; [exact Hplain|].
  simpl journal in Hrun.
  destruct Hrun as [(v & -> & Hj)|(e & -> & Hn & Hj)]; simpl in Hj.
  - split.
    + rewrite Hj, invocations_app, invocations_failedAttempts.
      unfold invocations; simpl. lia.
    + exists errs. left. exists v. split; [reflexivity|]. split; [lia|exact Hj].
  - split.
    + rewrite Hj, invocations_app, invocations_failedAttempts.
      unfold invocations; simpl. lia.
    + exists errs. right. exists e. split; [reflexivity|]. split; [lia|exact Hj].
Qed.

(** The policy at work on a service that is down for the first second: one
    failure, a wait of 1000 ms, then the result. *)
Lemma withRetry_policy_witness :
  0 <= default 2 (maxRetries noRetryOptions) /\
  let (r, p) := withRetry (probed (simFlaky 1000)) noRetryOptions (probeStart simStart) in
  withRetry (simFlaky 1000) noRetryOptions simStart = (r, inner p) /\
  invocations (journal p) <= default 2 (maxRetries noRetryOptions) + 1 /\
  exists errs : list Thrown,
    (exists v, r = Returns v /\
       Z.of_nat (List.length errs) <= default 2 (maxRetries noRetryOptions) /\
       journal p = failedAttempts (default 1000 (baseDelayMs noRetryOptions)) 0 errs
                   ++ [Invoked (Returns v)]) \/
    (exists e, r = Throws e /\
       Z.of_nat (List.length errs) = default 2 (maxRetries noRetryOptions) /\
       journal p = failedAttempts (default 1000 (baseDelayMs noRetryOptions)) 0 errs
                   ++ [Invoked (Throws e)]).
Proof.
  split.
  - simpl. lia.
  - apply (withRetry_policy (simFlaky 1000) noRetryOptions simStart). simpl. lia.
Defined.

Example withRetry_flaky_run :
  withRetry (probed (simFlaky 1000)) noRetryOptions (probeStart simStart)
  = (Returns "ok",
     {| inner := {| sim_time := 1002; sim_requests := 2 |};
        journal := [Invoked (Throws (Error "connect ETIMEDOUT")); Waited 1000;
                    Invoked (Returns "ok")] |}).
Proof. vm_compute. reflexivity. Qed.

Example withRetry_down_run :
  withRetry (probed (simDown (A := string))) noRetryOptions (probeStart simStart)
  = (Throws (Error "connect ECONNREFUSED"),
     {| inner := {| sim_time := 3003; sim_requests := 3 |};
        journal := [Invoked (Throws (Error "connect ECONNREFUSED")); Waited 1000;
                    Invoked (Throws (Error "connect ECONNREFUSED")); Waited 2000;
                    Invoked (Throws (Error "connect ECONNREFUSED"))] |}).
Proof. vm_compute. reflexivity. Qed.

(** ** [computeConfidence] *)

Lemma countTrueFactors_range (f : ConfidenceFactors) :
  0 <= countTrueFactors f <= 4.
Proof. destruct f as [[] [] [] []]; vm_compute; split; discriminate. Qed.

Lemma computeConfidence_count (f : ConfidenceFactors) :
  computeConfidence f = Z.max 1 (countTrueFactors f).
Proof. destruct f as [[] [] [] []]; reflexivity. Qed.

Lemma countTrueFactors_mono (f g : ConfidenceFactors) :
  factorsLe f g -> countTrueFactors f <= countTrueFactors g.
Proof.
  intros (Hw & Hl & Hc & Hn). unfold countTrueFactors.
  assert (Hb : forall a b : bool, (a = true -> b = true) -> Z.b2z a <= Z.b2z b).
  { intros [] [] Hab; simpl; try lia; discriminate (Hab eq_refl). }
  pose proof (Hb _ _ Hw). pose proof (Hb _ _ Hl).
  pose proof (Hb _ _ Hc). pose proof (Hb _ _ Hn). lia.
Qed.


(** C2: for every combination of the four factors, [computeConfidence] is the
    number of true factors clamped to the interval from 1 to 4: it is that
    number when at least one factor is true, it is 1 when all four are
    false, it lies between 1 and 4, and it is monotonic: turning factors
    from false to true (one of them, or several) never lowers it. *)
Theorem computeConfidence_clamp (f : ConfidenceFactors) :
  computeConfidence f = clamp (countTrueFactors f) 1 4 /\
  (1 <= countTrueFactors f -> computeConfidence f = countTrueFactors f) /\
  (websiteFound f = false -> officialLogo f = false ->
   allClipsSucceeded f = false -> noFallbacksUsed f = false ->
   computeConfidence f = 1) /\
  1 <= computeConfidence f <= 4 /\
  (forall g, factorsLe f g -> computeConfidence f <= computeConfidence g).
Proof.
  pose proof (countTrueFactors_range f) as Hr.
  rewrite computeConfidence_count. unfold clamp.
  repeat split; try lia.
  - intros Hw Hl Hc Hn. unfold countTrueFactors.
    rewrite Hw, Hl, Hc, Hn. reflexivity.
  - intros g Hfg. rewrite computeConfidence_count.
    pose proof (countTrueFactors_mono f g Hfg). lia.
Qed.

(** The score at work: nothing went well, then the website is found. *)
Lemma computeConfidence_clamp_witness :
  let f := {| websiteFound := false; officialLogo := false;
              allClipsSucceeded := false; noFallbacksUsed := false |} in
  let g := {| websiteFound := true; officialLogo := false;
              allClipsSucceeded := false; noFallbacksUsed := false |} in
  computeConfidence f = 1 /\ factorsLe f g /\
  computeConfidence f <= computeConfidence g.
Proof.
  intros f g.
  destruct (computeConfidence_clamp f) as (_ & _ & Hzero & _ & Hmono).
  assert (Hle : factorsLe f g) by (repeat split; intros Hx; discriminate Hx || reflexivity).
  split; [apply Hzero; reflexivity|]. split; [exact Hle|]. apply Hmono, Hle.
Defined.

(** ** [determineDataSource] *)

(** C4: the tag is "website" exactly when the website was found and the
    token came from an official metadata source (the two sources the
    orchestrator also counts as official for the logo), "thematic_only"
    exactly when no website was found and the resolution fell back fully,
    and "mixed" in every other case, among them a website found next to a
    user-provided address and no website next to an official source. *)
Theorem determineDataSource_cases (websiteFound : bool) (src : ResolutionSource) :
  (determineDataSource websiteFound src = Website <->
     websiteFound = true /\ isOfficialSource src = true) /\
  (determineDataSource websiteFound src = ThematicOnly <->
     websiteFound = false /\ src = Fallback) /\
  (determineDataSource websiteFound src = Mixed <->
     ~ (websiteFound = true /\ isOfficialSource src = true) /\
     ~ (websiteFound = false /\ src = Fallback)) /\
  determineDataSource true User = Mixed /\
  determineDataSource true Fallback = Mixed /\
  determineDataSource false Coingecko = Mixed /\
  determineDataSource false Dexscreener = Mixed /\
  determineDataSource false User = Mixed.
Proof.
  destruct websiteFound, src; cbn;
    repeat split; intros; try discriminate; try reflexivity;
    repeat match goal with
           | Hc : _ /\ _ |- _ => destruct Hc
           | Hn : ~ _ |- _ => exfalso; apply Hn; split; reflexivity
           | |- ~ _ => intros [? ?]
           end; try discriminate; try reflexivity.
Qed.

(** ** [modules/toneProfile] *)

Lemma lowerChar_idem (c : ascii) : Js.lowerChar (Js.lowerChar c) = Js.lowerChar c.
Proof. destruct c as [[] [] [] [] [] [] [] []]; reflexivity. Qed.

Lemma isSpace_lowerChar (c : ascii) : Js.isSpace (Js.lowerChar c) = Js.isSpace c.
Proof. destruct c as [[] [] [] [] [] [] [] []]; reflexivity. Qed.

Lemma toLowerCase_idem (s : string) :
  Js.toLowerCase (Js.toLowerCase s) = Js.toLowerCase s.
Proof.
  induction s as [|c s IH]; [reflexivity|].
  unfold Js.toLowerCase in *. simpl. rewrite lowerChar_idem, IH. reflexivity.
Qed.

(** Case mapping leaves the bytes of characters beyond ASCII alone, and
    makes none. *)
Lemma lowerChar_high (c : ascii) :
  (128 <=? nat_of_ascii c)%nat || (128 <=? nat_of_ascii (Js.lowerChar c))%nat = true ->
  Js.lowerChar c = c.
Proof. destruct c as [[] [] [] [] [] [] [] []]; vm_compute; congruence. Qed.

Lemma isSpace2_high (c d : ascii) :
  Js.isSpace2 c d = true ->
  (128 <=? nat_of_ascii c)%nat = true /\ (128 <=? nat_of_ascii d)%nat = true.
Proof.
  unfold Js.isSpace2.
  rewrite !andb_true_iff, !Nat.eqb_eq, !Nat.leb_le. lia.
Qed.

Lemma isSpace3_high (c d e : ascii) :
  Js.isSpace3 c d e = true ->
  (128 <=? nat_of_ascii c)%nat = true /\ (128 <=? nat_of_ascii d)%nat = true /\
  (128 <=? nat_of_ascii e)%nat = true.
Proof.
  unfold Js.isSpace3. cbv zeta.
  rewrite !orb_true_iff, !andb_true_iff, !orb_true_iff, !andb_true_iff,
    !Nat.eqb_eq, !Nat.leb_le. lia.
Qed.

Lemma isSpace2_lowerChar (c d : ascii) :
  Js.isSpace2 (Js.lowerChar c) (Js.lowerChar d) = Js.isSpace2 c d.
Proof.
  destruct (Js.isSpace2 (Js.lowerChar c) (Js.lowerChar d)) eqn:Hl.
  - destruct (isSpace2_high _ _ Hl) as [Hc Hd].
    rewrite (lowerChar_high c), (lowerChar_high d) in Hl
      by (rewrite ?Hc, ?Hd; apply orb_true_r).
    symmetry. exact Hl.
  - destruct (Js.isSpace2 c d) eqn:Hr; [|reflexivity].
    destruct (isSpace2_high _ _ Hr) as [Hc Hd].
    rewrite (lowerChar_high c), (lowerChar_high d) in Hl
      by (rewrite ?Hc, ?Hd; reflexivity).
    congruence.
Qed.

Lemma isSpace3_lowerChar (c d e : ascii) :
  Js.isSpace3 (Js.lowerChar c) (Js.lowerChar d) (Js.lowerChar e) = Js.isSpace3 c d e.
Proof.
  destruct (Js.isSpace3 (Js.lowerChar c) (Js.lowerChar d) (Js.lowerChar e)) eqn:Hl.
  - destruct (isSpace3_high _ _ _ Hl) as (Hc & Hd & He).
    rewrite (lowerChar_high c), (lowerChar_high d), (lowerChar_high e) in Hl
      by (rewrite ?Hc, ?Hd, ?He; apply orb_true_r).
    symmetry. exact Hl.
  - destruct (Js.isSpace3 c d e) eqn:Hr; [|reflexivity].
    destruct (isSpace3_high _ _ _ Hr) as (Hc & Hd & He).
    rewrite (lowerChar_high c), (lowerChar_high d), (lowerChar_high e) in Hl
      by (rewrite ?Hc, ?Hd, ?He; reflexivity).
    congruence.
Qed.

Lemma afterSpace_toLowerCase (s : string) :
  Js.afterSpace (Js.toLowerCase s) = option_map Js.toLowerCase (Js.afterSpace s).
Proof.
  unfold Js.toLowerCase.
  destruct s as [|c [|d [|e r]]]; cbn [Js.mapChars Js.afterSpace];
    rewrite ?isSpace_lowerChar, ?isSpace2_lowerChar, ?isSpace3_lowerChar;
    try reflexivity.
  - destruct (Js.isSpace c); reflexivity.
  - destruct (Js.isSpace c); [reflexivity|]. destruct (Js.isSpace2 c d); reflexivity.
  - destruct (Js.isSpace c); [reflexivity|]. destruct (Js.isSpace2 c d); [reflexivity|].
    destruct (Js.isSpace3 c d e); reflexivity.
Qed.

Lemma toLowerCase_trimStart (s : string) :
  Js.toLowerCase (Js.trimStart s) = Js.trimStart (Js.toLowerCase s).
Proof.
  induction s as [s IH] using string_length_ind.
  rewrite (trimStart_step s), (trimStart_step (Js.toLowerCase s)), afterSpace_toLowerCase.
  destruct (Js.afterSpace s) as [r|] eqn:Hs; [|reflexivity].
  cbn [option_map]. apply IH, afterSpace_shorter, Hs.
Qed.

Lemma toLowerCase_trimEnd (s : string) :
  Js.toLowerCase (Js.trimEnd s) = Js.trimEnd (Js.toLowerCase s).
Proof.
  induction s as [|c s IH]; [reflexivity|].
  change (Js.toLowerCase (String c s)) with (String (Js.lowerChar c) (Js.toLowerCase s)).
  rewrite !trimEnd_cons.
  change (String (Js.lowerChar c) (Js.toLowerCase s)) with (Js.toLowerCase (String c s)).
  rewrite <- toLowerCase_trimStart, <- IH.
  destruct (Js.trimStart (String c s)); reflexivity.
Qed.

(** What [validateInput] hands on as an intent, [body.intent.toLowerCase().trim()],
    is left as it is by a further [toLowerCase]. *)
Lemma toLowerCase_normalized (raw : string) :
  Js.toLowerCase (Js.trim (Js.toLowerCase raw)) = Js.trim (Js.toLowerCase raw).
Proof.
  unfold Js.trim.
  rewrite toLowerCase_trimEnd, toLowerCase_trimStart, toLowerCase_idem.
  reflexivity.
Qed.

(** C5: a user-supplied intent that is present (a string that is not empty)
    is the one that is used, whatever the age of the token: the resolved
    intent is that string in lower case, hence the string itself when it
    comes in lower case, as the intents of a validated input do.  With no
    user intent, an age that is known and strictly below 86,400 seconds
    gives "launch" (so does 86,399), and every other case gives "hype": an
    age of 86,400 or more (so 86,401), and an age that is not known. *)
Theorem resolveIntent_cases :
  (forall (u : string) (age : option Z),
     Js.truthy u = true -> resolveIntent (Some u) age = Js.toLowerCase u) /\
  (forall (u : string) (age : option Z),
     Js.truthy u = true -> Js.toLowerCase u = u -> resolveIntent (Some u) age = u) /\
  (forall (raw : string) (age : option Z),
     Js.truthy (Js.trim (Js.toLowerCase raw)) = true ->
     resolveIntent (Some (Js.trim (Js.toLowerCase raw))) age
     = Js.trim (Js.toLowerCase raw)) /\
  (forall (u : option string) (age : Z),
     Js.present u = false -> age < 86400 -> resolveIntent u (Some age) = "launch") /\
  (forall (u : option string) (age : Z),
     Js.present u = false -> 86400 <= age -> resolveIntent u (Some age) = "hype") /\
  (forall u : option string,
     Js.present u = false -> resolveIntent u None = "hype") /\
  resolveIntent None (Some 86399) = "launch" /\
  resolveIntent None (Some 86401) = "hype".
Proof.
  assert (Huser : forall u age, Js.truthy u = true ->
                    resolveIntent (Some u) age = Js.toLowerCase u).
  { intros u age Hu. unfold resolveIntent. simpl. rewrite Hu. reflexivity. }
  repeat split.
  - exact Huser.
  - intros u age Hu Hlow. rewrite Huser by exact Hu. exact Hlow.
  - intros raw age Hu. rewrite Huser by exact Hu. apply toLowerCase_normalized.
  - intros u age Hu Hage. unfold resolveIntent, TWENTY_FOUR_HOURS_SEC. rewrite Hu.
    replace (age <? 86400) with true by lia. reflexivity.
  - intros u age Hu Hage. unfold resolveIntent, TWENTY_FOUR_HOURS_SEC. rewrite Hu.
    replace (age <? 86400) with false by lia. reflexivity.
  - intros u Hu. unfold resolveIntent. rewrite Hu. reflexivity.
Qed.

(** A user who asks for "stealth" gets it for a token one hour old, and a
    token of that age with no user intent is a launch. *)
Lemma resolveIntent_cases_witness :
  Js.truthy "stealth" = true /\ Js.toLowerCase "stealth" = "stealth" /\
  resolveIntent (Some "stealth") (Some 3600) = "stealth" /\
  Js.present None = false /\ 3600 < 86400 /\
  resolveIntent None (Some 3600) = "launch".
Proof.
  destruct resolveIntent_cases as (_ & Hverbatim & _ & Hlaunch & _).
  split; [reflexivity|]. split; [reflexivity|].
  split; [apply Hverbatim; reflexivity|].
  split; [reflexivity|]. split; [lia|].
  apply Hlaunch; [reflexivity|lia].
Defined.

Lemma PROFILE_NAMES_truthy (key name : string) :
  PROFILE_NAMES !! key = Some name -> Js.truthy name = true.
Proof.
  intros Hlook. apply elem_of_list_to_map_2 in Hlook.
  repeat (apply elem_of_cons in Hlook as [Hlook|Hlook];
          [injection Hlook as _ ->; reflexivity|]).
  apply elem_of_nil in Hlook. destruct Hlook.
Qed.

Lemma resolveProfileName_listed (u : UtilityClass) (intent theme name : string) :
  PROFILE_NAMES !! profileKey u intent theme = Some name ->
  resolveProfileName u intent theme = name.
Proof.
  intros Hlook. unfold resolveProfileName. rewrite Hlook.
  rewrite (PROFILE_NAMES_truthy _ _ Hlook). reflexivity.
Qed.

Lemma resolveProfileName_unlisted (u : UtilityClass) (intent theme : string) :
  PROFILE_NAMES !! profileKey u intent theme = None ->
  resolveProfileName u intent theme
  = "The " +:+ Js.capitalizeFirst (utilityClassName u) +:+ " "
    +:+ Js.capitalizeFirst intent.
Proof. intros Hlook. unfold resolveProfileName. rewrite Hlook. reflexivity. Qed.

(** C6: with no user theme (none given, or an empty one) the theme is
    "minimalist" for protocol, "retro-arcade" for culture and "cyberpunk"
    for hybrid.  The profile name of a tone profile is the one of its
    resolved utility class, intent and theme; for every such triple it is
    the entry of the static table (22 entries) under the key
    "class:intent:theme" when there is one, and otherwise "The Class Intent"
    with the first letter of the class and of the intent in upper case.  The
    same inputs give the same profile name. *)
Theorem resolveToneProfile_theme_and_name :
  (forall (u : UtilityClass) (userIntent userTheme : option string) (age : option Z),
     Js.present userTheme = false ->
     tone_theme (resolveToneProfile u userIntent userTheme age)
     = match u with
       | Protocol => "minimalist"
       | Culture => "retro-arcade"
       | Hybrid => "cyberpunk"
       end) /\
  (forall (u : UtilityClass) (userIntent userTheme : option string) (age : option Z),
     let tone := resolveToneProfile u userIntent userTheme age in
     tone_utilityClass tone = u /\
     profileName tone = resolveProfileName u (tone_intent tone) (tone_theme tone)) /\
  (forall (u : UtilityClass) (intent theme name : string),
     PROFILE_NAMES !! profileKey u intent theme = Some name ->
     resolveProfileName u intent theme = name) /\
  (forall (u : UtilityClass) (intent theme : string),
     PROFILE_NAMES !! profileKey u intent theme = None ->
     resolveProfileName u intent theme
     = "The " +:+ Js.capitalizeFirst (utilityClassName u) +:+ " "
       +:+ Js.capitalizeFirst intent) /\
  (Js.capitalizeFirst (utilityClassName Protocol) = "Protocol" /\
   Js.capitalizeFirst (utilityClassName Culture) = "Culture" /\
   Js.capitalizeFirst (utilityClassName Hybrid) = "Hybrid") /\
  size PROFILE_NAMES = 22%nat /\
  (forall (u u' : UtilityClass) (userIntent userIntent' userTheme userTheme' : option string)
          (age age' : option Z),
     u = u' -> userIntent = userIntent' -> userTheme = userTheme' -> age = age' ->
     profileName (resolveToneProfile u userIntent userTheme age)
     = profileName (resolveToneProfile u' userIntent' userTheme' age')).
Proof.
  split; [|split; [|split; [|split; [|split; [|split]]]]].
  - intros u userIntent userTheme age Hnone.
    unfold resolveToneProfile, resolveTheme. cbn [tone_theme].
    rewrite Hnone. reflexivity.
  - intros u userIntent userTheme age tone. split; reflexivity.
  - exact resolveProfileName_listed.
  - exact resolveProfileName_unlisted.
  - repeat split.
  - vm_compute. reflexivity.
  - intros; subst; reflexivity.
Qed.

(** The resolution at work: a culture token launched an hour ago, with no
    wish of the user, is "The Pixel Drop"; a custom intent has no entry. *)
Lemma resolveToneProfile_theme_and_name_witness :
  Js.present None = false /\
  tone_theme (resolveToneProfile Culture None None (Some 3600)) = "retro-arcade" /\
  PROFILE_NAMES !! profileKey Culture "launch" "retro-arcade" = Some "The Pixel Drop" /\
  resolveProfileName Culture "launch" "retro-arcade" = "The Pixel Drop" /\
  PROFILE_NAMES !! profileKey Culture "airdrop" "retro-arcade" = None /\
  resolveProfileName Culture "airdrop" "retro-arcade" = "The Culture Airdrop".
Proof.
  destruct resolveToneProfile_theme_and_name as (Htheme & _ & Hin & Hout & _).
  assert (H1 : Js.present None = false) by reflexivity.
  assert (H2 : PROFILE_NAMES !! profileKey Culture "launch" "retro-arcade"
               = Some "The Pixel Drop") by (vm_compute; reflexivity).
  assert (H3 : PROFILE_NAMES !! profileKey Culture "airdrop" "retro-arcade" = None)
    by (vm_compute; reflexivity).
  split; [exact H1|]. split; [exact (Htheme Culture None None (Some 3600) H1)|].
  split; [exact H2|]. split; [exact (Hin _ _ _ _ H2)|].
  split; [exact H3|]. exact (Hout _ _ _ H3).
Defined.

(** ** [classifyUtility] *)















(** ** [buildCreativeBrief] *)

(** C9, as stated, fails: with no website the one-liner of DOGE is the
    template of the source, which ends in "on Base", and not the string
    "DOGE — a hybrid token" the claim gives. *)
Lemma buildCreativeBrief_template_counterexample :
  oneLiner (buildCreativeBrief 0 "doge" fallbackToken placeholderLogo Hybrid
              {| extractedText := None; found := false |})
  = "DOGE — a hybrid token on Base" /\
  oneLiner (buildCreativeBrief 0 "doge" fallbackToken placeholderLogo Hybrid
              {| extractedText := None; found := false |})
  <> "DOGE" +:+ " — a " +:+ utilityClassName Hybrid +:+ " token".
Proof. split; [vm_compute; reflexivity|vm_compute; discriminate]. Qed.

(** C9, amended: the one-liner is the first sentence of the text of a found
    website, trimmed, exactly when the [length] of that sentence, which
    JavaScript counts in UTF-16 code units, is within 11 and 120, and
    otherwise (a sentence too short or too long, no website
    found, no text) the template "<project> — a <utilityClass> token on
    Base", where the project is the name of the token or, without one, the
    ticker in upper case.  The age of the token is the whole number of
    seconds from the pair-creation timestamp to now when there is such a
    timestamp (not zero), and null otherwise.  The brand colors are those of
    the logo and the social links those of the token (none when the token
    has none). *)
Theorem buildCreativeBrief_fields (now : Z) (ticker : string) (token : TokenResolution)
  (logo : LogoResult) (utilityClass : UtilityClass) (website : WebsiteScrapeResult) :
  let brief := buildCreativeBrief now ticker token logo utilityClass website in
  let project := Js.orElse (token_projectName token) (Js.toUpperCase ticker) in
  let template :=
    project +:+ " — a " +:+ utilityClassName utilityClass +:+ " token on Base" in
  (forall text : string,
     found website = true -> extractedText website = Some text ->
     (11 <= Js.len (firstSentenceOf text) <= 120 ->
        oneLiner brief = firstSentenceOf text) /\
     (~ 11 <= Js.len (firstSentenceOf text) <= 120 ->
        oneLiner brief = template)) /\
  (found website = false \/ Js.present (extractedText website) = false ->
     oneLiner brief = template) /\
  (forall created : Z,
     token_pairCreatedAt token = Some created -> created <> 0 ->
     tokenAgeSec brief = Some ((now - created) / 1000)) /\
  (token_pairCreatedAt token = None \/ token_pairCreatedAt token = Some 0 ->
     tokenAgeSec brief = None) /\
  brief_brandColors brief = brandColors logo /\
  brief_socialLinks brief = default noSocialLinks (token_socialLinks token) /\
  (forall links : SocialLinks,
     token_socialLinks token = Some links -> brief_socialLinks brief = links).
Proof.
  intros brief project template.
  split; [|split; [|split; [|split; [|split; [|split]]]]].
  - intros text Hfound Htext.
    unfold brief, buildCreativeBrief. cbn [oneLiner].
    rewrite Hfound, Htext. cbn [from_option id andb].
    fold project. unfold templatedOneLiner. fold template.
    assert (Hpresent : Js.truthy (firstSentenceOf text) = true ->
                       Js.present (Some text) = true)
      by (destruct text; [discriminate|reflexivity]).
    revert Hpresent. generalize (firstSentenceOf text). intros s Hpresent.
    assert (Hlen0 : Js.truthy s = false -> Js.len s = 0)
      by (destruct s; [reflexivity|discriminate]).
    split; intros Hlen.
    + destruct (Js.truthy s) eqn:Ht; [|specialize (Hlen0 eq_refl); lia].
      replace (10 <? Js.len s) with true by lia.
      replace (Js.len s <=? 120) with true by lia.
      rewrite Hpresent by reflexivity. reflexivity.
    + destruct (Js.present (Some text)); [|reflexivity].
      destruct (Js.truthy s); [|reflexivity].
      destruct (10 <? Js.len s) eqn:E1; [|reflexivity].
      destruct (Js.len s <=? 120) eqn:E2; [|reflexivity].
      exfalso. apply Hlen. lia.
  - intros Hnone. unfold brief, buildCreativeBrief. cbn [oneLiner].
    fold project. unfold templatedOneLiner. fold template.
    destruct Hnone as [-> | ->]; [reflexivity|]. rewrite andb_false_r. reflexivity.
  - intros created Hcreated Hnz. unfold brief, buildCreativeBrief. cbn [tokenAgeSec].
    rewrite Hcreated. replace (created =? 0) with false by lia. reflexivity.
  - intros [Hnone | Hzero]; unfold brief, buildCreativeBrief; cbn [tokenAgeSec].
    + rewrite Hnone. reflexivity.
    + rewrite Hzero. reflexivity.
  - reflexivity.
  - reflexivity.
  - intros links Hlinks. unfold brief, buildCreativeBrief. cbn [brief_socialLinks].
    rewrite Hlinks. reflexivity.
Qed.

(** The brief at work: a found website whose first sentence has 42
    characters, and a pair created 90 seconds before now; and a website
    whose first sentence, with a dash in it, has a [length] of 119, though
    it takes 121 bytes. *)
Lemma buildCreativeBrief_fields_witness :
  let token :=
    {| token_projectName := Some "Aave"; token_description := None;
       token_logoUrl := None; token_contractAddress := None; token_websiteUrl := None;
       token_socialLinks := None; token_pairCreatedAt := Some 1000;
       resolutionSource := Dexscreener |} in
  let site :=
    {| extractedText := Some "  Aave is a decentralised liquidity protocol. Earn.";
       found := true |} in
  let brief := buildCreativeBrief 91000 "aave" token placeholderLogo Protocol site in
  let dashed := "Doge — " +:+ Js.repeat "a" 112 in
  let dashedSite := {| extractedText := Some (dashed +:+ ". More."); found := true |} in
  found site = true /\
  11 <= Js.len (firstSentenceOf "  Aave is a decentralised liquidity protocol. Earn.") <= 120 /\
  oneLiner brief = "Aave is a decentralised liquidity protocol" /\
  token_pairCreatedAt token = Some 1000 /\ 1000 <> 0 /\
  tokenAgeSec brief = Some 90 /\
  firstSentenceOf (dashed +:+ ". More.") = dashed /\
  Js.len dashed = 119 /\ String.length dashed = 121%nat /\
  oneLiner (buildCreativeBrief 91000 "doge" token placeholderLogo Hybrid dashedSite) = dashed.
Proof.
  intros token site brief dashed dashedSite.
  destruct (buildCreativeBrief_fields 91000 "aave" token placeholderLogo Protocol site)
    as (Hsentence & _ & Hage & _).
  destruct (buildCreativeBrief_fields 91000 "doge" token placeholderLogo Hybrid dashedSite)
    as (Hdashed & _).
  assert (Hlen : 11 <= Js.len (firstSentenceOf
                   "  Aave is a decentralised liquidity protocol. Earn.") <= 120)
    by (vm_compute; split; discriminate).
  assert (Hfirst : firstSentenceOf (dashed +:+ ". More.") = dashed)
    by (vm_compute; reflexivity).
  assert (Hlen' : 11 <= Js.len (firstSentenceOf (dashed +:+ ". More.")) <= 120)
    by (vm_compute; split; discriminate).
  assert (Hnz : 1000 <> 0) by lia.
  split; [reflexivity|]. split; [exact Hlen|].
  split; [exact (proj1 (Hsentence _ eq_refl eq_refl) Hlen)|].
  split; [reflexivity|]. split; [exact Hnz|].
  split; [exact (Hage 1000 eq_refl Hnz)|].
  split; [exact Hfirst|]. split; [vm_compute; reflexivity|].
  split; [vm_compute; reflexivity|].
  etransitivity; [exact (proj1 (Hdashed _ eq_refl eq_refl) Hlen')|exact Hfirst].
Defined.

(** ** [runPipeline] *)

Section OrchestratorFacts.
Context {World : Type} `{System World}.

(** What a job that returns has been through. *)
Lemma runJob_returns (stages : Stages World) (input : GenerateJobInput)
  (w w' : World) (ctx : JobContext) :
  runJob stages input w = (Returns ctx, w') ->
  exists w1 w2 w3 w4 w5 banner,
    let token := ctx_token ctx in
    let ticker := Js.orElse (input_ticker input) "TOKEN" in
    let posts := ctx_posts ctx in
    stage_resolveToken stages (input_ticker input) (input_contractAddress input) w
      = (Returns token, w1) /\
    stage_scrapeWebsite stages (token_websiteUrl token) w1
      = (Returns (ctx_website ctx), w2) /\
    stage_manageLogo stages ticker (token_logoUrl token) w2
      = (Returns (ctx_logo ctx), w3) /\
    stage_generatePosts stages (ctx_brief ctx) (ctx_tone ctx) (ctx_website ctx) w3
      = (Returns posts, w4) /\
    stage_generateBanner stages ticker (visualThemes posts) (ctx_logo ctx)
        (extractTagline (post1 posts) ticker) (ctx_brief ctx) (ctx_tone ctx) w4
      = (Returns banner, w5) /\
    stage_generateVideo stages ticker (visualThemes posts) (ctx_logo ctx)
        (finalLogoUrl (ctx_logo ctx)) (ctx_brief ctx) (ctx_tone ctx)
        (Some (extractCta (post1 posts) ticker)) w5
      = (Returns (ctx_video ctx), w') /\
    ctx_banner ctx = banner /\
    ctx_confidence ctx =
      {| websiteFound := found (ctx_website ctx);
         officialLogo := Js.present (token_logoUrl token)
                         && isOfficialSource (resolutionSource token);
         allClipsSucceeded := clipsSucceeded (ctx_video ctx) =? 2;
         noFallbacksUsed :=
           negb (match resolutionSource token with Fallback => true | _ => false end
                 || (clipsSucceeded (ctx_video ctx) <? 2)) |}.
Proof.
  unfold runJob, bind, promiseAll2, dateNow, ret. intros Hrun.
  destruct (stage_resolveToken stages _ _ w) as [[token|e] w1] eqn:E1; [|discriminate].
  destruct (stage_scrapeWebsite stages _ w1) as [[website|e] w2] eqn:E2; [|discriminate].
  destruct (stage_manageLogo stages _ _ w2) as [[logo|e] w3] eqn:E3; [|discriminate].
  destruct (stage_generatePosts stages _ _ _ w3) as [[posts|e] w4] eqn:E4; [|discriminate].
  destruct (stage_generateBanner stages _ _ _ _ _ _ w4) as [[banner|e] w5] eqn:E5;
    destruct (stage_generateVideo stages _ _ _ _ _ _ _ w5) as [[video|e'] w6] eqn:E6;
    try discriminate.
  injection Hrun as <- <-. cbn.
  exists w1, w2, w3, w4, w5, banner.
  repeat split; try assumption.
  f_equal.
  - destruct (resolutionSource token); reflexivity.
  - destruct (resolutionSource token), (clipsSucceeded video <? 2); reflexivity.
Qed.


End OrchestratorFacts.

(** C10: the video stage is handed the URL of the logo, not the one of the
    banner, so what the video stage gives does not depend on what the banner
    stage returns.  Take two banner generators that, from every state of the
    world, end alike and leave the same world, whatever URL they return; the
    other stages are the same.  Then the two jobs end alike; when they
    return, the videos (URL and number of clips), the confidence factors and
    everything else but the banner are the same, and so are the launch video
    URL and the confidence level of the two outputs of [runPipeline]. *)
Theorem video_independent_of_banner {World : Type} `{System World}
  (stages : Stages World)
  (banner1 banner2 : string -> VisualThemes -> LogoResult -> string -> CreativeBrief ->
                     ToneProfile -> M World BannerResult) :
  (forall ticker themes logo tagline brief tone w,
      sameButValue (banner1 ticker themes logo tagline brief tone w)
                   (banner2 ticker themes logo tagline brief tone w)) ->
  forall (input : GenerateJobInput) (w : World),
    match runJob (withBanner stages banner1) input w,
          runJob (withBanner stages banner2) input w with
    | (Returns ctx1, w1), (Returns ctx2, w2) =>
        w1 = w2 /\
        launchVideoUrl (ctx_video ctx1) = launchVideoUrl (ctx_video ctx2) /\
        clipsSucceeded (ctx_video ctx1) = clipsSucceeded (ctx_video ctx2) /\
        ctx_confidence ctx1 = ctx_confidence ctx2 /\
        ctx_posts ctx1 = ctx_posts ctx2 /\ ctx_logo ctx1 = ctx_logo ctx2
    | (Throws e1, w1), (Throws e2, w2) => e1 = e2 /\ w1 = w2
    | _, _ => False
    end /\
    match runPipeline (withBanner stages banner1) input w,
          runPipeline (withBanner stages banner2) input w with
    | (Returns out1, w1), (Returns out2, w2) =>
        w1 = w2 /\
        launch_video_url out1 = launch_video_url out2 /\
        confidence_level out1 = confidence_level out2 /\
        data_source out1 = data_source out2
    | (Throws e1, w1), (Throws e2, w2) => e1 = e2 /\ w1 = w2
    | _, _ => False
    end.
Proof.
  intros Hbanner input w.
  unfold runPipeline, runJob, bind, promiseAll2, dateNow, ret.
  cbn [withBanner stage_resolveToken stage_scrapeWebsite stage_manageLogo
       stage_generatePosts stage_generateBanner stage_generateVideo].
  destruct (stage_resolveToken stages _ _ w) as [[token|e] w1];
    [|repeat split; reflexivity].
  destruct (stage_scrapeWebsite stages _ w1) as [[website|e] w2];
    [|repeat split; reflexivity].
  destruct (stage_manageLogo stages _ _ w2) as [[logo|e] w3];
    [|repeat split; reflexivity].
  destruct (stage_generatePosts stages _ _ _ w3) as [[posts|e] w4];
    [|repeat split; reflexivity].
  match goal with
  | |- context [banner1 ?a ?b ?c ?d ?e ?f w4] =>
      specialize (Hbanner a b c d e f w4);
      destruct (banner1 a b c d e f w4) as [[b1|e1] w5];
      destruct (banner2 a b c d e f w4) as [[b2|e2] w5']
  end; cbn in Hbanner; try contradiction.
  - subst w5'.
    destruct (stage_generateVideo stages _ _ _ _ _ _ _ w5) as [[video|e] w6];
      cbn; repeat split; reflexivity.
  - destruct Hbanner as [-> <-].
    destruct (stage_generateVideo stages _ _ _ _ _ _ _ w5) as [[video|e] w6];
      cbn; repeat split; reflexivity.
Qed.

(** The independence at work: the token is listed, three clips come out,
    and the two banner generators return different URLs. *)
Lemma video_independent_of_banner_witness :
  let stages := sourceStages simClipsUp simEnvRunway simTexts
                             (simThreeClipVideo simClipsUp simEnvRunway) in
  (forall ticker themes logo tagline brief tone w,
      sameButValue (simBannerA ticker themes logo tagline brief tone w)
                   (simBannerB ticker themes logo tagline brief tone w)) /\
  (match runJob (withBanner stages simBannerA) simDoge simStart,
         runJob (withBanner stages simBannerB) simDoge simStart with
   | (Returns ctx1, w1), (Returns ctx2, w2) =>
       w1 = w2 /\
       launchVideoUrl (ctx_video ctx1) = launchVideoUrl (ctx_video ctx2) /\
       clipsSucceeded (ctx_video ctx1) = clipsSucceeded (ctx_video ctx2) /\
       ctx_confidence ctx1 = ctx_confidence ctx2 /\
       ctx_posts ctx1 = ctx_posts ctx2 /\ ctx_logo ctx1 = ctx_logo ctx2
   | (Throws e1, w1), (Throws e2, w2) => e1 = e2 /\ w1 = w2
   | _, _ => False
   end /\
   match runPipeline (withBanner stages simBannerA) simDoge simStart,
         runPipeline (withBanner stages simBannerB) simDoge simStart with
   | (Returns out1, w1), (Returns out2, w2) =>
       w1 = w2 /\
       launch_video_url out1 = launch_video_url out2 /\
       confidence_level out1 = confidence_level out2 /\
       data_source out1 = data_source out2
   | (Throws e1, w1), (Throws e2, w2) => e1 = e2 /\ w1 = w2
   | _, _ => False
   end).
Proof.
  intros stages.
  assert (Hsame : forall ticker themes logo tagline brief tone w,
             sameButValue (simBannerA ticker themes logo tagline brief tone w)
                          (simBannerB ticker themes logo tagline brief tone w))
    by (intros; reflexivity).
  split; [exact Hsame|].
  exact (video_independent_of_banner stages simBannerA simBannerB Hsame simDoge simStart).
Defined.

Example banners_differ :
  exists ctx1 ctx2 w',
    runJob (withBanner (sourceStages simClipsUp simEnvRunway simTexts
                          (simThreeClipVideo simClipsUp simEnvRunway)) simBannerA)
           simDoge simStart = (Returns ctx1, w') /\
    runJob (withBanner (sourceStages simClipsUp simEnvRunway simTexts
                          (simThreeClipVideo simClipsUp simEnvRunway)) simBannerB)
           simDoge simStart = (Returns ctx2, w') /\
    ctx_banner ctx1 <> ctx_banner ctx2 /\ ctx_video ctx1 = ctx_video ctx2.
Proof.
  eexists. eexists. eexists.
  split; [vm_compute; reflexivity|]. split; [vm_compute; reflexivity|].
  split; [discriminate|reflexivity].
Qed.

(** In the orchestrator of the TypeScript sources too, the factor of every
    job that returns says that exactly two clips succeeded. *)
Lemma Ts_allClipsSucceeded_of_job {World : Type} `{System World} (stages : Ts.Stages World)
  (input : Ts.GenerateJobInput) (w w' : World) (ctx : Ts.JobContext) :
  Ts.runJob stages input w = (Returns ctx, w') ->
  exists w0,
    Ts.stage_generateVideo stages (Js.orElse (Ts.input_ticker input) "TOKEN")
      (visualThemes (Ts.ctx_posts ctx)) (Ts.ctx_logo ctx)
      (heroBannerUrl (Ts.ctx_banner ctx)) (Ts.input_style input) w0
    = (Returns (Ts.ctx_video ctx), w') /\
    allClipsSucceeded (Ts.ctx_confidence ctx) = (clipsSucceeded (Ts.ctx_video ctx) =? 2).
Proof.
  unfold Ts.runJob, bind, ret. intros Hrun.
  destruct (Ts.stage_resolveToken stages _ _ w) as [[token|e] w1]; [|discriminate].
  destruct (Ts.stage_scrapeWebsite stages _ w1) as [[website|e] w2]; [|discriminate].
  destruct (Ts.stage_manageLogo stages _ _ w2) as [[logo|e] w3]; [|discriminate].
  destruct (Ts.stage_generatePosts stages _ _ _ w3) as [[posts|e] w4]; [|discriminate].
  destruct (Ts.stage_generateBanner stages _ _ _ _ w4) as [[banner|e] w5]; [|discriminate].
  destruct (Ts.stage_generateVideo stages _ _ _ _ _ w5) as [[video|e] w6] eqn:Hvideo;
    [|discriminate].
  injection Hrun as <- <-. exists w5. split; [exact Hvideo|reflexivity].
Qed.

(** C3: the factor is computed as "exactly two clips succeeded", in the
    compiled orchestrator and in the one of the TypeScript sources alike.
    The TypeScript orchestrator runs over the video generator of the
    TypeScript sources, which asks for three clips.  There a job in which
    all three clips succeed reports 3 clips: the factor is false and the
    confidence level is 3 though the website was found, the logo is
    official and no fallback was used; and a job in which the third clip
    fails reports 2 clips: the factor is true and the level is 4. *)
Theorem allClipsSucceeded_three_clips :
  (forall themes : VisualThemes, List.length (clipPromptsOf themes) = 3%nat) /\
  (forall (World : Type) (system : System World) (stages : Ts.Stages World)
          (input : Ts.GenerateJobInput) (w w' : World) (ctx : Ts.JobContext),
     Ts.runJob stages input w = (Returns ctx, w') ->
     allClipsSucceeded (Ts.ctx_confidence ctx) = (clipsSucceeded (Ts.ctx_video ctx) =? 2)) /\
  (exists video w',
     generateVideo simClipsUp simEnvRunway simTexts "DOGE" (simThemes "DOGE")
                   placeholderLogo "https://cdn.example/banner.jpg" "cyberpunk" simStart
     = (Returns video, w') /\
     clipsSucceeded video = 3) /\
  (exists ctx w',
     Ts.runJob (simTsStages simClipsUp simEnvRunway) simTsDoge simStart = (Returns ctx, w') /\
     clipsSucceeded (Ts.ctx_video ctx) = 3 /\
     allClipsSucceeded (Ts.ctx_confidence ctx) = false /\
     websiteFound (Ts.ctx_confidence ctx) = true /\
     officialLogo (Ts.ctx_confidence ctx) = true /\
     noFallbacksUsed (Ts.ctx_confidence ctx) = true /\
     Ts.confidence_level (Ts.jobOutput ctx 0) = 3) /\
  (exists ctx w',
     Ts.runJob (simTsStages simTwoClipsUp simEnvRunway) simTsDoge simStart
     = (Returns ctx, w') /\
     clipsSucceeded (Ts.ctx_video ctx) = 2 /\
     allClipsSucceeded (Ts.ctx_confidence ctx) = true /\
     Ts.confidence_level (Ts.jobOutput ctx 0) = 4).
Proof.
  split; [reflexivity|]. split; [|split; [|split]].
  - intros World system stages input w w' ctx Hrun.
    destruct (Ts_allClipsSucceeded_of_job _ _ _ _ _ Hrun) as (w0 & _ & Hfactor).
    exact Hfactor.
  - eexists. eexists. split; [vm_compute; reflexivity|reflexivity].
  - eexists. eexists. split; [vm_compute; reflexivity|]. repeat split.
  - eexists. eexists. split; [vm_compute; reflexivity|]. repeat split.
Qed.

(** In every job that returns, the factor says that exactly two clips
    succeeded; it says that all clips succeeded when two were attempted. *)
Lemma allClipsSucceeded_of_job {World : Type} `{System World} (stages : Stages World)
  (input : GenerateJobInput) (w w' : World) (ctx : JobContext) :
  runJob stages input w = (Returns ctx, w') ->
  (allClipsSucceeded (ctx_confidence ctx) = true <-> clipsSucceeded (ctx_video ctx) = 2) /\
  (forall attempted : Z,
     attempted = 2 ->
     (allClipsSucceeded (ctx_confidence ctx) = true
      <-> clipsSucceeded (ctx_video ctx) = attempted)).
Proof.
  intros Hrun. apply runJob_returns in Hrun.
  destruct Hrun as (w1 & w2 & w3 & w4 & w5 & banner & _ & _ & _ & _ & _ & _ & _ & ->).
  cbn [allClipsSucceeded]. split.
  - apply Z.eqb_eq.
  - intros attempted ->. apply Z.eqb_eq.
Qed.

(** An operation that always throws makes [withRetry] throw. *)
Lemma retryLoop_throws {World : Type} `{System World} {A : Type} (fn : M World A)
  (maxR baseD : Z) :
  (forall w, exists e w', fn w = (Throws e, w')) ->
  forall (fuel : nat) (attempt : Z) (lastError : Thrown) (w : World),
    exists e w', retryLoop fn maxR baseD fuel attempt lastError w = (Throws e, w').
Proof.
  intros Hfn. induction fuel as [|fuel IH]; intros attempt lastError w.
  - exists lastError, w. reflexivity.
  - rewrite retryLoop_step. destruct (attempt <=? maxR).
    + unfold tryCatch, bind. destruct (Hfn w) as (e & w' & ->).
      destruct (attempt <? maxR); cbn; apply IH.
    + exists lastError, w. reflexivity.
Qed.

Lemma withRetry_throws {World : Type} `{System World} {A : Type} (fn : M World A)
  (opts : RetryOptions) :
  (forall w, exists e w', fn w = (Throws e, w')) ->
  forall w, exists e w', withRetry fn opts w = (Throws e, w').
Proof. intros Hfn w. unfold withRetry. apply retryLoop_throws, Hfn. Qed.

Section Unguarded.
Context {World : Type} `{System World}.
Variable remote : Remote World.
Variable env : Env.
Variable texts : Texts.

(** [generatePosts] has no [try] around [withRetry]: when the text model
    cannot be reached, it throws. *)
Lemma generatePosts_throws :
  (forall model system user w,
      exists e w', chatCompletion remote model system user w = (Throws e, w')) ->
  forall brief tone website w,
    exists e w', generatePosts remote env texts brief tone website w = (Throws e, w').
Proof.
  intros Hchat brief tone website w. unfold generatePosts.
  unfold bind at 1. unfold newOpenAI.
  destruct (OPENAI_API_KEY env) as [key|]; [|eexists; eexists; reflexivity].
  cbv beta iota.
  match goal with
  | |- context [withRetry ?fn ?opts] =>
      destruct (withRetry_throws fn opts) with (w := w) as (e & w' & Hthrow)
  end.
  - intros w0. unfold bind.
    match goal with
    | |- context [chatCompletion remote ?a ?b ?c w0] =>
        destruct (Hchat a b c w0) as (e & w' & ->)
    end.
    exists e, w'. reflexivity.
  - exists e, w'. unfold ret at 1. cbv beta iota. unfold bind at 1. rewrite Hthrow.
    reflexivity.
Qed.

(** [finalizeAndUpload] has no [try] around the download: when the image
    cannot be fetched, [generateBanner] throws. *)
Lemma generateBanner_throws :
  (forall url w, exists e w', httpGetBuffer remote url w = (Throws e, w')) ->
  forall ticker themes logo tagline brief tone w,
    exists e w',
      generateBanner remote env texts ticker themes logo tagline brief tone w
      = (Throws e, w').
Proof.
  intros Hget ticker themes logo tagline brief tone w.
  unfold generateBanner. unfold bind at 1.
  match goal with
  | |- context [tryCatch ?c ?h w] => destruct (tryCatch c h w) as [[bgUrl|e] w1]
  end; [|exists e, w1; reflexivity].
  unfold bind at 1.
  match goal with
  | |- context [tryCatch ?c ?h w1] => destruct (tryCatch c h w1) as [[compositeUrl|e] w2]
  end; [|exists e, w2; reflexivity].
  unfold bind at 1. unfold finalizeAndUpload at 1. unfold bind at 1.
  destruct (Hget compositeUrl w2) as (e & w3 & ->).
  exists e, w3. reflexivity.
Qed.

(** So [runPipeline] throws whenever the text model cannot be reached,
    whatever the input and the video stage. *)
Lemma runPipeline_throws_without_chat
  (video : string -> VisualThemes -> LogoResult -> string -> CreativeBrief ->
           ToneProfile -> option string -> M World VideoResult) :
  (forall model system user w,
      exists e w', chatCompletion remote model system user w = (Throws e, w')) ->
  forall input w,
    exists e w',
      runPipeline (sourceStages remote env texts video) input w = (Throws e, w').
Proof.
  intros Hchat input w.
  unfold runPipeline, runJob, bind, dateNow, ret.
  cbn [sourceStages stage_resolveToken stage_scrapeWebsite stage_manageLogo
       stage_generatePosts].
  destruct (resolveToken remote _ _ w) as [[token|e] w1]; [|exists e, w1; reflexivity].
  destruct (scrapeWebsite remote texts _ w1) as [[website|e] w2];
    [|exists e, w2; reflexivity].
  destruct (manageLogo remote env texts _ _ w2) as [[logo|e] w3];
    [|exists e, w3; reflexivity].
  match goal with
  | |- context [generatePosts remote env texts ?b ?t ?s w3] =>
      destruct (generatePosts_throws Hchat b t s w3) as (e & w4 & ->)
  end.
  exists e, w4. reflexivity.
Qed.

(** And it throws whenever files cannot be fetched. *)
Lemma runPipeline_throws_without_downloads
  (video : string -> VisualThemes -> LogoResult -> string -> CreativeBrief ->
           ToneProfile -> option string -> M World VideoResult) :
  (forall url w, exists e w', httpGetBuffer remote url w = (Throws e, w')) ->
  forall input w,
    exists e w',
      runPipeline (sourceStages remote env texts video) input w = (Throws e, w').
Proof.
  intros Hget input w.
  unfold runPipeline, runJob, bind, promiseAll2, dateNow, ret.
  cbn [sourceStages stage_resolveToken stage_scrapeWebsite stage_manageLogo
       stage_generatePosts stage_generateBanner stage_generateVideo].
  destruct (resolveToken remote _ _ w) as [[token|e] w1]; [|exists e, w1; reflexivity].
  destruct (scrapeWebsite remote texts _ w1) as [[website|e] w2];
    [|exists e, w2; reflexivity].
  destruct (manageLogo remote env texts _ _ w2) as [[logo|e] w3];
    [|exists e, w3; reflexivity].
  destruct (generatePosts remote env texts _ _ _ w3) as [[posts|e] w4];
    [|exists e, w4; reflexivity].
  match goal with
  | |- context [generateBanner remote env texts ?a ?b ?c ?d ?f ?g w4] =>
      destruct (generateBanner_throws Hget a b c d f g w4) as (e & w5 & ->)
  end.
  destruct (video _ _ _ _ _ _ _ w5) as [r w6].
  exists e, w6. destruct r; reflexivity.
Qed.

End Unguarded.

(** [resolveToken] keeps its word: it never throws, and with no contract
    address and a search that cannot be reached it falls back fully. *)
Lemma resolveToken_returns {World : Type} `{System World} (remote : Remote World)
  (ticker contractAddress : option string) (w : World) :
  exists token w', resolveToken remote ticker contractAddress w = (Returns token, w').
Proof.
  unfold resolveToken, bind, tryCatch, ret.
  destruct (Js.present ticker).
  - destruct (withRetry _ _ w) as [[[token|]|e] w1]; [eauto| |].
    + destruct (Js.present contractAddress); [|eauto].
      destruct (withRetry _ _ w1) as [[[token|]|e] w2]; eauto.
    + destruct (Js.present contractAddress); [|eauto].
      destruct (withRetry _ _ w1) as [[[token|]|e'] w2]; eauto.
  - destruct (Js.present contractAddress); [|eauto].
    destruct (withRetry _ _ w) as [[[token|]|e] w2]; eauto.
Qed.

(** C1, on the code: with every remote service refusing connections, the
    job of the ticker DOGE does not return an output, it throws.  Token
    resolution falls back, no website is looked for, the logo is a
    placeholder, and then [generatePosts] throws the error of the last
    attempt on the text model (whatever the texts and the video stage).
    When only the text model answers, [generateBanner] throws from the
    download in [finalizeAndUpload]; when the storage is configured,
    [manageLogo] throws from its upload. *)
Theorem runPipeline_throws_when_services_are_down :
  (forall texts video,
     fst (runPipeline (sourceStages simNetworkDown simEnvUnset texts video)
                      simDoge simStart)
     = Throws (Error "connect ECONNREFUSED")) /\
  (forall video,
     fst (runPipeline (sourceStages simOnlyChat simEnvUnset simTexts video)
                      simDoge simStart)
     = Throws (Error "connect ECONNREFUSED")) /\
  (forall texts video,
     fst (runPipeline (sourceStages simNetworkDown simEnvConfigured texts video)
                      simDoge simStart)
     = Throws (Error "connect ECONNREFUSED")) /\
  fst (resolveToken simNetworkDown (Some "DOGE") None simStart) = Returns fallbackToken /\
  fst (generatePosts simNetworkDown simEnvUnset simTexts
         (buildCreativeBrief 0 "DOGE" fallbackToken placeholderLogo Hybrid notFound)
         (resolveToneProfile Hybrid None None None) notFound simStart)
  = Throws (Error "connect ECONNREFUSED") /\
  fst (generateBanner simOnlyChat simEnvUnset simTexts "DOGE" (simThemes "DOGE")
         placeholderLogo "$DOGE — The Next Chapter"
         (buildCreativeBrief 0 "DOGE" fallbackToken placeholderLogo Hybrid notFound)
         (resolveToneProfile Hybrid None None None) simStart)
  = Throws (Error "connect ECONNREFUSED").
Proof.
  split; [|split; [|split; [|split; [|split]]]].
  - intros texts video. vm_compute. reflexivity.
  - intros video. vm_compute.
    match goal with
    | |- context [video ?a ?b ?c ?d ?e ?f ?g ?w] => destruct (video a b c d e f g w) as [r w']
    end.
    destruct r; reflexivity.
  - intros texts video. vm_compute. reflexivity.
  - vm_compute. reflexivity.
  - vm_compute. reflexivity.
  - vm_compute. reflexivity.
Qed.

(** What a job that returns reports when no website was found: after a full
    fallback of the token resolution the confidence level is 1 and the tag
    "thematic_only"; after a user-provided address, with fewer than two
    clips, the level is 1 and the tag "mixed". *)
Lemma degraded_job_output {World : Type} `{System World} (stages : Stages World)
  (input : GenerateJobInput) (w w' : World) (ctx : JobContext) (elapsed : Z) :
  runJob stages input w = (Returns ctx, w') ->
  found (ctx_website ctx) = false ->
  (resolutionSource (ctx_token ctx) = Fallback ->
     confidence_level (jobOutput ctx elapsed) = 1 /\
     data_source (jobOutput ctx elapsed) = ThematicOnly) /\
  (resolutionSource (ctx_token ctx) = User ->
     clipsSucceeded (ctx_video ctx) < 2 ->
     confidence_level (jobOutput ctx elapsed) = 1 /\
     data_source (jobOutput ctx elapsed) = Mixed).
Proof.
  intros Hrun Hfound. apply runJob_returns in Hrun.
  destruct Hrun as (w1 & w2 & w3 & w4 & w5 & banner & _ & _ & _ & _ & _ & _ & _ & Hf).
  unfold jobOutput. cbn [confidence_level data_source]. rewrite Hf, Hfound.
  split.
  - intros ->. rewrite andb_false_r. cbn.
    destruct (clipsSucceeded (ctx_video ctx) =? 2); split; reflexivity.
  - intros -> Hclips. rewrite andb_false_r. cbn.
    replace (clipsSucceeded (ctx_video ctx) =? 2) with false by lia.
    replace (clipsSucceeded (ctx_video ctx) <? 2) with true by lia.
    split; reflexivity.
Qed.

Example run_lookup_down_ticker :
  exists output w',
    runPipeline (sourceStages simLookupDown simEnvRunway simTexts
                              (simThreeClipVideo simLookupDown simEnvRunway))
                simDoge simStart = (Returns output, w') /\
    confidence_level output = 1 /\ data_source output = ThematicOnly.
Proof. eexists. eexists. split; [vm_compute; reflexivity|]. split; reflexivity. Qed.

Example run_lookup_down_address :
  exists output w',
    runPipeline (sourceStages simLookupDown simEnvRunway simTexts
                              (simThreeClipVideo simLookupDown simEnvRunway))
                simByAddress simStart = (Returns output, w') /\
    confidence_level output = 1 /\ data_source output = Mixed.
Proof. eexists. eexists. split; [vm_compute; reflexivity|]. split; reflexivity. Qed.

(** With a number of retries below zero the loop does not run: nothing is
    invoked and [undefined] is thrown. *)
Example withRetry_negative_retries :
  withRetry (probed (simFlaky 0))
            {| maxRetries := Some (-1); baseDelayMs := None; label := None |}
            (probeStart simStart)
  = (Throws Undefined, probeStart simStart).
Proof. vm_compute. reflexivity. Qed.

(* ================================================================== *)
(** * Part III: further properties of the code                         *)
(* ================================================================== *)

(** ** Strings *)

Lemma normalizeLabel_idem (s : string) :
  normalizeLabel (normalizeLabel s) = normalizeLabel s.
Proof.
  unfold normalizeLabel. rewrite toLowerCase_normalized. apply trim_idem.
Qed.

Lemma normalizeLabel_lower (s : string) :
  Js.toLowerCase (normalizeLabel s) = normalizeLabel s.
Proof. apply toLowerCase_normalized. Qed.

Lemma normalizeLabel_trimmed (s : string) : Trimmed (normalizeLabel s).
Proof. apply trim_idem. Qed.

(** ** [validateInput] *)

Lemma normalized_some (s : string) : NormalizedLabel (Some (normalizeLabel s)).
Proof. split; [apply normalizeLabel_lower|apply normalizeLabel_trimmed]. Qed.

Lemma validateInput_inr (raw : RawBody) (input : GenerateJobInput) :
  validateInput raw = inr input ->
  exists body,
    raw = AnObject body /\
    input_ticker input = asOptionalString (property body "ticker") /\
    input_contractAddress input = asOptionalString (property body "contractAddress") /\
    (Js.present (input_ticker input) || Js.present (input_contractAddress input) = true) /\
    NormalizedLabel (input_intent input) /\
    NormalizedLabel (input_theme input) /\
    (truthyValue (property body "intent") = true ->
       exists s, property body "intent" = VString s /\
                 input_intent input = Some (normalizeLabel s)) /\
    (truthyValue (property body "intent") = false -> input_intent input = None).
Proof.
  destruct raw as [|body]; [discriminate|]. cbn [validateInput].
  intros Hv. exists body. split; [reflexivity|]. revert Hv.
  generalize (property body "ticker") as t.
  generalize (property body "contractAddress") as a.
  generalize (property body "intent") as i.
  generalize (property body "theme") as th.
  generalize (property body "style") as st.
  intros st th i a t Hv.
  destruct (negb (truthyValue t) && negb (truthyValue a)) eqn:Hboth; [discriminate|].
  destruct (truthyValue t && negb (isStringValue t)) eqn:Ht; [discriminate|].
  destruct (truthyValue a && negb (isStringValue a)) eqn:Ha; [discriminate|].
  destruct (truthyValue i && negb (isStringValue i)) eqn:Hi; [discriminate|].
  destruct (truthyValue th && negb (isStringValue th)) eqn:Hth; [discriminate|].
  injection Hv as <-. cbn [input_ticker input_contractAddress input_intent input_theme].
  split; [reflexivity|]. split; [reflexivity|].
  split.
  { destruct t as [| |[]|n|s|], a as [| |[]|n'|s'|]; cbn in *;
      try discriminate; try reflexivity;
      repeat match goal with
             | |- context [Js.truthy ?x] => destruct (Js.truthy x)
             | H : context [?n =? 0] |- _ => destruct (n =? 0)
             end; cbn in *; try discriminate; reflexivity. }
  split.
  { destruct i as [| | | |s|]; try exact I. destruct (Js.truthy s); [|exact I].
    apply normalized_some. }
  split.
  { destruct th as [| | | |s|]; cbn [Js.present];
      try (destruct (truthyValue st); [destruct st; try exact I; apply normalized_some|exact I]).
    destruct (Js.truthy s) eqn:Hs.
    - cbn [Js.present]. pose proof (normalized_some s) as Hn.
      destruct (Js.truthy (normalizeLabel s)); cbn [negb andb]; [exact Hn|].
      destruct (truthyValue st); [|exact Hn].
      destruct st; try exact Hn; apply normalized_some.
    - cbn [Js.present negb andb].
      destruct (truthyValue st); [destruct st; try exact I; apply normalized_some|exact I]. }
  split.
  - intros Hti. destruct i as [| |b|n|s|]; cbn in Hti, Hi; try discriminate.
    + destruct b; discriminate.
    + rewrite Hti in Hi. discriminate.
    + exists s. rewrite Hti. split; reflexivity.
  - intros Hti. destruct i as [| |b|n|s|]; cbn in Hti; try reflexivity; try discriminate.
    rewrite Hti. reflexivity.
Qed.

Lemma bodyOfInput_properties (input : GenerateJobInput) :
  let field (o : option string) : JsValue :=
    match o with Some s => VString s | None => VUndefined end in
  exists body,
    bodyOfInput input = AnObject body /\
    property body "ticker" = field (input_ticker input) /\
    property body "contractAddress" = field (input_contractAddress input) /\
    property body "intent" = field (input_intent input) /\
    property body "theme" = field (input_theme input) /\
    property body "style" = VUndefined.
Proof.
  intros field. eexists. split; [reflexivity|].
  unfold property. repeat split; by simplify_map_eq.
Qed.

(** X1: what [validateInput] lets through and what it refuses.  An accepted
    input has a ticker or a contract address that is a string and not
    empty, and its intent and theme, when there, are in lower case with no
    white space around; of the body, the four fields were each falsy or a
    string.  A refusal has one of three causes: the body is no object,
    neither ticker nor contract address is truthy, or one of the four
    fields is truthy and no string. *)
Theorem validateInput_accepts_and_refuses (raw : RawBody) :
  match validateInput raw with
  | inr input =>
      (Js.present (input_ticker input) || Js.present (input_contractAddress input) = true) /\
      NormalizedLabel (input_intent input) /\
      NormalizedLabel (input_theme input) /\
      exists body,
        raw = AnObject body /\
        Forall (fun key => truthyValue (property body key) = true ->
                           isStringValue (property body key) = true)
               ["ticker"; "contractAddress"; "intent"; "theme"]
  | inl message =>
      raw = NotAnObject \/
      exists body,
        raw = AnObject body /\
        ((truthyValue (property body "ticker") = false /\
          truthyValue (property body "contractAddress") = false) \/
         Exists (fun key => truthyValue (property body key) = true /\
                            isStringValue (property body key) = false)
                ["ticker"; "contractAddress"; "intent"; "theme"])
  end.
Proof.
  destruct (validateInput raw) as [message|input] eqn:Hv.
  - destruct raw as [|body]; [left; reflexivity|]. right. exists body.
    split; [reflexivity|]. cbn [validateInput] in Hv.
    destruct (truthyValue (property body "ticker")) eqn:Ht,
             (truthyValue (property body "contractAddress")) eqn:Ha;
      cbn [negb andb] in Hv; try (left; split; reflexivity); right.
    all: destruct (isStringValue (property body "ticker")) eqn:Hts;
      cbn [negb andb] in Hv;
      try (apply Exists_cons_hd; split; assumption).
    all: destruct (isStringValue (property body "contractAddress")) eqn:Has;
      cbn [negb andb] in Hv;
      try (apply Exists_cons_tl, Exists_cons_hd; split; assumption).
    all: destruct (truthyValue (property body "intent")) eqn:Hi,
                  (isStringValue (property body "intent")) eqn:His;
      cbn [negb andb] in Hv;
      try (apply Exists_cons_tl, Exists_cons_tl, Exists_cons_hd; split; assumption).
    all: destruct (truthyValue (property body "theme")) eqn:Hth,
                  (isStringValue (property body "theme")) eqn:Hths;
      cbn [negb andb] in Hv;
      try (apply Exists_cons_tl, Exists_cons_tl, Exists_cons_tl, Exists_cons_hd;
           split; assumption);
      discriminate.
  - pose proof (validateInput_inr raw input Hv)
      as (body & -> & _ & _ & Hone & Hintent & Htheme & _).
    split; [exact Hone|]. split; [exact Hintent|]. split; [exact Htheme|].
    exists body. split; [reflexivity|]. cbn [validateInput] in Hv.
    destruct (negb _ && negb _); [discriminate|].
    destruct (truthyValue (property body "ticker")
              && negb (isStringValue (property body "ticker"))) eqn:Ht; [discriminate|].
    destruct (truthyValue (property body "contractAddress")
              && negb (isStringValue (property body "contractAddress"))) eqn:Ha;
      [discriminate|].
    destruct (truthyValue (property body "intent")
              && negb (isStringValue (property body "intent"))) eqn:Hi; [discriminate|].
    destruct (truthyValue (property body "theme")
              && negb (isStringValue (property body "theme"))) eqn:Hth; [discriminate|].
    assert (Hstr : forall a b : bool, a && negb b = false -> a = true -> b = true)
      by (intros [] []; cbn; congruence).
    repeat constructor; intros Htrue; eapply Hstr; eassumption.
Qed.

(** X2: validation is a normal form.  The body made of an accepted input is
    accepted again and gives the same input, but for an intent or theme
    that is the empty string (a label of white space only), which comes back
    as absent; the input so obtained is a fixed point, and the tone resolver
    does not tell the two apart. *)
Theorem validateInput_round_trip (raw : RawBody) (input : GenerateJobInput) :
  validateInput raw = inr input ->
  validateInput (bodyOfInput input) = inr (canonicalInput input) /\
  validateInput (bodyOfInput (canonicalInput input)) = inr (canonicalInput input) /\
  (forall (u : UtilityClass) (age : option Z),
     resolveToneProfile u (input_intent (canonicalInput input))
                        (input_theme (canonicalInput input)) age
     = resolveToneProfile u (input_intent input) (input_theme input) age).
Proof.
  intros Hv.
  pose proof (validateInput_inr raw input Hv)
    as (body0 & _ & _ & _ & Hone & Hintent & Htheme & _).
  assert (Hre : forall inp : GenerateJobInput,
             (Js.present (input_ticker inp) || Js.present (input_contractAddress inp) = true) ->
             NormalizedLabel (input_intent inp) -> NormalizedLabel (input_theme inp) ->
             validateInput (bodyOfInput inp) = inr (canonicalInput inp)).
  { intros [t a i th] Hp Hi Hth. cbn [input_ticker input_contractAddress input_intent
                                     input_theme] in *.
    destruct (bodyOfInput_properties
                {| input_ticker := t; input_contractAddress := a;
                   input_intent := i; input_theme := th |})
      as (body & -> & Pt & Pa & Pi & Pth & Pst).
    cbn [input_ticker input_contractAddress input_intent input_theme] in *.
    cbn [validateInput]. rewrite Pt, Pa, Pi, Pth, Pst. unfold canonicalInput.
    cbn [input_ticker input_contractAddress input_intent input_theme].
    assert (Hlabel : forall s, NormalizedLabel (Some s) -> normalizeLabel s = s).
    { intros s [Hl Htr]. unfold normalizeLabel. rewrite Hl. exact Htr. }
    destruct t as [t|], a as [a|], i as [i|], th as [th|];
      cbn [truthyValue isStringValue asOptionalString Js.present Js.orUndefined
           negb andb orb] in *;
      repeat match goal with
             | |- context [Js.truthy ?x] => destruct (Js.truthy x) eqn:?
             end;
      cbn [negb andb orb Js.present] in *; try discriminate;
      rewrite ?(Hlabel _ Hi), ?(Hlabel _ Hth);
      repeat match goal with
             | Hx : Js.truthy ?x = _ |- context [Js.truthy ?x] => rewrite Hx
             end; cbn [negb andb orb]; reflexivity. }
  split; [apply Hre; assumption|]. split.
  - replace (canonicalInput input) with (canonicalInput (canonicalInput input)) at 2.
    + apply Hre.
      * exact Hone.
      * cbn. destruct (input_intent input) as [i|]; [|exact I]. cbn.
        destruct (Js.truthy i); [exact Hintent|exact I].
      * cbn. destruct (input_theme input) as [th|]; [|exact I]. cbn.
        destruct (Js.truthy th); [exact Htheme|exact I].
    + unfold canonicalInput. cbn. f_equal.
      * destruct (input_intent input) as [i|]; [|reflexivity]. cbn.
        destruct (Js.truthy i) eqn:Hi; [cbn; rewrite Hi|]; reflexivity.
      * destruct (input_theme input) as [th|]; [|reflexivity]. cbn.
        destruct (Js.truthy th) eqn:Hth; [cbn; rewrite Hth|]; reflexivity.
  - intros u age. unfold resolveToneProfile, resolveIntent, resolveTheme. cbn.
    destruct (input_intent input) as [i|], (input_theme input) as [th|]; cbn;
      repeat match goal with
             | |- context [Js.truthy ?x] => destruct (Js.truthy x) eqn:?
             end; cbn;
      repeat match goal with
             | Hx : Js.truthy ?x = _ |- context [Js.truthy ?x] => rewrite Hx
             end; reflexivity.
Qed.

(** The normal form at work: the labels of the body are put in lower case
    and trimmed, the legacy style stands in for the theme. *)
Lemma validateInput_round_trip_witness :
  let input := {| input_ticker := Some "DOGE"; input_contractAddress := None;
                  input_intent := Some "stealth"; input_theme := Some "space" |} in
  validateInput simBody = inr input /\
  validateInput (bodyOfInput input) = inr (canonicalInput input) /\
  validateInput (bodyOfInput (canonicalInput input)) = inr (canonicalInput input) /\
  (forall (u : UtilityClass) (age : option Z),
     resolveToneProfile u (input_intent (canonicalInput input))
                        (input_theme (canonicalInput input)) age
     = resolveToneProfile u (input_intent input) (input_theme input) age).
Proof.
  intros input.
  assert (Hv : validateInput simBody = inr input) by (vm_compute; reflexivity).
  split; [exact Hv|]. exact (validateInput_round_trip simBody input Hv).
Defined.

Example validateInput_blank_intent :
  validateInput simBlankBody
  = inr {| input_ticker := None; input_contractAddress := Some "0xabc";
           input_intent := Some ""; input_theme := None |}.
Proof. vm_compute. reflexivity. Qed.

(** X3: the labels of a validated input reach the tone profile as they are.
    When [validateInput] accepts a body whose intent is a string with
    something else than white space in it, the intent of the tone profile is
    that string in lower case and trimmed, whatever the age of the token; the
    same for the theme, and the profile name is the one of these two labels. *)
Theorem validated_labels_reach_tone (raw : RawBody) (input : GenerateJobInput)
  (u : UtilityClass) (age : option Z) :
  validateInput raw = inr input ->
  let tone := resolveToneProfile u (input_intent input) (input_theme input) age in
  (forall i, input_intent input = Some i -> Js.truthy i = true -> tone_intent tone = i) /\
  (forall t, input_theme input = Some t -> Js.truthy t = true -> tone_theme tone = t) /\
  (forall i t, input_intent input = Some i -> Js.truthy i = true ->
               input_theme input = Some t -> Js.truthy t = true ->
               profileName tone = resolveProfileName u i t) /\
  (forall body s, raw = AnObject body -> property body "intent" = VString s ->
                  Js.truthy (normalizeLabel s) = true ->
                  tone_intent tone = normalizeLabel s).
Proof.
  intros Hv tone.
  pose proof (validateInput_inr raw input Hv)
    as (body0 & Hraw & _ & _ & _ & Hintent & Htheme & Hsome & _).
  assert (Hi : forall i, input_intent input = Some i -> Js.truthy i = true ->
                         tone_intent tone = i).
  { intros i Ei Hi. unfold tone, resolveToneProfile, resolveIntent. cbn [tone_intent].
    rewrite Ei in *. cbn. rewrite Hi. apply Hintent. }
  assert (Ht : forall t, input_theme input = Some t -> Js.truthy t = true ->
                         tone_theme tone = t).
  { intros t Et Ht. unfold tone, resolveToneProfile, resolveTheme. cbn [tone_theme].
    rewrite Et in *. cbn. rewrite Ht. apply Htheme. }
  split; [exact Hi|]. split; [exact Ht|]. split.
  - intros i t Ei Hti Et Htt.
    change (profileName tone) with (resolveProfileName u (tone_intent tone) (tone_theme tone)).
    rewrite (Hi i Ei Hti), (Ht t Et Htt). reflexivity.
  - intros body s -> Hs Hn. injection Hraw as <-.
    assert (Hts : truthyValue (property body "intent") = true).
    { rewrite Hs. cbn. destruct s; [discriminate Hn|reflexivity]. }
    destruct (Hsome Hts) as (s' & Hs' & Ei). rewrite Hs in Hs'. injection Hs' as <-.
    apply Hi; assumption.
Qed.

Lemma validated_labels_reach_tone_witness :
  let input := {| input_ticker := Some "DOGE"; input_contractAddress := None;
                  input_intent := Some "stealth"; input_theme := Some "space" |} in
  let tone := resolveToneProfile Culture (input_intent input) (input_theme input)
                                 (Some 60) in
  validateInput simBody = inr input /\
  tone_intent tone = "stealth" /\ tone_theme tone = "space" /\
  profileName tone = "The Dark Horse".
Proof.
  intros input tone.
  assert (Hv : validateInput simBody = inr input) by (vm_compute; reflexivity).
  destruct (validated_labels_reach_tone simBody input Culture (Some 60) Hv)
    as (Hi & Ht & Hname & _).
  split; [exact Hv|]. split; [exact (Hi "stealth" eq_refl eq_refl)|].
  split; [exact (Ht "space" eq_refl eq_refl)|].
  etransitivity; [exact (Hname "stealth" "space" eq_refl eq_refl eq_refl eq_refl)|].
  vm_compute. reflexivity.
Defined.

(** ** The handler of [POST /generate] *)

(** X4: the handler answers every request and never throws, and what it
    answers is decided by the validation and by the pipeline.  When
    [validateInput] refuses the body, the reply is 400 "validation_error"
    with the message of the refusal, and the pipeline is not run: the world
    is left as it was.  When it accepts and [runPipeline] returns an output,
    the reply is 200 with that output, in the world the pipeline left.  When
    [runPipeline] throws, the reply is 500 "internal_error" with the message
    of what was thrown, or "An unexpected error occurred." when that has
    none, and no output.  So the status is 400 exactly when the body is
    refused and 200 exactly when the reply carries an output; and with the
    stages of the repository no request is answered 200 while the text
    model cannot be reached. *)
Theorem generateRoute_replies {World : Type} `{System World}
  (remote : Remote World) (env : Env) (texts : Texts)
  (video : string -> VisualThemes -> LogoResult -> string -> CreativeBrief ->
           ToneProfile -> option string -> M World VideoResult)
  (body : RawBody) (w : World) :
  let pipeline := runPipeline (sourceStages remote env texts video) in
  match validateInput body with
  | inl message =>
      generateRoute validateInput pipeline body w
      = (Returns {| status := 400; reply_error := Some "validation_error";
                    reply_message := Some message; reply_output := None |}, w)
  | inr input =>
      match pipeline input w with
      | (Returns output, w') =>
          generateRoute validateInput pipeline body w
          = (Returns {| status := 200; reply_error := None; reply_message := None;
                        reply_output := Some output |}, w')
      | (Throws e, w') =>
          generateRoute validateInput pipeline body w
          = (Returns {| status := 500; reply_error := Some "internal_error";
                        reply_message := Some (messageOf e); reply_output := None |}, w')
      end
  end /\
  (exists reply w',
      generateRoute validateInput pipeline body w = (Returns reply, w') /\
      (status reply = 400 \/ status reply = 200 \/ status reply = 500) /\
      (status reply = 400 <-> exists message, validateInput body = inl message) /\
      (status reply = 200 <-> reply_output reply <> None) /\
      (forall output, reply_output reply = Some output ->
                      exists input, validateInput body = inr input /\
                                    pipeline input w = (Returns output, w'))) /\
  ((forall model system user w0,
       exists e w', chatCompletion remote model system user w0 = (Throws e, w')) ->
   exists reply w',
     generateRoute validateInput pipeline body w = (Returns reply, w') /\
     (status reply = 400 \/ status reply = 500) /\ reply_output reply = None).
Proof.
  intros pipeline. unfold generateRoute. split; [|split].
  - destruct (validateInput body) as [message|input]; [reflexivity|].
    unfold tryCatch, bind, ret. destruct (pipeline input w) as [[output|e] w1]; reflexivity.
  - destruct (validateInput body) as [message|input].
    + eexists. eexists. split; [reflexivity|]. cbn. split; [left; reflexivity|].
      split; [split; [intros _; exists message; reflexivity|reflexivity]|].
      split; [split; [discriminate|intros Hx; destruct (Hx eq_refl)]|].
      intros output Hx. discriminate Hx.
    + unfold tryCatch, bind, ret. destruct (pipeline input w) as [[output|e] w1] eqn:Hrun.
      * eexists. eexists. split; [reflexivity|]. cbn.
        split; [right; left; reflexivity|].
        split; [split; [discriminate|intros [m Hm]; discriminate Hm]|].
        split; [split; [discriminate|reflexivity]|].
        intros output' Hx. injection Hx as <-. exists input. split; [reflexivity|exact Hrun].
      * eexists. eexists. split; [reflexivity|]. cbn.
        split; [right; right; reflexivity|].
        split; [split; [discriminate|intros [m Hm]; discriminate Hm]|].
        split; [split; [discriminate|intros Hx; destruct (Hx eq_refl)]|].
        intros output Hx. discriminate Hx.
  - intros Hchat. destruct (validateInput body) as [message|input].
    + eexists. eexists. split; [reflexivity|]. cbn. split; [left|]; reflexivity.
    + unfold tryCatch, bind, ret.
      destruct (runPipeline_throws_without_chat remote env texts video Hchat input w)
        as (e & w1 & Hthrow).
      unfold pipeline. rewrite Hthrow.
      eexists. eexists. split; [reflexivity|]. cbn. split; [right|]; reflexivity.
Qed.

(** The handler at work.  While every service is down a valid body is
    answered 500; when the text model answers and files can be fetched, the
    same body is answered 200 with the output of the pipeline; a body with
    neither ticker nor address is answered 400 and nothing is requested. *)
Lemma generateRoute_replies_witness :
  (forall model system user w0,
      exists e w', chatCompletion simNetworkDown model system user w0 = (Throws e, w')) /\
  (exists reply w',
     generateRoute validateInput
       (runPipeline (sourceStages simNetworkDown simEnvUnset simTexts simNoClips))
       simBody simStart = (Returns reply, w') /\
     (status reply = 400 \/ status reply = 500) /\ reply_output reply = None) /\
  (exists input output w',
     validateInput simBody = inr input /\
     runPipeline (sourceStages simLookupDown simEnvUnset simTexts simNoClips) input simStart
     = (Returns output, w') /\
     generateRoute validateInput
       (runPipeline (sourceStages simLookupDown simEnvUnset simTexts simNoClips))
       simBody simStart
     = (Returns {| status := 200; reply_error := None; reply_message := None;
                   reply_output := Some output |}, w')) /\
  generateRoute validateInput
    (runPipeline (sourceStages simLookupDown simEnvUnset simTexts simNoClips))
    (AnObject ∅) simStart
  = (Returns {| status := 400; reply_error := Some "validation_error";
                reply_message :=
                  Some "At least one of 'ticker' or 'contractAddress' is required";
                reply_output := None |}, simStart).
Proof.
  assert (Hdown : forall model system user w0,
             exists e w', chatCompletion simNetworkDown model system user w0
                          = (Throws e, w'))
    by (intros; eexists; eexists; reflexivity).
  split; [exact Hdown|]. split; [|split].
  - exact (proj2 (proj2 (generateRoute_replies simNetworkDown simEnvUnset simTexts
                           simNoClips simBody simStart)) Hdown).
  - pose proof (proj1 (generateRoute_replies simLookupDown simEnvUnset simTexts simNoClips
                         simBody simStart)) as Hreply.
    eexists. eexists. eexists. split; [vm_compute; reflexivity|].
    split; [vm_compute; reflexivity|].
    etransitivity; [exact Hreply|vm_compute; reflexivity].
  - exact (proj1 (generateRoute_replies simLookupDown simEnvUnset simTexts simNoClips
                    (AnObject ∅) simStart)).
Defined.

Example generateRoute_network_down :
  fst (generateRoute validateInput
         (runPipeline (sourceStages simNetworkDown simEnvUnset simTexts simNoClips))
         simBody simStart)
  = Returns {| status := 500; reply_error := Some "internal_error";
               reply_message := Some "connect ECONNREFUSED"; reply_output := None |}.
Proof. vm_compute. reflexivity. Qed.

(** ** [modules/tokenResolver] *)

Lemma orUndefined_nonEmpty (o : option string) : absentOrNonEmpty (Js.orUndefined o).
Proof.
  destruct o as [s|]; [|exact I]. cbn. destruct (Js.truthy s) eqn:Hs; [exact Hs|exact I].
Qed.

Lemma addSocial_website (links : SocialLinks) (social : SocialEntry) :
  social_website (addSocial links social) = social_website links.
Proof.
  unfold addSocial. destruct (social_type social) as [ty|]; [|reflexivity].
  destruct (_ || _); [reflexivity|].
  destruct (String.eqb _ "telegram"); [reflexivity|].
  destruct (String.eqb _ "discord"); reflexivity.
Qed.

Lemma addSocial_twitter (links : SocialLinks) (social : SocialEntry) :
  social_twitter (addSocial links social)
  = if isTwitterEntry social then social_url social else social_twitter links.
Proof.
  unfold addSocial, isTwitterEntry. destruct (social_type social) as [ty|]; [|reflexivity].
  destruct (_ || _); [reflexivity|].
  destruct (String.eqb _ "telegram"); [reflexivity|].
  destruct (String.eqb _ "discord"); reflexivity.
Qed.

Lemma fold_addSocial (entries : list SocialEntry) (links : SocialLinks) :
  social_website (fold_left addSocial entries links) = social_website links /\
  social_twitter (fold_left addSocial entries links)
  = match List.find isTwitterEntry (rev entries) with
    | Some social => social_url social
    | None => social_twitter links
    end.
Proof.
  induction entries as [|social entries IH] using rev_ind; [split; reflexivity|].
  rewrite fold_left_app, rev_app_distr. cbn [fold_left rev app List.find].
  rewrite addSocial_website, addSocial_twitter. destruct IH as [IHw IHt].
  split; [exact IHw|]. destruct (isTwitterEntry social); [reflexivity|exact IHt].
Qed.

(** X5: what [extractFromPair] makes of a pair.  The logo URL, the website
    URL, the contract address and the project name are each absent or not
    empty (never the empty string), the creation time is never 0, the source
    is "dexscreener" and there is no description.  The social links are
    always there; their website is the website URL of the token, and their
    twitter link is the URL of the last social entry of type "twitter" or
    "x" (in any case), none when there is no such entry. *)
Theorem extractFromPair_fields (pair : DexScreenerPair) :
  let token := extractFromPair pair in
  absentOrNonEmpty (token_logoUrl token) /\
  absentOrNonEmpty (token_websiteUrl token) /\
  absentOrNonEmpty (token_contractAddress token) /\
  absentOrNonEmpty (token_projectName token) /\
  token_pairCreatedAt token <> Some 0 /\
  resolutionSource token = Dexscreener /\
  token_description token = None /\
  exists links,
    token_socialLinks token = Some links /\
    social_website links = token_websiteUrl token /\
    social_twitter links
    = match info pair with
      | Some i =>
          match socials i with
          | Some entries =>
              match List.find isTwitterEntry (rev entries) with
              | Some social => social_url social
              | None => None
              end
          | None => None
          end
      | None => None
      end.
Proof.
  intros token. unfold token, extractFromPair.
  cbn [token_logoUrl token_websiteUrl token_contractAddress token_projectName
       token_pairCreatedAt resolutionSource token_description token_socialLinks].
  split; [apply orUndefined_nonEmpty|]. split; [apply orUndefined_nonEmpty|].
  split; [apply orUndefined_nonEmpty|]. split; [apply orUndefined_nonEmpty|].
  split.
  { destruct (pairCreatedAt pair) as [t|]; [|discriminate].
    destruct (t =? 0) eqn:Ht; [discriminate|]. intros Hx. injection Hx as ->.
    discriminate Ht. }
  split; [reflexivity|]. split; [reflexivity|].
  eexists. split; [reflexivity|].
  destruct (info pair) as [i|]; [|split; reflexivity].
  destruct (socials i) as [entries|]; [|split; reflexivity].
  match goal with
  | |- context [fold_left addSocial entries ?l] =>
      destruct (fold_addSocial entries l) as [Hw Ht]
  end.
  split; [exact Hw|exact Ht].
Qed.

(** What [withRetry] returns is something the operation returned. *)
Lemma retryLoop_post {World : Type} `{System World} {A : Type} (fn : M World A)
  (P : A -> Prop) (maxR baseD : Z) :
  (forall w v w', fn w = (Returns v, w') -> P v) ->
  forall (fuel : nat) (attempt : Z) (lastError : Thrown) (w w' : World) (v : A),
    retryLoop fn maxR baseD fuel attempt lastError w = (Returns v, w') -> P v.
Proof.
  intros Hfn. induction fuel as [|fuel IH]; intros attempt lastError w w' v.
  - discriminate.
  - rewrite retryLoop_step. destruct (attempt <=? maxR); [|discriminate].
    unfold tryCatch, bind. destruct (fn w) as [[v0|e] w1] eqn:Hw.
    + intros Hx. injection Hx as <- <-. exact (Hfn _ _ _ Hw).
    + destruct (attempt <? maxR); cbn; apply IH.
Qed.

Lemma withRetry_post {World : Type} `{System World} {A : Type} (fn : M World A)
  (P : A -> Prop) (opts : RetryOptions) :
  (forall w v w', fn w = (Returns v, w') -> P v) ->
  forall (w w' : World) (v : A), withRetry fn opts w = (Returns v, w') -> P v.
Proof. intros Hfn w w' v. unfold withRetry. apply retryLoop_post, Hfn. Qed.

Lemma searchDexScreener_extracts {World : Type} `{System World} (remote : Remote World)
  (ticker : string) (w w' : World) (token : TokenResolution) :
  searchDexScreener remote ticker w = (Returns (Some token), w') ->
  exists p, token = extractFromPair p.
Proof.
  unfold searchDexScreener, bind, ret.
  destruct (dexSearch remote ticker w) as [[[[|p0 pairs]|]|e] w1]; try discriminate.
  destruct (List.find _ _) as [m|].
  - intros Hx. injection Hx as <- _. exists m. reflexivity.
  - destruct (List.find _ _) as [b|]; [|discriminate].
    intros Hx. injection Hx as <- _. exists b. reflexivity.
Qed.

Lemma lookupByAddress_extracts {World : Type} `{System World} (remote : Remote World)
  (address : string) (w w' : World) (token : TokenResolution) :
  lookupByAddress remote address w = (Returns (Some token), w') ->
  exists p, token = extractFromPair p.
Proof.
  unfold lookupByAddress, bind, ret.
  destruct (dexTokens remote address w) as [[[[|p0 pairs]|]|e] w1]; try discriminate.
  intros Hx. injection Hx as <- _. exists p0. reflexivity.
Qed.

(** [resolveToken] returns, and what it returns is the extract of a pair,
    the user-provided address or the full fallback. *)
Lemma resolveToken_cases {World : Type} `{System World} (remote : Remote World)
  (ticker address : option string) (w : World) :
  exists token w',
    resolveToken remote ticker address w = (Returns token, w') /\
    ((exists p, token = extractFromPair p) \/
     (Js.present address = true /\ token = userToken (default "" address)) \/
     (Js.present address = false /\ token = fallbackToken)) /\
    (Js.present ticker = false -> Js.present address = false -> w' = w).
Proof.
  assert (Hs : forall t w0 w1 o,
             withRetry (searchDexScreener remote t) (namedRetry "dexscreener-search" 2) w0
             = (Returns o, w1) ->
             match o with Some tok => exists p, tok = extractFromPair p | None => True end).
  { intros t w0 w1 o.
    apply (withRetry_post _ (fun o => match o with
                                      | Some tok => exists p, tok = extractFromPair p
                                      | None => True
                                      end)).
    intros w2 [tok|] w3 Hx; [|exact I].
    eapply searchDexScreener_extracts, Hx. }
  assert (Ha : forall a w0 w1 o,
             withRetry (lookupByAddress remote a) (namedRetry "dexscreener-address" 2) w0
             = (Returns o, w1) ->
             match o with Some tok => exists p, tok = extractFromPair p | None => True end).
  { intros a w0 w1 o.
    apply (withRetry_post _ (fun o => match o with
                                      | Some tok => exists p, tok = extractFromPair p
                                      | None => True
                                      end)).
    intros w2 [tok|] w3 Hx; [|exact I].
    eapply lookupByAddress_extracts, Hx. }
  assert (Hrest : forall w1,
             exists token w',
               (if Js.present address
                then
                  byAddress <-
                    tryCatch (withRetry (lookupByAddress remote (default "" address))
                                        (namedRetry "dexscreener-address" 2))
                             (fun _ => ret None) ;;
                  match byAddress with
                  | Some resolution => ret resolution
                  | None => ret (userToken (default "" address))
                  end
                else ret fallbackToken) w1 = (Returns token, w') /\
               ((exists p, token = extractFromPair p) \/
                (Js.present address = true /\ token = userToken (default "" address)) \/
                (Js.present address = false /\ token = fallbackToken)) /\
               (Js.present address = false -> w' = w1)).
  { intros w1. destruct (Js.present address) eqn:Hp.
    - unfold bind, tryCatch, ret.
      destruct (withRetry _ _ w1) as [[[tok|]|e] w2] eqn:Hr.
      + exists tok, w2. split; [reflexivity|]. split; [|discriminate].
        left. exact (Ha _ _ _ _ Hr).
      + eexists. eexists. split; [reflexivity|]. split; [|discriminate].
        right. left. split; reflexivity.
      + eexists. eexists. split; [reflexivity|]. split; [|discriminate].
        right. left. split; reflexivity.
    - eexists. eexists. split; [reflexivity|]. split; [|reflexivity].
      right. right. split; reflexivity. }
  unfold resolveToken. unfold bind at 1.
  destruct (Js.present ticker) eqn:Ht.
  - unfold tryCatch at 1.
    destruct (withRetry _ _ w) as [[[tok|]|e] w1] eqn:Hr.
    + exists tok, w1. split; [reflexivity|]. split; [|discriminate].
      left. exact (Hs _ _ _ _ Hr).
    + destruct (Hrest w1) as (token & w' & Hrun & Hc & _).
      exists token, w'. split; [exact Hrun|]. split; [exact Hc|discriminate].
    + cbn. destruct (Hrest w1) as (token & w' & Hrun & Hc & _).
      exists token, w'. split; [exact Hrun|]. split; [exact Hc|discriminate].
  - cbn. destruct (Hrest w) as (token & w' & Hrun & Hc & Hw).
    exists token, w'. split; [exact Hrun|]. split; [exact Hc|]. intros _. exact Hw.
Qed.

(** X6: [resolveToken] never throws, and what it returns tells where it comes
    from.  The source is never "coingecko".  The source is "fallback" only
    when no contract address was given, and the token is then empty; it is
    "user" only when a contract address was given, and the token then
    carries that address and nothing else; it is "dexscreener" only for the
    extract of a pair.  A token with a website URL or a logo URL comes from
    DexScreener.  With neither a ticker nor an address nothing is requested:
    the world is left as it was. *)
Theorem resolveToken_provenance {World : Type} `{System World} (remote : Remote World)
  (ticker address : option string) (w : World) :
  exists token w',
    resolveToken remote ticker address w = (Returns token, w') /\
    resolutionSource token <> Coingecko /\
    (resolutionSource token = Fallback ->
     Js.present address = false /\ token = fallbackToken) /\
    (resolutionSource token = User ->
     Js.present address = true /\ token = userToken (default "" address)) /\
    (resolutionSource token = Dexscreener -> exists p, token = extractFromPair p) /\
    (Js.present (token_websiteUrl token) = true \/ Js.present (token_logoUrl token) = true ->
     resolutionSource token = Dexscreener) /\
    (Js.present ticker = false -> Js.present address = false ->
     token = fallbackToken /\ w' = w).
Proof.
  destruct (resolveToken_cases remote ticker address w) as (token & w' & Hrun & Hc & Hw).
  exists token, w'. split; [exact Hrun|].
  assert (Hnone : Js.present ticker = false -> Js.present address = false ->
                  token = fallbackToken /\ w' = w).
  { intros Ht Ha. unfold resolveToken, bind, ret in Hrun. rewrite Ht, Ha in Hrun.
    injection Hrun as Hx Hy. split; symmetry; assumption. }
  destruct Hc as [[p Hc]|[[Hp Hc]|[Hp Hc]]].
  - split; [rewrite Hc; discriminate|].
    split; [rewrite Hc; intros Hx; discriminate Hx|].
    split; [rewrite Hc; intros Hx; discriminate Hx|].
    split; [intros _; exists p; exact Hc|].
    split; [intros _; rewrite Hc; reflexivity|exact Hnone].
  - split; [rewrite Hc; discriminate|].
    split; [rewrite Hc; intros Hx; discriminate Hx|].
    split; [intros _; split; [exact Hp|exact Hc]|].
    split; [rewrite Hc; intros Hx; discriminate Hx|].
    split; [rewrite Hc; intros [Hx|Hx]; discriminate Hx|exact Hnone].
  - split; [rewrite Hc; discriminate|].
    split; [intros _; split; [exact Hp|exact Hc]|].
    split; [rewrite Hc; intros Hx; discriminate Hx|].
    split; [rewrite Hc; intros Hx; discriminate Hx|].
    split; [rewrite Hc; intros [Hx|Hx]; discriminate Hx|exact Hnone].
Qed.

Example resolveToken_listed :
  fst (resolveToken simClipsUp (Some "doge") None simStart)
  = Returns (extractFromPair simListedPair).
Proof. vm_compute. reflexivity. Qed.

Example resolveToken_unlisted_address :
  resolveToken simNetworkDown (Some "DOGE") (Some "0xabc") simStart
  = (Returns (userToken "0xabc"), {| sim_time := 6006; sim_requests := 6 |}).
Proof. vm_compute. reflexivity. Qed.

Lemma find_first {A : Type} (f g : A -> bool) (l : list A) (x : A) :
  List.find f l = Some x ->
  In x l /\ f x = true /\
  exists before after, l = before ++ x :: after /\ forall y, In y before -> f y = false.
Proof.
  induction l as [|a l IH]; [discriminate|]. cbn [List.find].
  destruct (f a) eqn:Hfa.
  - intros Hx. injection Hx as <-. split; [left; reflexivity|]. split; [exact Hfa|].
    exists [], l. split; [reflexivity|]. intros y [].
  - intros Hx. destruct (IH Hx) as (Hin & Hfx & before & after & -> & Hb).
    split; [right; exact Hin|]. split; [exact Hfx|].
    exists (a :: before), after. split; [reflexivity|].
    intros y [<-|Hy]; [exact Hfa|exact (Hb y Hy)].
Qed.

(** X7: which pair [searchDexScreener] takes.  When the search answers with
    the list [pairs], one request is all that happens, and the result is
    the extract of the first pair that is on the chain "base" with the
    ticker as its symbol (up to case) when there is one, of the first pair
    on "base" otherwise, and [null] exactly when no pair is on "base"; a
    pair of another chain is never taken. *)
Theorem searchDexScreener_takes_base_pair {World : Type} `{System World}
  (remote : Remote World) (ticker : string) (pairs : list DexScreenerPair) (w w1 : World) :
  dexSearch remote ticker w = (Returns (Some pairs), w1) ->
  exists result,
    searchDexScreener remote ticker w = (Returns result, w1) /\
    match result with
    | None => forall p, In p pairs -> onTargetChain p = false
    | Some token =>
        exists before p after,
          pairs = before ++ p :: after /\
          token = extractFromPair p /\
          onTargetChain p = true /\
          ((matchesTicker ticker p = true /\
            forall q, In q before -> matchesTicker ticker q = false) \/
           ((forall q, In q pairs -> matchesTicker ticker q = false) /\
            forall q, In q before -> onTargetChain q = false))
    end.
Proof.
  intros Hsearch. unfold searchDexScreener, bind, ret. rewrite Hsearch.
  fold (matchesTicker ticker). fold onTargetChain.
  destruct pairs as [|p0 rest]; [exists None; split; [reflexivity|intros p []]|].
  set (pairs := p0 :: rest).
  change (fun p : DexScreenerPair =>
            String.eqb (chainId p) TARGET_CHAIN
            && String.eqb (Js.toLowerCase (bt_symbol (baseToken p))) (Js.toLowerCase ticker))
    with (matchesTicker ticker).
  change (fun p : DexScreenerPair => String.eqb (chainId p) TARGET_CHAIN) with onTargetChain.
  destruct (List.find (matchesTicker ticker) pairs) as [m|] eqn:Hm.
  - exists (Some (extractFromPair m)). split; [reflexivity|].
    destruct (find_first _ (matchesTicker ticker) _ _ Hm)
      as (_ & Hfm & before & after & Heq & Hb).
    exists before, m, after. split; [exact Heq|]. split; [reflexivity|].
    split; [|left; split; [exact Hfm|exact Hb]].
    unfold matchesTicker in Hfm. apply andb_prop in Hfm. exact (proj1 Hfm).
  - destruct (List.find onTargetChain pairs) as [b|] eqn:Hb.
    + exists (Some (extractFromPair b)). split; [reflexivity|].
      destruct (find_first _ onTargetChain _ _ Hb) as (_ & Hfb & before & after & Heq & Hbefore).
      exists before, b, after. split; [exact Heq|]. split; [reflexivity|].
      split; [exact Hfb|]. right. split; [|exact Hbefore].
      intros q Hq. exact (find_none _ _ Hm q Hq).
    + exists None. split; [reflexivity|]. intros p Hp. exact (find_none _ _ Hb p Hp).
Qed.

Lemma searchDexScreener_takes_base_pair_witness :
  exists result,
    searchDexScreener simClipsUp "doge" simStart
    = (Returns result, {| sim_time := 1; sim_requests := 1 |}) /\
    result = Some (extractFromPair simListedPair).
Proof.
  destruct (searchDexScreener_takes_base_pair simClipsUp "doge" [simListedPair] simStart
              {| sim_time := 1; sim_requests := 1 |} eq_refl) as (result & Hrun & _).
  exists result. split; [exact Hrun|].
  vm_compute in Hrun. injection Hrun as <-. vm_compute. reflexivity.
Defined.

(** ** [modules/websiteScraper] *)

(** What [withRetry] returns, the operation returned from some state. *)
Lemma withRetry_result {World : Type} `{System World} {A : Type} (fn : M World A)
  (opts : RetryOptions) (w w' : World) (v : A) :
  withRetry fn opts w = (Returns v, w') -> exists w0 w1, fn w0 = (Returns v, w1).
Proof.
  apply (withRetry_post fn (fun v => exists w0 w1, fn w0 = (Returns v, w1))).
  intros w0 v0 w1 Hfn. exists w0, w1. exact Hfn.
Qed.

Lemma scrapeWebsite_returns {World : Type} `{System World} (remote : Remote World)
  (texts : Texts) (url : option string) (w : World) :
  exists result w',
    scrapeWebsite remote texts url w = (Returns result, w') /\
    (found result = true -> Js.present url = true).
Proof.
  unfold scrapeWebsite. destruct (Js.present url) eqn:Hurl; cbn [negb].
  - unfold tryCatch, bind.
    destruct (withRetry _ _ w) as [[html|e] w1].
    + destruct (_ || _); eexists; eexists; (split; [reflexivity|]); reflexivity.
    + eexists. eexists. split; [reflexivity|]. reflexivity.
  - eexists. eexists. split; [reflexivity|]. intros Hx. discriminate Hx.
Qed.

(** X8: [scrapeWebsite] never throws.  It reports a website as found only
    when a URL was given, the page was fetched, and the text extracted from
    it has a [length] of at least 20, counted as JavaScript does in UTF-16
    code units; that text is then the one it returns.  In
    every other case the result is [{ found: false }] with no text.  With no
    URL nothing is requested: the world is left as it was. *)
Theorem scrapeWebsite_never_throws {World : Type} `{System World} (remote : Remote World)
  (texts : Texts) (url : option string) (w : World) :
  exists result w',
    scrapeWebsite remote texts url w = (Returns result, w') /\
    (found result = true ->
     Js.present url = true /\
     exists html w0 w1,
       fetchPage remote (default "" url) w0 = (Returns html, w1) /\
       extractedText result = Some (extractContent texts html) /\
       20 <= Js.len (extractContent texts html)) /\
    (found result = false -> result = notFound) /\
    (Js.present url = false -> result = notFound /\ w' = w).
Proof.
  unfold scrapeWebsite. destruct (Js.present url) eqn:Hurl; cbn [negb].
  - unfold tryCatch, bind.
    destruct (withRetry _ _ w) as [[html|e] w1] eqn:Hfetch.
    + destruct (negb (Js.truthy (extractContent texts html))
                || (Js.len (extractContent texts html) <? 20)) eqn:Hshort.
      * exists notFound, w1. split; [reflexivity|].
        split; [intros Hx; discriminate Hx|]. split; [reflexivity|].
        intros Hx; discriminate Hx.
      * eexists. exists w1. split; [reflexivity|]. cbn [found extractedText].
        split; [|split; intros Hx; discriminate Hx].
        intros _. split; [reflexivity|].
        destruct (withRetry_result _ _ _ _ _ Hfetch) as (w0 & w2 & Hpage).
        exists html, w0, w2. split; [exact Hpage|]. split; [reflexivity|].
        apply orb_false_elim in Hshort. lia.
    + exists notFound, w1. split; [reflexivity|].
      split; [intros Hx; discriminate Hx|]. split; [reflexivity|].
      intros Hx; discriminate Hx.
  - exists notFound, w. split; [reflexivity|].
    split; [intros Hx; discriminate Hx|]. split; [reflexivity|].
    intros _. split; reflexivity.
Qed.

Example scrapeWebsite_short_page :
  scrapeWebsite (simLibraries (fun _ => simDown)
                   (fun _ => simRequest (fun _ => Returns "Coming soon."))
                   (fun _ => simDown) (fun _ _ _ => simDown) (fun _ _ => simDown))
                simTexts (Some "https://doge.example") simStart
  = (Returns notFound, {| sim_time := 1; sim_requests := 1 |}).
Proof. vm_compute. reflexivity. Qed.

(** ** [utils/retry]: the time spent waiting *)

Lemma totalWait_app {A : Type} (j1 j2 : list (Event A)) :
  totalWait (j1 ++ j2) = totalWait j1 + totalWait j2.
Proof.
  induction j1 as [|[outcome|ms] j1 IH]; cbn [app totalWait]; lia.
Qed.

(** The waits after [n] failed attempts from the one numbered [attempt] add
    up to a geometric sum. *)
Lemma totalWait_failedAttempts {A : Type} (baseD : Z) (errs : list Thrown) :
  forall attempt : Z,
    0 <= attempt ->
    totalWait (failedAttempts (A := A) baseD attempt errs)
    = baseD * 2 ^ attempt * (2 ^ Z.of_nat (List.length errs) - 1).
Proof.
  induction errs as [|e errs IH]; intros attempt Hattempt.
  - cbn. lia.
  - cbn [failedAttempts totalWait List.length]. rewrite (IH (attempt + 1)) by lia.
    rewrite Nat2Z.inj_succ, !Z.pow_succ_r by lia.
    rewrite Z.pow_add_r by lia. ring.
Qed.

(** X9: the back-off of [withRetry].  When the number of retries and the
    base delay are not negative, the time [withRetry] waits in all is
    [baseDelayMs * (2 ^ k - 1)], where [k] is the number of invocations
    that were followed by another one; it is never more than
    [baseDelayMs * (2 ^ maxRetries - 1)] (3000 ms with the defaults), and it
    is exactly that when [withRetry] throws: there is no wait after the
    last failure. *)
Theorem withRetry_backoff {World : Type} `{System World} {A : Type}
  (fn : M World A) (opts : RetryOptions) (w : World) :
  let maxR := default 2 (maxRetries opts) in
  let baseD := default 1000 (baseDelayMs opts) in
  0 <= maxR -> 0 <= baseD ->
  let (r, p) := withRetry (probed fn) opts (probeStart w) in
  totalWait (journal p) = baseD * (2 ^ (invocations (journal p) - 1) - 1) /\
  totalWait (journal p) <= baseD * (2 ^ maxR - 1) /\
  (forall e, r = Throws e -> totalWait (journal p) = baseD * (2 ^ maxR - 1)).
Proof.
  intros maxR baseD HmaxR HbaseD. unfold withRetry. fold maxR baseD.
  replace (Z.to_nat (maxR + 1)) with (S (Z.to_nat maxR)) by lia.
  destruct (retryLoop_journal fn maxR baseD (Z.to_nat maxR) 0 Undefined
              (probeStart w) ltac:(lia)) as (errs & Hlen & Hrun).
  destruct (retryLoop (probed fn) maxR baseD (S (Z.to_nat maxR)) 0 Undefined
              (probeStart w)) as [r p].
  assert (Hsum : forall last : Completion A,
             totalWait (failedAttempts baseD 0 errs ++ [Invoked last])
             = baseD * (2 ^ Z.of_nat (List.length errs) - 1)).
  { intros last. rewrite totalWait_app, totalWait_failedAttempts by lia.
    cbn [totalWait]. rewrite Z.pow_0_r. ring. }
  assert (Hcount : forall last : Completion A,
             invocations (failedAttempts baseD 0 errs ++ [Invoked last]) - 1
             = Z.of_nat (List.length errs)).
  { intros last. rewrite invocations_app, invocations_failedAttempts.
    unfold invocations. cbn. lia. }
  assert (Hmono : 2 ^ Z.of_nat (List.length errs) <= 2 ^ maxR)
    by (apply Z.pow_le_mono_r; lia).
  simpl journal in Hrun.
  destruct Hrun as [(v & -> & Hj)|(e & -> & Hn & Hj)]; simpl in Hj; rewrite Hj.
  - rewrite Hcount, Hsum. split; [reflexivity|]. split; [nia|].
    intros e Hx. discriminate Hx.
  - rewrite Hcount, Hsum. split; [reflexivity|]. split; [nia|].
    intros _ _. f_equal. f_equal. f_equal. lia.
Qed.

Lemma withRetry_backoff_witness :
  0 <= default 2 (maxRetries noRetryOptions) /\
  0 <= default 1000 (baseDelayMs noRetryOptions) /\
  let (r, p) := withRetry (probed (simDown (A := string))) noRetryOptions
                          (probeStart simStart) in
  totalWait (journal p) = 3000 /\ invocations (journal p) = 3.
Proof.
  assert (H0 : 0 <= default 2 (maxRetries noRetryOptions)) by (simpl; lia).
  assert (H1 : 0 <= default 1000 (baseDelayMs noRetryOptions)) by (simpl; lia).
  split; [exact H0|]. split; [exact H1|].
  pose proof (withRetry_backoff (simDown (A := string)) noRetryOptions simStart H0 H1)
    as Hrun.
  destruct (withRetry (probed (simDown (A := string))) noRetryOptions (probeStart simStart))
    as [r p] eqn:Hr.
  destruct Hrun as (_ & _ & Hthrow).
  vm_compute in Hr. injection Hr as <- <-.
  split; [exact (Hthrow _ eq_refl)|reflexivity].
Defined.

(** ** [modules/videoGenerator]: [generateVideo] *)

Lemma allSettled_returns {World : Type} `{System World} {A : Type} (cs : list (M World A)) :
  forall w, exists rs w',
    allSettled cs w = (Returns rs, w') /\ List.length rs = List.length cs.
Proof.
  induction cs as [|c cs IH]; intros w.
  - exists [], w. split; reflexivity.
  - cbn [allSettled]. destruct (c w) as [r w1].
    destruct (IH w1) as (rs & w2 & -> & Hlen).
    exists (r :: rs), w2. split; [reflexivity|]. cbn [List.length]. rewrite Hlen. reflexivity.
Qed.

Lemma allSettled_all_throw {World : Type} `{System World} (cs : list (M World string)) :
  Forall (fun c => forall w, exists e w', c w = (Throws e, w')) cs ->
  forall w rs w', allSettled cs w = (Returns rs, w') -> fulfilledValues rs = [].
Proof.
  induction 1 as [|c cs Hc _ IH]; intros w rs w'.
  - intros Hx. injection Hx as <- _. reflexivity.
  - cbn [allSettled]. destruct (Hc w) as (e & w1 & ->).
    destruct (allSettled cs w1) as [[rs'|e'] w2] eqn:Hrest; [|discriminate].
    intros Hx. injection Hx as <- _. cbn [fulfilledValues]. exact (IH _ _ _ Hrest).
Qed.

Lemma fulfilledValues_length (rs : list (Completion string)) :
  (List.length (fulfilledValues rs) <= List.length rs)%nat.
Proof.
  induction rs as [|[url|e] rs IH]; cbn [fulfilledValues List.length]; lia.
Qed.

Lemma generateFallbackVideo_returns {World : Type} `{System World} (remote : Remote World)
  (env : Env) (texts : Texts) (ticker bannerUrl : string) (logo : LogoResult)
  (style : string) (w : World) :
  exists url w',
    generateFallbackVideo remote env texts ticker bannerUrl logo style w = (Returns url, w') /\
    (Js.present (SHOTSTACK_API_KEY env) = false -> url = bannerUrl).
Proof.
  unfold generateFallbackVideo. destruct (Js.present (SHOTSTACK_API_KEY env)); cbn [negb].
  - unfold tryCatch.
    match goal with
    | |- context [match ?c w with _ => _ end] => destruct (c w) as [[url|e] w1]
    end.
    + exists url, w1. split; [reflexivity|]. intros Hx. discriminate Hx.
    + exists bannerUrl, w1. split; reflexivity.
  - exists bannerUrl, w. split; reflexivity.
Qed.

Lemma finalizeAndUploadVideo_returns {World : Type} `{System World} (remote : Remote World)
  (env : Env) (videoUrl ticker : string) (w : World) :
  exists url w', finalizeAndUploadVideo remote env videoUrl ticker w = (Returns url, w').
Proof.
  unfold finalizeAndUploadVideo, tryCatch.
  match goal with
  | |- context [match ?c w with _ => _ end] => destruct (c w) as [[url|e] w1]
  end.
  - exists url, w1. reflexivity.
  - exists videoUrl, w1. reflexivity.
Qed.

(** X10: [generateVideo], the generator of three clips, never throws.  The
    number of clips it reports lies between 0 and 3.  Without the key of the
    clip generator no clip comes out, and when no clip came out and the
    renderer has no key either, the video is the image it was given as
    [bannerUrl]. *)
Theorem generateVideo_never_throws {World : Type} `{System World} (remote : Remote World)
  (env : Env) (texts : Texts) (ticker : string) (themes : VisualThemes) (logo : LogoResult)
  (bannerUrl style : string) (w : World) :
  exists video w',
    generateVideo remote env texts ticker themes logo bannerUrl style w
    = (Returns video, w') /\
    0 <= clipsSucceeded video <= 3 /\
    (Js.present (RUNWAY_API_KEY env) = false -> clipsSucceeded video = 0) /\
    (clipsSucceeded video = 0 -> Js.present (SHOTSTACK_API_KEY env) = false ->
     launchVideoUrl video = bannerUrl).
Proof.
  unfold generateVideo. unfold bind at 1.
  match goal with
  | |- context [allSettled ?cs w] =>
      destruct (allSettled_returns cs w) as (rs & w1 & Hrun & Hlen);
      assert (Hkey : Js.present (RUNWAY_API_KEY env) = false -> fulfilledValues rs = []);
      [intros Hno; apply (allSettled_all_throw cs) with (w := w) (w' := w1);
       [|exact Hrun]|]
  end.
  { cbn. repeat constructor; intros w0; apply withRetry_throws; intros w2;
      unfold generateRunwayClip; rewrite Hno; eexists; eexists; reflexivity. }
  rewrite Hrun. cbn in Hlen.
  pose proof (fulfilledValues_length rs) as Hle. rewrite Hlen in Hle.
  destruct (fulfilledValues rs) as [|firstClip clips] eqn:Hclips.
  - unfold bind, ret.
    destruct (generateFallbackVideo_returns remote env texts ticker bannerUrl logo style w1)
      as (url & w2 & -> & Hbanner).
    eexists. eexists. split; [reflexivity|]. cbn [clipsSucceeded launchVideoUrl].
    split; [lia|]. split; [reflexivity|]. intros _. exact Hbanner.
  - unfold bind at 1. unfold tryCatch.
    match goal with
    | |- context [match ?c w1 with _ => _ end] => destruct (c w1) as [[videoUrl|e] w2]
    end.
    + unfold bind, ret.
      destruct (finalizeAndUploadVideo_returns remote env videoUrl ticker w2)
        as (url & w3 & ->).
      eexists. eexists. split; [reflexivity|]. cbn [clipsSucceeded launchVideoUrl].
      cbn [List.length] in *. split; [lia|].
      split; [intros Hno; discriminate (Hkey Hno)|]. intros Hx. lia.
    + unfold bind, ret.
      destruct (finalizeAndUploadVideo_returns remote env firstClip ticker w2)
        as (url & w3 & ->).
      eexists. eexists. split; [reflexivity|]. cbn [clipsSucceeded launchVideoUrl].
      cbn [List.length] in *. split; [lia|].
      split; [intros Hno; discriminate (Hkey Hno)|]. intros Hx. lia.
Qed.

Example generateVideo_without_keys :
  generateVideo simClipsUp simEnvUnset simTexts "DOGE" (simThemes "DOGE") placeholderLogo
                "https://cdn.example/banner.jpg" "space" simStart
  = (Returns {| launchVideoUrl := "https://cdn.example/banner.jpg"; clipsSucceeded := 0 |},
     {| sim_time := 3000; sim_requests := 0 |}).
Proof. vm_compute. reflexivity. Qed.

(** ** The stages when the remote services fail: what still has to work *)



Section Degraded.
Context {World : Type} `{System World}.
Variable remote : Remote World.
Variable env : Env.
Variable texts : Texts.

(** The image library, which runs in the process, works. *)
Hypothesis sharpPng_returns :
  forall buffer w, exists png w', sharpPng remote buffer w = (Returns png, w').
Hypothesis sharpJpeg_returns :
  forall buffer w, exists jpeg w', sharpJpeg remote buffer w = (Returns jpeg, w').
Hypothesis sharpResizeJpeg_returns :
  forall buffer w, exists jpeg w', sharpResizeJpeg remote buffer w = (Returns jpeg, w').

(** Files can be downloaded and the text model answers. *)
Hypothesis download_returns :
  forall url w, exists data w', httpGetBuffer remote url w = (Returns data, w').
Hypothesis chat_returns :
  forall model system user w,
    exists content w', chatCompletion remote model system user w = (Returns content, w').

(** The key of the model is set, so that its client can be built. *)
Hypothesis openai_key : OPENAI_API_KEY env <> None.

(** When a bucket is configured, the storage takes what is sent to it. *)
Hypothesis upload_returns :
  Js.present (S3_BUCKET env) = true ->
  forall bucket key buffer contentType w,
    exists w', s3Send remote bucket key buffer contentType w = (Returns tt, w').

(** The video stage returns, as its contract says. *)
Variable video : string -> VisualThemes -> LogoResult -> string -> CreativeBrief ->
                 ToneProfile -> option string -> M World VideoResult.
Hypothesis video_returns :
  forall ticker themes logo bannerUrl brief tone cta w,
    exists result w', video ticker themes logo bannerUrl brief tone cta w = (Returns result, w').






End Degraded.


(** ** [core/orchestrator]: [extractTagline], [extractCta] *)

Lemma Occurs_trans (a b c : string) : Occurs a b -> Occurs b c -> Occurs a c.
Proof.
  intros (bb & ba & ->) (cb & ca & ->). exists (cb +:+ bb), (ba +:+ ca).
  rewrite !append_assoc. reflexivity.
Qed.

Lemma Occurs_prefix (a rest : string) : Occurs a (a +:+ rest).
Proof. exists "", rest. reflexivity. Qed.

Lemma Occurs_cons (a s : string) (c : ascii) : Occurs a s -> Occurs a (String c s).
Proof. intros (before & after & ->). exists (String c before), after. reflexivity. Qed.

Lemma splitHead_prefix (stop : ascii -> bool) (s : string) :
  exists rest, s = Js.splitHead stop s +:+ rest.
Proof.
  induction s as [|c s [rest IH]]; [exists ""; reflexivity|].
  cbn [Js.splitHead]. destruct (stop c).
  - exists (String c s). reflexivity.
  - exists rest. rewrite append_cons, <- IH. reflexivity.
Qed.

Lemma splitHead_noChar (stop : ascii -> bool) (s : string) :
  noChar stop (Js.splitHead stop s).
Proof.
  induction s as [|c s IH]; [exact I|].
  cbn [Js.splitHead]. destruct (stop c) eqn:Hc; [exact I|]. split; [exact Hc|exact IH].
Qed.

Lemma noChar_append (p : ascii -> bool) (a b : string) :
  noChar p (a +:+ b) <-> noChar p a /\ noChar p b.
Proof.
  induction a as [|c a IH]; [cbn; tauto|].
  rewrite append_cons. cbn [noChar]. rewrite IH. tauto.
Qed.

Lemma trimStart_occurs (s : string) : Occurs (Js.trimStart s) s.
Proof.
  destruct (trimStart_suffix s) as [ws Hws]. exists ws, "".
  rewrite append_empty_r. exact Hws.
Qed.

Lemma noChar_trimStart (p : ascii -> bool) (s : string) :
  noChar p s -> noChar p (Js.trimStart s).
Proof.
  intros Hs. destruct (trimStart_suffix s) as [ws Hws]. rewrite Hws in Hs.
  apply noChar_append in Hs. apply Hs.
Qed.

Lemma noChar_trimEnd (p : ascii -> bool) (s : string) :
  noChar p s -> noChar p (Js.trimEnd s).
Proof.
  intros Hs. destruct (trimEnd_prefix s) as [ws Hws]. rewrite Hws in Hs.
  apply noChar_append in Hs. apply Hs.
Qed.

(** What is left of a text after [trim] is a part of it, and free of the
    characters the text is free of. *)
Lemma trim_occurs (s : string) : Occurs (Js.trim s) s.
Proof.
  unfold Js.trim. apply Occurs_trans with (b := Js.trimStart s).
  - destruct (trimEnd_prefix (Js.trimStart s)) as [ws Hws].
    rewrite Hws at 2. apply Occurs_prefix.
  - apply trimStart_occurs.
Qed.

Lemma noChar_trim (p : ascii -> bool) (s : string) : noChar p s -> noChar p (Js.trim s).
Proof. intros Hs. unfold Js.trim. apply noChar_trimEnd, noChar_trimStart, Hs. Qed.

Lemma firstSentenceOf_shape (text : string) :
  Occurs (firstSentenceOf text) text /\
  noChar Js.isSentenceEnd (firstSentenceOf text) /\
  Trimmed (firstSentenceOf text).
Proof.
  unfold firstSentenceOf. split; [|split].
  - apply Occurs_trans with (b := Js.splitHead Js.isSentenceEnd text).
    + apply trim_occurs.
    + destruct (splitHead_prefix Js.isSentenceEnd text) as [rest Hrest].
      rewrite Hrest at 2. apply Occurs_prefix.
  - apply noChar_trim, splitHead_noChar.
  - apply trim_idem.
Qed.

(** X12: the tagline [extractTagline] makes of the first post is never
    empty.  It is either the templated ["$TICKER — The Next Chapter"] or a
    part of the post whose [length], in UTF-16 code units, is more than 10
    and at most 80, which holds no full stop, exclamation mark or question
    mark and neither starts nor ends with white space. *)
Theorem extractTagline_shape (firstPost ticker : string) :
  let tagline := extractTagline firstPost ticker in
  Js.truthy tagline = true /\
  (tagline = "$" +:+ Js.toUpperCase ticker +:+ " — The Next Chapter" \/
   (Occurs tagline firstPost /\
    noChar Js.isSentenceEnd tagline /\
    Trimmed tagline /\
    10 < Js.len tagline <= 80)).
Proof.
  intros tagline. unfold tagline, extractTagline.
  destruct (firstSentenceOf_shape firstPost) as (Hoccurs & Hmarks & Htrimmed).
  destruct (Js.truthy (firstSentenceOf firstPost)) eqn:Htruthy; cbn [andb];
    [|split; [reflexivity|left; reflexivity]].
  destruct (10 <? Js.len (firstSentenceOf firstPost)) eqn:Hlong; cbn [andb];
    [|split; [reflexivity|left; reflexivity]].
  destruct (Js.len (firstSentenceOf firstPost) <=? 80) eqn:Hshort;
    [|split; [reflexivity|left; reflexivity]].
  split; [exact Htruthy|]. right.
  split; [exact Hoccurs|]. split; [exact Hmarks|]. split; [exact Htrimmed|]. lia.
Qed.

(** The pieces [split] cuts a text into: the first is the start of the
    text, the others are parts of it, and none holds a separator. *)
Lemma splitAll_pieces (stop : ascii -> bool) (s : string) :
  exists first others,
    splitAll stop s = first :: others /\
    (exists rest, s = first +:+ rest) /\
    Forall (fun piece => Occurs piece s) others /\
    Forall (noChar stop) (first :: others).
Proof.
  induction s as [|c s (first & others & Hsplit & [rest Hrest] & Hparts & Hfree)].
  - exists "", []. cbn. split; [reflexivity|]. split; [exists ""; reflexivity|].
    split; constructor; [exact I|constructor].
  - cbn [splitAll]. rewrite Hsplit. destruct (stop c) eqn:Hc.
    + exists "", (first :: others). split; [reflexivity|].
      split; [exists (String c s); reflexivity|]. split.
      * constructor.
        -- apply Occurs_cons. rewrite Hrest. apply Occurs_prefix.
        -- eapply Forall_impl; [exact Hparts|]. intros piece. apply Occurs_cons.
      * constructor; [exact I|exact Hfree].
    + exists (String c first), others. split; [reflexivity|].
      split; [exists rest; rewrite append_cons, <- Hrest; reflexivity|]. split.
      * eapply Forall_impl; [exact Hparts|]. intros piece. apply Occurs_cons.
      * inversion Hfree as [|? ? Hfirst Hothers]; subst.
        constructor; [split; [exact Hc|exact Hfirst]|exact Hothers].
Qed.

Lemma splitAll_In (stop : ascii -> bool) (s piece : string) :
  In piece (splitAll stop s) -> Occurs piece s /\ noChar stop piece.
Proof.
  destruct (splitAll_pieces stop s) as (first & others & -> & [rest Hrest] & Hparts & Hfree).
  rewrite List.Forall_forall in Hparts, Hfree. intros Hin. split; [|exact (Hfree _ Hin)].
  destruct Hin as [<-|Hin]; [|exact (Hparts _ Hin)].
  rewrite Hrest. apply Occurs_prefix.
Qed.

(** X13: the call to action [extractCta] makes of the first post is never
    empty.  It is either the templated ["$TICKER"] or a part of the post
    whose [length], in UTF-16 code units, is more than 5 and at most 50,
    which holds no full stop, exclamation mark, question mark or line feed
    and neither starts nor ends with white space. *)
Theorem extractCta_shape (firstPost ticker : string) :
  let cta := extractCta firstPost ticker in
  Js.truthy cta = true /\
  (cta = "$" +:+ Js.toUpperCase ticker \/
   (Occurs cta firstPost /\
    noChar isLineEnd cta /\
    Trimmed cta /\
    5 < Js.len cta <= 50)).
Proof.
  intros cta. unfold cta, extractCta.
  destruct (List.find _ _) as [short|] eqn:Hfind; [|split; [reflexivity|left; reflexivity]].
  apply find_some in Hfind. destruct Hfind as [Hin Hlen].
  apply filter_In in Hin. destruct Hin as [Hin Htruthy].
  apply in_map_iff in Hin. destruct Hin as (piece & <- & Hpiece).
  apply splitAll_In in Hpiece. destruct Hpiece as [Hoccurs Hfree].
  split; [exact Htruthy|]. right.
  split; [exact (Occurs_trans _ _ _ (trim_occurs piece) Hoccurs)|].
  split; [exact (noChar_trim _ _ Hfree)|]. split; [apply trim_idem|].
  apply andb_prop in Hlen. lia.
Qed.

Example extractCta_skips_short_lines :
  extractCta "gm.
$DOGE is live on Base! Ape in" "doge" = "$DOGE is live on Base".
Proof. vm_compute. reflexivity. Qed.

(** ** [runPipeline] over the stages of the repository *)

Lemma resolveToken_source {World : Type} `{System World} (remote : Remote World)
  (ticker address : option string) (w w' : World) (token : TokenResolution) :
  resolveToken remote ticker address w = (Returns token, w') ->
  (Js.present (token_websiteUrl token) = true -> resolutionSource token = Dexscreener) /\
  (Js.present (token_logoUrl token) = true -> resolutionSource token = Dexscreener) /\
  (resolutionSource token = Fallback ->
   Js.present address = false /\ Js.present (token_websiteUrl token) = false).
Proof.
  intros Hrun.
  destruct (resolveToken_cases remote ticker address w) as (token' & w1 & Hrun' & Hc & _).
  rewrite Hrun in Hrun'. injection Hrun' as <- _.
  destruct Hc as [[p ->]|[[Hp ->]|[Hp ->]]].
  - split; [reflexivity|]. split; [reflexivity|]. intros Hx. discriminate Hx.
  - split; [intros Hx; discriminate Hx|]. split; intros Hx; discriminate Hx.
  - split; [intros Hx; discriminate Hx|]. split; [intros Hx; discriminate Hx|].
    intros _. split; [exact Hp|reflexivity].
Qed.

(** X14: the tags of a job over the stages of the repository.  A website is
    only looked for at the URL DexScreener gave, and only DexScreener gives
    a logo URL.  So in every job that returns: the data source is "website"
    exactly when a website was found, and "thematic_only" exactly when the
    token resolution fell back completely, which an input with a contract
    address never does; the logo factor is true exactly when the token has
    a logo URL; and the confidence level is 4 exactly when a website was
    found, the token has a logo URL and two clips succeeded. *)
Theorem job_tags_over_source_stages {World : Type} `{System World} (remote : Remote World)
  (env : Env) (texts : Texts)
  (video : string -> VisualThemes -> LogoResult -> string -> CreativeBrief ->
           ToneProfile -> option string -> M World VideoResult)
  (input : GenerateJobInput) (w w' : World) (ctx : JobContext) (elapsed : Z) :
  runJob (sourceStages remote env texts video) input w = (Returns ctx, w') ->
  let output := jobOutput ctx elapsed in
  (data_source output = Website <-> found (ctx_website ctx) = true) /\
  (data_source output = ThematicOnly <-> resolutionSource (ctx_token ctx) = Fallback) /\
  (data_source output = ThematicOnly -> Js.present (input_contractAddress input) = false) /\
  officialLogo (ctx_confidence ctx) = Js.present (token_logoUrl (ctx_token ctx)) /\
  (confidence_level output = 4 <->
   found (ctx_website ctx) = true /\
   Js.present (token_logoUrl (ctx_token ctx)) = true /\
   clipsSucceeded (ctx_video ctx) = 2).
Proof.
  intros Hjob output. unfold output. apply runJob_returns in Hjob.
  destruct Hjob as (w1 & w2 & w3 & w4 & w5 & banner & Htoken & Hsite & _ & _ & _ & _ & _
                    & Hconf).
  cbn [sourceStages stage_resolveToken stage_scrapeWebsite] in Htoken, Hsite.
  destruct (resolveToken_source _ _ _ _ _ _ Htoken) as (Hweb & Hlogo & Hfallback).
  assert (Hfound : found (ctx_website ctx) = true ->
                   Js.present (token_websiteUrl (ctx_token ctx)) = true).
  { destruct (scrapeWebsite_returns remote texts (token_websiteUrl (ctx_token ctx)) w1)
      as (site & w2' & Hrun & Hurl).
    rewrite Hsite in Hrun. injection Hrun as <- _. exact Hurl. }
  unfold jobOutput, determineDataSource, computeConfidence.
  cbn [data_source confidence_level]. rewrite Hconf.
  cbn [websiteFound officialLogo allClipsSucceeded noFallbacksUsed].
  revert Hweb Hlogo Hfallback Hfound.
  generalize (clipsSucceeded (ctx_video ctx)) as clips.
  generalize (Js.present (input_contractAddress input)) as address.
  generalize (Js.present (token_websiteUrl (ctx_token ctx))) as website.
  generalize (Js.present (token_logoUrl (ctx_token ctx))) as logo.
  generalize (found (ctx_website ctx)) as site.
  generalize (resolutionSource (ctx_token ctx)) as source.
  intros source site logo website address clips Hweb Hlogo Hfallback Hfound.
  destruct (Z.eqb_spec clips 2) as [Hclips|Hclips];
    destruct (Z.ltb_spec clips 2) as [Hfew|Hfew]; try lia;
    destruct site; try (specialize (Hfound eq_refl)); try subst website;
    try (specialize (Hweb eq_refl)); try subst source;
    destruct logo; try (specialize (Hlogo eq_refl)); try subst source;
    try (destruct source); cbn;
    repeat match goal with
           | |- _ /\ _ => split
           | |- _ <-> _ => split
           | |- _ -> _ => intro
           | Hx : _ /\ _ |- _ => destruct Hx
           end;
    try reflexivity; try discriminate; try lia; try congruence;
    try (destruct (Hfallback eq_refl) as [Ha Hb]; congruence).
Qed.

(** The tags at work: the token is listed with a logo and a website, and
    two of the three clips come out. *)
Lemma job_tags_over_source_stages_witness :
  exists ctx w',
    runJob (sourceStages simTwoClipsUp simEnvRunway simTexts
                         (simThreeClipVideo simTwoClipsUp simEnvRunway))
           simDoge simStart = (Returns ctx, w') /\
    data_source (jobOutput ctx 0) = Website /\
    confidence_level (jobOutput ctx 0) = 4.
Proof.
  destruct (runJob (sourceStages simTwoClipsUp simEnvRunway simTexts
                         (simThreeClipVideo simTwoClipsUp simEnvRunway))
                   simDoge simStart) as [[ctx|e] w'] eqn:Hrun;
    [|vm_compute in Hrun; discriminate Hrun].
  exists ctx, w'. split; [reflexivity|].
  destruct (job_tags_over_source_stages _ _ _ _ _ _ _ _ 0 Hrun)
    as (Hsite & _ & _ & _ & Hfour).
  vm_compute in Hrun. injection Hrun as <- _.
  split; [apply Hsite; reflexivity|apply Hfour; repeat split].
Defined.

(** ** [modules/logoManager]: [rgbToHex] *)

Lemma everyChar_append (p : ascii -> bool) (a b : string) :
  everyChar p (a +:+ b) = everyChar p a && everyChar p b.
Proof.
  induction a as [|c a IH]; [reflexivity|].
  rewrite append_cons. cbn [everyChar]. rewrite IH, andb_assoc. reflexivity.
Qed.

(** A channel of a colour gives two digits. *)
Lemma hexByte_channel (n : Z) :
  0 <= n <= 255 ->
  String.length (Js.hexByte n) = 2%nat /\ everyChar isHexDigit (Js.hexByte n) = true.
Proof.
  intros Hn.
  assert (Hall : forallb (fun k => (String.length (Js.hexByte (Z.of_nat k)) =? 2)%nat
                                   && everyChar isHexDigit (Js.hexByte (Z.of_nat k)))
                         (seq 0 256) = true) by (vm_compute; reflexivity).
  rewrite forallb_forall in Hall.
  specialize (Hall (Z.to_nat n)). rewrite Z2Nat.id in Hall by lia.
  destruct (andb_prop _ _ (Hall ltac:(apply in_seq; lia))) as [Hlen Hdigits].
  split; [apply Nat.eqb_eq, Hlen|exact Hdigits].
Qed.

(** X15: the colour [rgbToHex] writes.  For channels between 0 and 255 it is
    a number sign followed by six digits of base 16 in lower case, two for
    each channel in the order red, green, blue. *)
Theorem rgbToHex_shape (r g b : Z) :
  0 <= r <= 255 -> 0 <= g <= 255 -> 0 <= b <= 255 ->
  rgbToHex (r, g, b) = String "#" (Js.hexByte r +:+ Js.hexByte g +:+ Js.hexByte b) /\
  String.length (rgbToHex (r, g, b)) = 7%nat /\
  everyChar isHexDigit (Js.hexByte r +:+ Js.hexByte g +:+ Js.hexByte b) = true.
Proof.
  intros Hr Hg Hb.
  destruct (hexByte_channel r Hr) as [Hlr Hdr].
  destruct (hexByte_channel g Hg) as [Hlg Hdg].
  destruct (hexByte_channel b Hb) as [Hlb Hdb].
  split; [reflexivity|]. split.
  - change (rgbToHex (r, g, b))
      with (String "#" (Js.hexByte r +:+ Js.hexByte g +:+ Js.hexByte b)).
    cbn [String.length]. rewrite !length_append, Hlr, Hlg, Hlb. reflexivity.
  - rewrite !everyChar_append, Hdr, Hdg, Hdb. reflexivity.
Qed.

Lemma rgbToHex_shape_witness :
  rgbToHex (99, 102, 241) = "#6366f1" /\ String.length (rgbToHex (99, 102, 241)) = 7%nat.
Proof.
  destruct (rgbToHex_shape 99 102 241 ltac:(lia) ltac:(lia) ltac:(lia)) as (_ & Hlen & _).
  split; [vm_compute; reflexivity|exact Hlen].
Defined.

Example rgbToHex_pads : rgbToHex (0, 10, 255) = "#000aff".
Proof. vm_compute. reflexivity. Qed.

(** ** [modules/assetUploader]: [uploadBuffer] *)

(** X16: [uploadBuffer].  The URL it returns always ends with a slash and
    the key.  Without a bucket nothing is sent: the world is left as it was
    and the URL is the placeholder one.  With a bucket the object is sent
    once; the function returns when the send does, and it throws exactly the
    error of the send otherwise.  It never throws without a bucket. *)
Theorem uploadBuffer_url {World : Type} `{System World} (remote : Remote World) (env : Env)
  (key : string) (buffer : Buffer) (contentType : string) (w : World) :
  match uploadBuffer remote env key buffer contentType w with
  | (Returns url, w') =>
      (exists origin, url = origin +:+ "/" +:+ key) /\
      (Js.present (S3_BUCKET env) = false ->
       w' = w /\ url = "https://placeholder.s3.amazonaws.com/" +:+ key) /\
      (Js.present (S3_BUCKET env) = true ->
       s3Send remote (default "" (S3_BUCKET env)) key buffer contentType w
       = (Returns tt, w'))
  | (Throws e, w') =>
      Js.present (S3_BUCKET env) = true /\
      s3Send remote (default "" (S3_BUCKET env)) key buffer contentType w = (Throws e, w')
  end.
Proof.
  unfold uploadBuffer. destruct (Js.present (S3_BUCKET env)) eqn:Hbucket; cbn [negb].
  - unfold bind, ret.
    destruct (s3Send remote _ key buffer contentType w) as [[[]|e] w1].
    + split; [|split; [intros Hx; discriminate Hx|reflexivity]].
      destruct (Js.present (S3_PUBLIC_URL env)).
      * exists (default "" (S3_PUBLIC_URL env)). reflexivity.
      * exists ("https://" +:+ default "" (S3_BUCKET env) +:+ ".s3.amazonaws.com").
        rewrite !append_assoc. reflexivity.
    + split; reflexivity.
  - cbn. split; [exists "https://placeholder.s3.amazonaws.com"; reflexivity|].
    split; [intros _; split; reflexivity|intros Hx; discriminate Hx].
Qed.

(** ** [pollShotstackRender] *)

Section PollFacts.
Context {World : Type} `{System World}.
Variable getRender : string -> string -> M World RenderReply.
Variable subject : string.
Variables maxWait interval : Z.

(** Time passes: a wait takes at least as long as asked, and the clock is
    not turned back during a request. *)
Hypothesis sleep_takes_time : forall ms w, clock w + ms <= clock (sleep ms w).
Hypothesis request_takes_time :
  forall renderId apiKey w r w', getRender renderId apiKey w = (r, w') -> clock w <= clock w'.
Hypothesis interval_positive : 0 < interval.

Lemma pollLoop_more_fuel (renderId apiKey : string) (start : Z) (fuel : nat) :
  forall (extra : nat) (w : World) (end_ : Completion string * World),
    pollLoop getRender subject maxWait interval fuel renderId apiKey start w = Some end_ ->
    pollLoop getRender subject maxWait interval (fuel + extra) renderId apiKey start w = Some end_.
Proof.
  induction fuel as [|fuel IH]; intros extra w end_; [discriminate|].
  cbn [Nat.add pollLoop]. destruct (clock w - start <? maxWait); [|exact (fun Hx => Hx)].
  destruct (getRender renderId apiKey w) as [[res|e] w1]; [|exact (fun Hx => Hx)].
  destruct (render_status res) as [status|]; [|apply IH].
  destruct (String.eqb status "done"); [exact (fun Hx => Hx)|].
  destruct (String.eqb status "failed"); [exact (fun Hx => Hx)|apply IH].
Qed.

Lemma pollLoop_ends (renderId apiKey : string) (w0 : World) (fuel : nat) :
  forall w : World,
    clock w0 <= clock w ->
    maxWait - (clock w - clock w0) <= (Z.of_nat fuel - 1) * interval ->
    (1 <= fuel)%nat ->
    exists r w',
      pollLoop getRender subject maxWait interval fuel renderId apiKey (clock w0) w = Some (r, w') /\
      PollOutcome getRender subject maxWait renderId apiKey w0 r w'.
Proof.
  induction fuel as [|fuel IH]; intros w Hlater Hfuel Hone; [lia|].
  cbn [pollLoop]. destruct (Z.ltb_spec (clock w - clock w0) maxWait) as [Hgo|Hstop].
  - assert (Hnext : forall w1, clock w <= clock w1 ->
               exists r w',
                 pollLoop getRender subject maxWait interval fuel renderId apiKey (clock w0)
                          (sleep interval w1) = Some (r, w') /\
                 PollOutcome getRender subject maxWait renderId apiKey w0 r w').
    { intros w1 Hw1. pose proof (sleep_takes_time interval w1) as Hslept.
      apply IH; [lia|nia|nia]. }
    destruct (getRender renderId apiKey w) as [[res|e] w1] eqn:Hrequest.
    + pose proof (request_takes_time _ _ _ _ _ Hrequest) as Hw1.
      destruct (render_status res) as [status|] eqn:Hstatus; [|exact (Hnext w1 Hw1)].
      destruct (String.eqb_spec status "done") as [->|Hnot_done].
      * eexists. eexists. split; [reflexivity|]. left.
        exists res, w. split; [exact Hrequest|]. split; [exact Hstatus|reflexivity].
      * destruct (String.eqb_spec status "failed") as [->|Hnot_failed];
          [|exact (Hnext w1 Hw1)].
        eexists. eexists. split; [reflexivity|]. right. left.
        exists res, w. split; [exact Hrequest|]. split; [exact Hstatus|reflexivity].
    + eexists. eexists. split; [reflexivity|]. right. right. left.
      exists e, w. split; [exact Hrequest|reflexivity].
  - eexists. eexists. split; [reflexivity|]. right. right. right.
    split; [reflexivity|lia].
Qed.

(** X17: the loop that waits for a render ends.  Let time pass: a wait
    takes at least as long as asked and no request turns the clock back.
    Then the loop ends within [maxWait / interval] polls, rounded up, and
    one more loop test, whatever the renderer answers: with that much fuel,
    or more, the model gives the same end.  It ends in one of four ways: the
    URL of a reply whose status is "done"; the error "render failed" after
    a reply whose status is "failed"; the error of a request that failed;
    or the error "render timed out", and then at least [maxWait]
    milliseconds have passed.  The errors name what was rendered: "Shotstack
    render" in the banner generator, "Shotstack video render" in the video
    generator. *)
Theorem pollRender_ends (renderId apiKey : string) (w : World) (fuel : nat) :
  maxWait <= (Z.of_nat fuel - 1) * interval ->
  (1 <= fuel)%nat ->
  exists r w',
    (forall extra : nat,
        pollRender getRender subject maxWait interval (fuel + extra) renderId apiKey w
        = Some (r, w')) /\
    PollOutcome getRender subject maxWait renderId apiKey w r w'.
Proof.
  intros Hfuel Hone.
  destruct (pollLoop_ends renderId apiKey w fuel w ltac:(lia) ltac:(lia) Hone)
    as (r & w' & Hrun & Hout).
  exists r, w'. split; [|exact Hout].
  intros extra. unfold pollRender. apply pollLoop_more_fuel, Hrun.
Qed.

End PollFacts.

(** The banner render of the compiled module with a renderer that takes 12
    seconds: 25 loop tests are enough for 120 s at 5 s a poll, and the URL
    comes with the fourth reply. *)
Lemma pollRender_ends_witness :
  exists w',
    pollShotstackRender (simRender 12000) 25 "r1" "key" simStart
    = Some (Returns "https://shotstack.example/r1.jpg", w') /\
    sim_requests w' = 4.
Proof.
  assert (Hsleep : forall ms (w : Sim), clock w + ms <= clock (sleep ms w))
    by (intros ms w; cbn; lia).
  assert (Hrequest : forall renderId apiKey (w : Sim) r w',
             simRender 12000 renderId apiKey w = (r, w') -> clock w <= clock w').
  { intros renderId apiKey w r w' Hx. unfold simRender, simRequest in Hx.
    injection Hx as _ <-. cbn. lia. }
  destruct (pollRender_ends (simRender 12000) "Shotstack render" 120000 5000
              Hsleep Hrequest ltac:(lia)
              "r1" "key" simStart 25 ltac:(lia) ltac:(lia)) as (r & w' & Hrun & _).
  specialize (Hrun 0%nat). vm_compute in Hrun. injection Hrun as _ <-.
  eexists. split; [vm_compute; reflexivity|reflexivity].
Defined.

Example pollShotstackVideoRender_times_out :
  pollShotstackVideoRender (simRender 1000000) 19 "r1" "key" simStart
  = Some (Throws (Error "Shotstack video render timed out: r1"),
          {| sim_time := 180018; sim_requests := 18 |}).
Proof. vm_compute. reflexivity. Qed.

Example pollShotstackVideoRender_needs_fuel :
  pollShotstackVideoRender (simRender 1000000) 18 "r1" "key" simStart = None.
Proof. vm_compute. reflexivity. Qed.

(** ** Lengths are counted in UTF-16 code units *)

Example len_counts_code_units :
  Js.len "Doge — ok" = 9 /\ String.length "Doge — ok" = 11%nat /\
  Js.len "🚀" = 2 /\ String.length "🚀" = 4%nat /\
  Js.len "日本語" = 3 /\ String.length "日本語" = 9%nat.
Proof. repeat split. Qed.

(** A first sentence of 119 code units, 121 bytes, is taken as the
    one-liner; one of 9 code units, 11 bytes, is not. *)
Example buildCreativeBrief_counts_code_units :
  let long := "Doge — " +:+ Js.repeat "a" 112 in
  Js.len long = 119 /\
  oneLiner (buildCreativeBrief 0 "doge" fallbackToken placeholderLogo Hybrid
              {| extractedText := Some (long +:+ ". More."); found := true |})
  = long /\
  oneLiner (buildCreativeBrief 0 "doge" fallbackToken placeholderLogo Hybrid
              {| extractedText := Some "Doge — ok. More."; found := true |})
  = "DOGE — a hybrid token on Base".
Proof. vm_compute. repeat split. Qed.

Example extractTagline_counts_code_units :
  extractTagline "Doge — ok. More" "doge" = "$DOGE — The Next Chapter" /\
  extractTagline ("Doge — " +:+ Js.repeat "a" 73 +:+ ". More") "doge"
  = "Doge — " +:+ Js.repeat "a" 73.
Proof. vm_compute. repeat split. Qed.

Example extractCta_counts_code_units :
  extractCta "a — b. c" "doge" = "$DOGE" /\
  extractCta ("🚀 " +:+ Js.repeat "a" 47 +:+ "! c") "doge" = "🚀 " +:+ Js.repeat "a" 47.
Proof. vm_compute. repeat split. Qed.

(** A page of ten letters of two bytes each has ten code units: too short. *)
Example scrapeWebsite_counts_code_units :
  scrapeWebsite (simLibraries (fun _ => simDown)
                   (fun _ => simRequest (fun _ => Returns "éééééééééé"))
                   (fun _ => simDown) (fun _ _ _ => simDown) (fun _ _ => simDown))
                simTexts (Some "https://doge.example") simStart
  = (Returns notFound, {| sim_time := 1; sim_requests := 1 |}).
Proof. vm_compute. reflexivity. Qed.

(** ** White space beyond ASCII *)

(** [trim] removes the white space of Unicode as it removes the space, and
    leaves a letter alone that shares a byte with one. *)
Example trim_unicode_space :
  Js.trim (simNoBreakSpace +:+ " Doge " +:+ simIdeographicSpace) = "Doge" /\
  Js.trim (simIdeographicSpace +:+ simNoBreakSpace) = "" /\
  Js.trim "à la lune " = "à la lune" /\
  Js.len simNoBreakSpace = 1 /\ Js.len simIdeographicSpace = 1.
Proof. vm_compute. repeat split. Qed.

Example normalizeLabel_unicode_space :
  normalizeLabel (simIdeographicSpace +:+ "Hype" +:+ simNoBreakSpace) = "hype".
Proof. vm_compute. reflexivity. Qed.

Example extractTagline_unicode_space :
  extractTagline (simIdeographicSpace +:+ "Hello big world today. Next") "doge"
  = "Hello big world today".
Proof. vm_compute. reflexivity. Qed.

(** ** Without the key of the model *)

(** With no variable set at all, [generatePosts] throws from the
    constructor of the client, before any request, and so does
    [runPipeline]: nothing is sent to the text model. *)
Example generatePosts_without_key :
  generatePosts simClipsUp simEnvEmpty simTexts
    (buildCreativeBrief 0 "DOGE" fallbackToken placeholderLogo Hybrid notFound)
    (resolveToneProfile Hybrid None None None) notFound simStart
  = (Throws (Error "The OPENAI_API_KEY environment variable is missing or empty; either provide it, or instantiate the OpenAI client with an apiKey option, like new OpenAI({ apiKey: 'My API Key' })."),
     simStart).
Proof. vm_compute. reflexivity. Qed.

Example runPipeline_without_key :
  exists message w',
    runPipeline (sourceStages simNetworkDown simEnvEmpty simTexts simNoClips)
                simDoge simStart = (Throws (Error message), w') /\
    Js.startsWith message "The OPENAI_API_KEY environment variable is missing" = true.
Proof. eexists. eexists. split; vm_compute; reflexivity. Qed.
